(** * Quotation service (src/app.py): calculator, renderer texts, history log

    A shallow embedding of the FastAPI application in [src/app.py].

    - Python [float] is IEEE 754 binary64: it is modelled by Rocq's primitive
      floats ([PrimFloat]), whose operations are specified by [SpecFloat]
      through [FloatAxioms].
    - Python [int] is [Z].
    - Python [str] is a sequence of code points, held as the [string] of the
      bytes of its UTF-8 encoding; the case mappings, [strip], slices, [len]
      and the digits of [strptime] act on code points, with the tables of
      the interpreter's character database.
    - A raised exception is the [Raise] branch of [result].
    - The JSON file of the history log is modelled by the Python value that
      [json.load] returns for it ([json]); [json.dump] stores that value.
    - The PDF canvas is modelled by the texts drawn on it, not by coordinates. *)

From Stdlib Require Import ZArith List String Ascii Bool Lia QArith Qabs.
From Stdlib Require Import Floats.
From Stdlib Require Import DecimalString.
From Stdlib Require DecimalN DecimalPos.
Import ListNotations.

Local Open Scope string_scope.
Local Open Scope Z_scope.

(* ================================================================== *)
(** ** Exceptions *)

Inductive exn : Type :=
| ValueError | OverflowError | TypeError | AttributeError | IndexError | KeyError.

Inductive result (A : Type) : Type :=
| Ok (a : A)
| Raise (e : exn).
Arguments Ok {A} a.
Arguments Raise {A} e.

Definition bind {A B : Type} (r : result A) (k : A -> result B) : result B :=
  match r with
  | Ok a => k a
  | Raise e => Raise e
  end.

Definition fmap {A B : Type} (f : A -> B) (r : result A) : result B :=
  bind r (fun a => Ok (f a)).

Notation "x <- r ;; k" := (bind r (fun x => k))
  (at level 61, r at next level, right associativity).

(* ================================================================== *)
(** ** Python floats *)

Module PyFloat.

(** [round_half_even n d]: the integer nearest to [n / d] for [0 < d],
    a tie going to the even neighbour. *)
Definition round_half_even (n d : Z) : Z :=
  let q := n / d in
  let r := n mod d in
  if 2 * r <? d then q
  else if d <? 2 * r then q + 1
  else if Z.even q then q else q + 1.

(** The magnitude [m * 2^e] of a finite float as a fraction [(n, d)]. *)
Definition mag_num (m : positive) (e : Z) : Z :=
  match e with
  | Zpos p => Zpos m * 2 ^ Zpos p
  | _ => Zpos m
  end.

Definition mag_den (e : Z) : Z :=
  match e with
  | Zneg p => 2 ^ Zpos p
  | _ => 1
  end.

(** [round(x)] with one argument: nearest integer, ties to even, as an
    [int]; [ValueError] on NaN, [OverflowError] on an infinity. *)
Definition py_round (x : float) : result Z :=
  match Prim2SF x with
  | S754_nan => Raise ValueError
  | S754_infinity _ => Raise OverflowError
  | S754_zero _ => Ok 0
  | S754_finite s m e =>
      Ok (cond_Zopp s (round_half_even (mag_num m e) (mag_den e)))
  end.

(** The exact rational value of a float, [None] for NaN and infinities. *)
Definition exact_sf (f : spec_float) : option Q :=
  match f with
  | S754_nan | S754_infinity _ => None
  | S754_zero _ => Some 0%Q
  | S754_finite s m e =>
      Some (Qmake (cond_Zopp s (mag_num m e)) (Z.to_pos (mag_den e)))
  end.

Definition exact (x : float) : option Q := exact_sf (Prim2SF x).

(** [int] to [float] in mixed arithmetic: correctly rounded,
    [OverflowError] when the integer is too large. *)
Definition float_of_int (z : Z) : result float :=
  match binary_normalize prec emax z 0 false with
  | S754_infinity _ => Raise OverflowError
  | f => Ok (SF2Prim f)
  end.

(** [x or 0.0]: a float is falsy when it compares equal to zero. *)
Definition truthy (x : float) : bool := negb (PrimFloat.eqb x 0%float).

(** [sum(xs)]: the additions [0 + x1 + x2 + ...] from left to right, the
    integer 0 being converted to [0.0] by the first of them (the compensated
    summation some interpreter versions apply to floats is not modelled). *)
Definition py_sum (xs : list float) : float :=
  fold_left PrimFloat.add xs 0%float.

(** *** Fixed-point formatting: [format(x, ",.kf")], [format(x, "+.kf")] *)

Definition dec_string (n : Z) : string :=
  NilZero.string_of_uint (N.to_uint (Z.to_N n)).

Fixpoint zeros (k : nat) : string :=
  match k with
  | O => ""
  | S k' => String "0" (zeros k')
  end.

(** Left padding with zeros up to [width] characters. *)
Definition zero_pad (width : nat) (s : string) : string :=
  zeros (width - String.length s) ++ s.

(** Thousands separators, counted from the right. *)
Fixpoint group3 (digits : list ascii) : list ascii :=
  match digits with
  | [] => []
  | c :: rest =>
      if Nat.eqb (Nat.modulo (List.length rest) 3) 0 && negb (Nat.eqb (List.length rest) 0)
      then c :: ","%char :: group3 rest
      else c :: group3 rest
  end.

Definition format_f (k : nat) (grouping plus : bool) (x : float) : string :=
  let sign (s : bool) := if s then "-" else if plus then "+" else "" in
  match Prim2SF x with
  | S754_nan => sign false ++ "nan"
  | S754_infinity s => sign s ++ "inf"
  | f =>
      let '(s, n, d) :=
        match f with
        | S754_finite s m e => (s, mag_num m e * 10 ^ Z.of_nat k, mag_den e)
        | S754_zero s => (s, 0, 1)
        | _ => (false, 0, 1)
        end in
      let ds := zero_pad (S k) (dec_string (round_half_even n d)) in
      let cut := (String.length ds - k)%nat in
      let ip := substring 0 cut ds in
      let fp := substring cut k ds in
      let ip' := if grouping
                 then string_of_list_ascii (group3 (list_ascii_of_string ip))
                 else ip in
      sign s ++ ip' ++ (if Nat.eqb k 0 then "" else "." ++ fp)
  end.

(** *** Vocabulary for the facts on binary64 values *)

Definition is_zero (f : spec_float) : bool :=
  match f with
  | S754_zero _ => true
  | _ => false
  end.

(** Equality of floats up to the sign of zero. *)
Definition zeq (x y : float) : Prop :=
  Prim2SF x = Prim2SF y \/
  (is_zero (Prim2SF x) = true /\ is_zero (Prim2SF y) = true).

(** A non-zero value of sign [s]: finite or infinite. *)
Definition signed (s : bool) (f : spec_float) : Prop :=
  (exists m e, f = S754_finite s m e) \/ f = S754_infinity s.

(** [2^e] as a rational. *)
Definition two_pow (e : Z) : Q := Qmake (mag_num 1 e) (Z.to_pos (mag_den e)).

End PyFloat.

(* ================================================================== *)
(** ** The character database of the interpreter

    The tables of Unicode 14.0.0, the version CPython 3.11 is built with:
    case mappings, the properties Cased and Case_Ignorable, the decimal
    digits and the white space of [str.isspace]. A case table holds rows
    [(first, last, step, delta)]: the code points [first], [first + step],
    ... up to [last] map to themselves plus [delta]; a code point with a
    mapping of several code points is in the table of special mappings. *)

Module Unicode.

Definition lowercase : list (Z * Z * Z * Z) :=
  [ (65, 90, 1, 32); (192, 214, 1, 32); (216, 222, 1, 32); (256, 302, 2, 1); (306, 310, 2, 1);
    (313, 327, 2, 1); (330, 374, 2, 1); (376, 376, 1, (-121)); (377, 381, 2, 1);
    (385, 385, 1, 210); (386, 388, 2, 1); (390, 390, 1, 206); (391, 391, 1, 1);
    (393, 394, 1, 205); (395, 395, 1, 1); (398, 398, 1, 79); (399, 399, 1, 202);
    (400, 400, 1, 203); (401, 401, 1, 1); (403, 403, 1, 205); (404, 404, 1, 207);
    (406, 406, 1, 211); (407, 407, 1, 209); (408, 408, 1, 1); (412, 412, 1, 211);
    (413, 413, 1, 213); (415, 415, 1, 214); (416, 420, 2, 1); (422, 422, 1, 218);
    (423, 423, 1, 1); (425, 425, 1, 218); (428, 428, 1, 1); (430, 430, 1, 218);
    (431, 431, 1, 1); (433, 434, 1, 217); (435, 437, 2, 1); (439, 439, 1, 219);
    (440, 440, 1, 1); (444, 444, 1, 1); (452, 452, 1, 2); (453, 453, 1, 1); (455, 455, 1, 2);
    (456, 456, 1, 1); (458, 458, 1, 2); (459, 475, 2, 1); (478, 494, 2, 1); (497, 497, 1, 2);
    (498, 500, 2, 1); (502, 502, 1, (-97)); (503, 503, 1, (-56)); (504, 542, 2, 1);
    (544, 544, 1, (-130)); (546, 562, 2, 1); (570, 570, 1, 10795); (571, 571, 1, 1);
    (573, 573, 1, (-163)); (574, 574, 1, 10792); (577, 577, 1, 1); (579, 579, 1, (-195));
    (580, 580, 1, 69); (581, 581, 1, 71); (582, 590, 2, 1); (880, 882, 2, 1); (886, 886, 1, 1);
    (895, 895, 1, 116); (902, 902, 1, 38); (904, 906, 1, 37); (908, 908, 1, 64);
    (910, 911, 1, 63); (913, 929, 1, 32); (931, 939, 1, 32); (975, 975, 1, 8);
    (984, 1006, 2, 1); (1012, 1012, 1, (-60)); (1015, 1015, 1, 1); (1017, 1017, 1, (-7));
    (1018, 1018, 1, 1); (1021, 1023, 1, (-130)); (1024, 1039, 1, 80); (1040, 1071, 1, 32);
    (1120, 1152, 2, 1); (1162, 1214, 2, 1); (1216, 1216, 1, 15); (1217, 1229, 2, 1);
    (1232, 1326, 2, 1); (1329, 1366, 1, 48); (4256, 4293, 1, 7264); (4295, 4295, 1, 7264);
    (4301, 4301, 1, 7264); (5024, 5103, 1, 38864); (5104, 5109, 1, 8); (7312, 7354, 1, (-3008));
    (7357, 7359, 1, (-3008)); (7680, 7828, 2, 1); (7838, 7838, 1, (-7615)); (7840, 7934, 2, 1);
    (7944, 7951, 1, (-8)); (7960, 7965, 1, (-8)); (7976, 7983, 1, (-8)); (7992, 7999, 1, (-8));
    (8008, 8013, 1, (-8)); (8025, 8031, 2, (-8)); (8040, 8047, 1, (-8)); (8072, 8079, 1, (-8));
    (8088, 8095, 1, (-8)); (8104, 8111, 1, (-8)); (8120, 8121, 1, (-8)); (8122, 8123, 1, (-74));
    (8124, 8124, 1, (-9)); (8136, 8139, 1, (-86)); (8140, 8140, 1, (-9)); (8152, 8153, 1, (-8));
    (8154, 8155, 1, (-100)); (8168, 8169, 1, (-8)); (8170, 8171, 1, (-112));
    (8172, 8172, 1, (-7)); (8184, 8185, 1, (-128)); (8186, 8187, 1, (-126));
    (8188, 8188, 1, (-9)); (8486, 8486, 1, (-7517)); (8490, 8490, 1, (-8383));
    (8491, 8491, 1, (-8262)); (8498, 8498, 1, 28); (8544, 8559, 1, 16); (8579, 8579, 1, 1);
    (9398, 9423, 1, 26); (11264, 11311, 1, 48); (11360, 11360, 1, 1);
    (11362, 11362, 1, (-10743)); (11363, 11363, 1, (-3814)); (11364, 11364, 1, (-10727));
    (11367, 11371, 2, 1); (11373, 11373, 1, (-10780)); (11374, 11374, 1, (-10749));
    (11375, 11375, 1, (-10783)); (11376, 11376, 1, (-10782)); (11378, 11378, 1, 1);
    (11381, 11381, 1, 1); (11390, 11391, 1, (-10815)); (11392, 11490, 2, 1);
    (11499, 11501, 2, 1); (11506, 11506, 1, 1); (42560, 42604, 2, 1); (42624, 42650, 2, 1);
    (42786, 42798, 2, 1); (42802, 42862, 2, 1); (42873, 42875, 2, 1);
    (42877, 42877, 1, (-35332)); (42878, 42886, 2, 1); (42891, 42891, 1, 1);
    (42893, 42893, 1, (-42280)); (42896, 42898, 2, 1); (42902, 42920, 2, 1);
    (42922, 42922, 1, (-42308)); (42923, 42923, 1, (-42319)); (42924, 42924, 1, (-42315));
    (42925, 42925, 1, (-42305)); (42926, 42926, 1, (-42308)); (42928, 42928, 1, (-42258));
    (42929, 42929, 1, (-42282)); (42930, 42930, 1, (-42261)); (42931, 42931, 1, 928);
    (42932, 42946, 2, 1); (42948, 42948, 1, (-48)); (42949, 42949, 1, (-42307));
    (42950, 42950, 1, (-35384)); (42951, 42953, 2, 1); (42960, 42960, 1, 1);
    (42966, 42968, 2, 1); (42997, 42997, 1, 1); (65313, 65338, 1, 32); (66560, 66599, 1, 40);
    (66736, 66771, 1, 40); (66928, 66938, 1, 39); (66940, 66954, 1, 39); (66956, 66962, 1, 39);
    (66964, 66965, 1, 39); (68736, 68786, 1, 64); (71840, 71871, 1, 32); (93760, 93791, 1, 32);
    (125184, 125217, 1, 34) ].

Definition lowercase_special : list (Z * list Z) :=
  [ (304, [105; 775]) ].

Definition uppercase : list (Z * Z * Z * Z) :=
  [ (97, 122, 1, (-32)); (181, 181, 1, 743); (224, 246, 1, (-32)); (248, 254, 1, (-32));
    (255, 255, 1, 121); (257, 303, 2, (-1)); (305, 305, 1, (-232)); (307, 311, 2, (-1));
    (314, 328, 2, (-1)); (331, 375, 2, (-1)); (378, 382, 2, (-1)); (383, 383, 1, (-300));
    (384, 384, 1, 195); (387, 389, 2, (-1)); (392, 392, 1, (-1)); (396, 396, 1, (-1));
    (402, 402, 1, (-1)); (405, 405, 1, 97); (409, 409, 1, (-1)); (410, 410, 1, 163);
    (414, 414, 1, 130); (417, 421, 2, (-1)); (424, 424, 1, (-1)); (429, 429, 1, (-1));
    (432, 432, 1, (-1)); (436, 438, 2, (-1)); (441, 441, 1, (-1)); (445, 445, 1, (-1));
    (447, 447, 1, 56); (453, 453, 1, (-1)); (454, 454, 1, (-2)); (456, 456, 1, (-1));
    (457, 457, 1, (-2)); (459, 459, 1, (-1)); (460, 460, 1, (-2)); (462, 476, 2, (-1));
    (477, 477, 1, (-79)); (479, 495, 2, (-1)); (498, 498, 1, (-1)); (499, 499, 1, (-2));
    (501, 501, 1, (-1)); (505, 543, 2, (-1)); (547, 563, 2, (-1)); (572, 572, 1, (-1));
    (575, 576, 1, 10815); (578, 578, 1, (-1)); (583, 591, 2, (-1)); (592, 592, 1, 10783);
    (593, 593, 1, 10780); (594, 594, 1, 10782); (595, 595, 1, (-210)); (596, 596, 1, (-206));
    (598, 599, 1, (-205)); (601, 601, 1, (-202)); (603, 603, 1, (-203)); (604, 604, 1, 42319);
    (608, 608, 1, (-205)); (609, 609, 1, 42315); (611, 611, 1, (-207)); (613, 613, 1, 42280);
    (614, 614, 1, 42308); (616, 616, 1, (-209)); (617, 617, 1, (-211)); (618, 618, 1, 42308);
    (619, 619, 1, 10743); (620, 620, 1, 42305); (623, 623, 1, (-211)); (625, 625, 1, 10749);
    (626, 626, 1, (-213)); (629, 629, 1, (-214)); (637, 637, 1, 10727); (640, 640, 1, (-218));
    (642, 642, 1, 42307); (643, 643, 1, (-218)); (647, 647, 1, 42282); (648, 648, 1, (-218));
    (649, 649, 1, (-69)); (650, 651, 1, (-217)); (652, 652, 1, (-71)); (658, 658, 1, (-219));
    (669, 669, 1, 42261); (670, 670, 1, 42258); (837, 837, 1, 84); (881, 883, 2, (-1));
    (887, 887, 1, (-1)); (891, 893, 1, 130); (940, 940, 1, (-38)); (941, 943, 1, (-37));
    (945, 961, 1, (-32)); (962, 962, 1, (-31)); (963, 971, 1, (-32)); (972, 972, 1, (-64));
    (973, 974, 1, (-63)); (976, 976, 1, (-62)); (977, 977, 1, (-57)); (981, 981, 1, (-47));
    (982, 982, 1, (-54)); (983, 983, 1, (-8)); (985, 1007, 2, (-1)); (1008, 1008, 1, (-86));
    (1009, 1009, 1, (-80)); (1010, 1010, 1, 7); (1011, 1011, 1, (-116)); (1013, 1013, 1, (-96));
    (1016, 1016, 1, (-1)); (1019, 1019, 1, (-1)); (1072, 1103, 1, (-32));
    (1104, 1119, 1, (-80)); (1121, 1153, 2, (-1)); (1163, 1215, 2, (-1)); (1218, 1230, 2, (-1));
    (1231, 1231, 1, (-15)); (1233, 1327, 2, (-1)); (1377, 1414, 1, (-48));
    (4304, 4346, 1, 3008); (4349, 4351, 1, 3008); (5112, 5117, 1, (-8));
    (7296, 7296, 1, (-6254)); (7297, 7297, 1, (-6253)); (7298, 7298, 1, (-6244));
    (7299, 7300, 1, (-6242)); (7301, 7301, 1, (-6243)); (7302, 7302, 1, (-6236));
    (7303, 7303, 1, (-6181)); (7304, 7304, 1, 35266); (7545, 7545, 1, 35332);
    (7549, 7549, 1, 3814); (7566, 7566, 1, 35384); (7681, 7829, 2, (-1));
    (7835, 7835, 1, (-59)); (7841, 7935, 2, (-1)); (7936, 7943, 1, 8); (7952, 7957, 1, 8);
    (7968, 7975, 1, 8); (7984, 7991, 1, 8); (8000, 8005, 1, 8); (8017, 8023, 2, 8);
    (8032, 8039, 1, 8); (8048, 8049, 1, 74); (8050, 8053, 1, 86); (8054, 8055, 1, 100);
    (8056, 8057, 1, 128); (8058, 8059, 1, 112); (8060, 8061, 1, 126); (8112, 8113, 1, 8);
    (8126, 8126, 1, (-7205)); (8144, 8145, 1, 8); (8160, 8161, 1, 8); (8165, 8165, 1, 7);
    (8526, 8526, 1, (-28)); (8560, 8575, 1, (-16)); (8580, 8580, 1, (-1));
    (9424, 9449, 1, (-26)); (11312, 11359, 1, (-48)); (11361, 11361, 1, (-1));
    (11365, 11365, 1, (-10795)); (11366, 11366, 1, (-10792)); (11368, 11372, 2, (-1));
    (11379, 11379, 1, (-1)); (11382, 11382, 1, (-1)); (11393, 11491, 2, (-1));
    (11500, 11502, 2, (-1)); (11507, 11507, 1, (-1)); (11520, 11557, 1, (-7264));
    (11559, 11559, 1, (-7264)); (11565, 11565, 1, (-7264)); (42561, 42605, 2, (-1));
    (42625, 42651, 2, (-1)); (42787, 42799, 2, (-1)); (42803, 42863, 2, (-1));
    (42874, 42876, 2, (-1)); (42879, 42887, 2, (-1)); (42892, 42892, 1, (-1));
    (42897, 42899, 2, (-1)); (42900, 42900, 1, 48); (42903, 42921, 2, (-1));
    (42933, 42947, 2, (-1)); (42952, 42954, 2, (-1)); (42961, 42961, 1, (-1));
    (42967, 42969, 2, (-1)); (42998, 42998, 1, (-1)); (43859, 43859, 1, (-928));
    (43888, 43967, 1, (-38864)); (65345, 65370, 1, (-32)); (66600, 66639, 1, (-40));
    (66776, 66811, 1, (-40)); (66967, 66977, 1, (-39)); (66979, 66993, 1, (-39));
    (66995, 67001, 1, (-39)); (67003, 67004, 1, (-39)); (68800, 68850, 1, (-64));
    (71872, 71903, 1, (-32)); (93792, 93823, 1, (-32)); (125218, 125251, 1, (-34)) ].

Definition uppercase_special : list (Z * list Z) :=
  [ (223, [83; 83]); (329, [700; 78]); (496, [74; 780]); (912, [921; 776; 769]);
    (944, [933; 776; 769]); (1415, [1333; 1362]); (7830, [72; 817]); (7831, [84; 776]);
    (7832, [87; 778]); (7833, [89; 778]); (7834, [65; 702]); (8016, [933; 787]);
    (8018, [933; 787; 768]); (8020, [933; 787; 769]); (8022, [933; 787; 834]);
    (8064, [7944; 921]); (8065, [7945; 921]); (8066, [7946; 921]); (8067, [7947; 921]);
    (8068, [7948; 921]); (8069, [7949; 921]); (8070, [7950; 921]); (8071, [7951; 921]);
    (8072, [7944; 921]); (8073, [7945; 921]); (8074, [7946; 921]); (8075, [7947; 921]);
    (8076, [7948; 921]); (8077, [7949; 921]); (8078, [7950; 921]); (8079, [7951; 921]);
    (8080, [7976; 921]); (8081, [7977; 921]); (8082, [7978; 921]); (8083, [7979; 921]);
    (8084, [7980; 921]); (8085, [7981; 921]); (8086, [7982; 921]); (8087, [7983; 921]);
    (8088, [7976; 921]); (8089, [7977; 921]); (8090, [7978; 921]); (8091, [7979; 921]);
    (8092, [7980; 921]); (8093, [7981; 921]); (8094, [7982; 921]); (8095, [7983; 921]);
    (8096, [8040; 921]); (8097, [8041; 921]); (8098, [8042; 921]); (8099, [8043; 921]);
    (8100, [8044; 921]); (8101, [8045; 921]); (8102, [8046; 921]); (8103, [8047; 921]);
    (8104, [8040; 921]); (8105, [8041; 921]); (8106, [8042; 921]); (8107, [8043; 921]);
    (8108, [8044; 921]); (8109, [8045; 921]); (8110, [8046; 921]); (8111, [8047; 921]);
    (8114, [8122; 921]); (8115, [913; 921]); (8116, [902; 921]); (8118, [913; 834]);
    (8119, [913; 834; 921]); (8124, [913; 921]); (8130, [8138; 921]); (8131, [919; 921]);
    (8132, [905; 921]); (8134, [919; 834]); (8135, [919; 834; 921]); (8140, [919; 921]);
    (8146, [921; 776; 768]); (8147, [921; 776; 769]); (8150, [921; 834]);
    (8151, [921; 776; 834]); (8162, [933; 776; 768]); (8163, [933; 776; 769]);
    (8164, [929; 787]); (8166, [933; 834]); (8167, [933; 776; 834]); (8178, [8186; 921]);
    (8179, [937; 921]); (8180, [911; 921]); (8182, [937; 834]); (8183, [937; 834; 921]);
    (8188, [937; 921]); (64256, [70; 70]); (64257, [70; 73]); (64258, [70; 76]);
    (64259, [70; 70; 73]); (64260, [70; 70; 76]); (64261, [83; 84]); (64262, [83; 84]);
    (64275, [1348; 1350]); (64276, [1348; 1333]); (64277, [1348; 1339]); (64278, [1358; 1350]);
    (64279, [1348; 1341]) ].

Definition cased : list (Z * Z) :=
  [ (65, 90); (97, 122); (170, 170); (181, 181); (186, 186); (192, 214); (216, 246); (248, 442);
    (444, 447); (452, 659); (661, 696); (704, 705); (736, 740); (837, 837); (880, 883);
    (886, 887); (890, 893); (895, 895); (902, 902); (904, 906); (908, 908); (910, 929);
    (931, 1013); (1015, 1153); (1162, 1327); (1329, 1366); (1376, 1416); (4256, 4293);
    (4295, 4295); (4301, 4301); (4304, 4346); (4349, 4351); (5024, 5109); (5112, 5117);
    (7296, 7304); (7312, 7354); (7357, 7359); (7424, 7615); (7680, 7957); (7960, 7965);
    (7968, 8005); (8008, 8013); (8016, 8023); (8025, 8025); (8027, 8027); (8029, 8029);
    (8031, 8061); (8064, 8116); (8118, 8124); (8126, 8126); (8130, 8132); (8134, 8140);
    (8144, 8147); (8150, 8155); (8160, 8172); (8178, 8180); (8182, 8188); (8305, 8305);
    (8319, 8319); (8336, 8348); (8450, 8450); (8455, 8455); (8458, 8467); (8469, 8469);
    (8473, 8477); (8484, 8484); (8486, 8486); (8488, 8488); (8490, 8493); (8495, 8500);
    (8505, 8505); (8508, 8511); (8517, 8521); (8526, 8526); (8544, 8575); (8579, 8580);
    (9398, 9449); (11264, 11492); (11499, 11502); (11506, 11507); (11520, 11557);
    (11559, 11559); (11565, 11565); (42560, 42605); (42624, 42653); (42786, 42887);
    (42891, 42894); (42896, 42954); (42960, 42961); (42963, 42963); (42965, 42969);
    (42997, 42998); (43000, 43002); (43824, 43866); (43868, 43880); (43888, 43967);
    (64256, 64262); (64275, 64279); (65313, 65338); (65345, 65370); (66560, 66639);
    (66736, 66771); (66776, 66811); (66928, 66938); (66940, 66954); (66956, 66962);
    (66964, 66965); (66967, 66977); (66979, 66993); (66995, 67001); (67003, 67004);
    (67456, 67456); (67459, 67461); (67463, 67504); (67506, 67514); (68736, 68786);
    (68800, 68850); (71840, 71903); (93760, 93823); (119808, 119892); (119894, 119964);
    (119966, 119967); (119970, 119970); (119973, 119974); (119977, 119980); (119982, 119993);
    (119995, 119995); (119997, 120003); (120005, 120069); (120071, 120074); (120077, 120084);
    (120086, 120092); (120094, 120121); (120123, 120126); (120128, 120132); (120134, 120134);
    (120138, 120144); (120146, 120485); (120488, 120512); (120514, 120538); (120540, 120570);
    (120572, 120596); (120598, 120628); (120630, 120654); (120656, 120686); (120688, 120712);
    (120714, 120744); (120746, 120770); (120772, 120779); (122624, 122633); (122635, 122654);
    (125184, 125251); (127280, 127305); (127312, 127337); (127344, 127369) ].

Definition case_ignorable : list (Z * Z) :=
  [ (39, 39); (46, 46); (58, 58); (94, 94); (96, 96); (168, 168); (173, 173); (175, 175);
    (180, 180); (183, 184); (688, 879); (884, 885); (890, 890); (900, 901); (903, 903);
    (1155, 1161); (1369, 1369); (1375, 1375); (1425, 1469); (1471, 1471); (1473, 1474);
    (1476, 1477); (1479, 1479); (1524, 1524); (1536, 1541); (1552, 1562); (1564, 1564);
    (1600, 1600); (1611, 1631); (1648, 1648); (1750, 1757); (1759, 1768); (1770, 1773);
    (1807, 1807); (1809, 1809); (1840, 1866); (1958, 1968); (2027, 2037); (2042, 2042);
    (2045, 2045); (2070, 2093); (2137, 2139); (2184, 2184); (2192, 2193); (2200, 2207);
    (2249, 2306); (2362, 2362); (2364, 2364); (2369, 2376); (2381, 2381); (2385, 2391);
    (2402, 2403); (2417, 2417); (2433, 2433); (2492, 2492); (2497, 2500); (2509, 2509);
    (2530, 2531); (2558, 2558); (2561, 2562); (2620, 2620); (2625, 2626); (2631, 2632);
    (2635, 2637); (2641, 2641); (2672, 2673); (2677, 2677); (2689, 2690); (2748, 2748);
    (2753, 2757); (2759, 2760); (2765, 2765); (2786, 2787); (2810, 2815); (2817, 2817);
    (2876, 2876); (2879, 2879); (2881, 2884); (2893, 2893); (2901, 2902); (2914, 2915);
    (2946, 2946); (3008, 3008); (3021, 3021); (3072, 3072); (3076, 3076); (3132, 3132);
    (3134, 3136); (3142, 3144); (3146, 3149); (3157, 3158); (3170, 3171); (3201, 3201);
    (3260, 3260); (3263, 3263); (3270, 3270); (3276, 3277); (3298, 3299); (3328, 3329);
    (3387, 3388); (3393, 3396); (3405, 3405); (3426, 3427); (3457, 3457); (3530, 3530);
    (3538, 3540); (3542, 3542); (3633, 3633); (3636, 3642); (3654, 3662); (3761, 3761);
    (3764, 3772); (3782, 3782); (3784, 3789); (3864, 3865); (3893, 3893); (3895, 3895);
    (3897, 3897); (3953, 3966); (3968, 3972); (3974, 3975); (3981, 3991); (3993, 4028);
    (4038, 4038); (4141, 4144); (4146, 4151); (4153, 4154); (4157, 4158); (4184, 4185);
    (4190, 4192); (4209, 4212); (4226, 4226); (4229, 4230); (4237, 4237); (4253, 4253);
    (4348, 4348); (4957, 4959); (5906, 5908); (5938, 5939); (5970, 5971); (6002, 6003);
    (6068, 6069); (6071, 6077); (6086, 6086); (6089, 6099); (6103, 6103); (6109, 6109);
    (6155, 6159); (6211, 6211); (6277, 6278); (6313, 6313); (6432, 6434); (6439, 6440);
    (6450, 6450); (6457, 6459); (6679, 6680); (6683, 6683); (6742, 6742); (6744, 6750);
    (6752, 6752); (6754, 6754); (6757, 6764); (6771, 6780); (6783, 6783); (6823, 6823);
    (6832, 6862); (6912, 6915); (6964, 6964); (6966, 6970); (6972, 6972); (6978, 6978);
    (7019, 7027); (7040, 7041); (7074, 7077); (7080, 7081); (7083, 7085); (7142, 7142);
    (7144, 7145); (7149, 7149); (7151, 7153); (7212, 7219); (7222, 7223); (7288, 7293);
    (7376, 7378); (7380, 7392); (7394, 7400); (7405, 7405); (7412, 7412); (7416, 7417);
    (7468, 7530); (7544, 7544); (7579, 7679); (8125, 8125); (8127, 8129); (8141, 8143);
    (8157, 8159); (8173, 8175); (8189, 8190); (8203, 8207); (8216, 8217); (8228, 8228);
    (8231, 8231); (8234, 8238); (8288, 8292); (8294, 8303); (8305, 8305); (8319, 8319);
    (8336, 8348); (8400, 8432); (11388, 11389); (11503, 11505); (11631, 11631); (11647, 11647);
    (11744, 11775); (11823, 11823); (12293, 12293); (12330, 12333); (12337, 12341);
    (12347, 12347); (12441, 12446); (12540, 12542); (40981, 40981); (42232, 42237);
    (42508, 42508); (42607, 42610); (42612, 42621); (42623, 42623); (42652, 42655);
    (42736, 42737); (42752, 42785); (42864, 42864); (42888, 42890); (42994, 42996);
    (43000, 43001); (43010, 43010); (43014, 43014); (43019, 43019); (43045, 43046);
    (43052, 43052); (43204, 43205); (43232, 43249); (43263, 43263); (43302, 43309);
    (43335, 43345); (43392, 43394); (43443, 43443); (43446, 43449); (43452, 43453);
    (43471, 43471); (43493, 43494); (43561, 43566); (43569, 43570); (43573, 43574);
    (43587, 43587); (43596, 43596); (43632, 43632); (43644, 43644); (43696, 43696);
    (43698, 43700); (43703, 43704); (43710, 43711); (43713, 43713); (43741, 43741);
    (43756, 43757); (43763, 43764); (43766, 43766); (43867, 43871); (43881, 43883);
    (44005, 44005); (44008, 44008); (44013, 44013); (64286, 64286); (64434, 64450);
    (65024, 65039); (65043, 65043); (65056, 65071); (65106, 65106); (65109, 65109);
    (65279, 65279); (65287, 65287); (65294, 65294); (65306, 65306); (65342, 65342);
    (65344, 65344); (65392, 65392); (65438, 65439); (65507, 65507); (65529, 65531);
    (66045, 66045); (66272, 66272); (66422, 66426); (67456, 67461); (67463, 67504);
    (67506, 67514); (68097, 68099); (68101, 68102); (68108, 68111); (68152, 68154);
    (68159, 68159); (68325, 68326); (68900, 68903); (69291, 69292); (69446, 69456);
    (69506, 69509); (69633, 69633); (69688, 69702); (69744, 69744); (69747, 69748);
    (69759, 69761); (69811, 69814); (69817, 69818); (69821, 69821); (69826, 69826);
    (69837, 69837); (69888, 69890); (69927, 69931); (69933, 69940); (70003, 70003);
    (70016, 70017); (70070, 70078); (70089, 70092); (70095, 70095); (70191, 70193);
    (70196, 70196); (70198, 70199); (70206, 70206); (70367, 70367); (70371, 70378);
    (70400, 70401); (70459, 70460); (70464, 70464); (70502, 70508); (70512, 70516);
    (70712, 70719); (70722, 70724); (70726, 70726); (70750, 70750); (70835, 70840);
    (70842, 70842); (70847, 70848); (70850, 70851); (71090, 71093); (71100, 71101);
    (71103, 71104); (71132, 71133); (71219, 71226); (71229, 71229); (71231, 71232);
    (71339, 71339); (71341, 71341); (71344, 71349); (71351, 71351); (71453, 71455);
    (71458, 71461); (71463, 71467); (71727, 71735); (71737, 71738); (71995, 71996);
    (71998, 71998); (72003, 72003); (72148, 72151); (72154, 72155); (72160, 72160);
    (72193, 72202); (72243, 72248); (72251, 72254); (72263, 72263); (72273, 72278);
    (72281, 72283); (72330, 72342); (72344, 72345); (72752, 72758); (72760, 72765);
    (72767, 72767); (72850, 72871); (72874, 72880); (72882, 72883); (72885, 72886);
    (73009, 73014); (73018, 73018); (73020, 73021); (73023, 73029); (73031, 73031);
    (73104, 73105); (73109, 73109); (73111, 73111); (73459, 73460); (78896, 78904);
    (92912, 92916); (92976, 92982); (92992, 92995); (94031, 94031); (94095, 94111);
    (94176, 94177); (94179, 94180); (110576, 110579); (110581, 110587); (110589, 110590);
    (113821, 113822); (113824, 113827); (118528, 118573); (118576, 118598); (119143, 119145);
    (119155, 119170); (119173, 119179); (119210, 119213); (119362, 119364); (121344, 121398);
    (121403, 121452); (121461, 121461); (121476, 121476); (121499, 121503); (121505, 121519);
    (122880, 122886); (122888, 122904); (122907, 122913); (122915, 122916); (122918, 122922);
    (123184, 123197); (123566, 123566); (123628, 123631); (125136, 125142); (125252, 125259);
    (127995, 127999); (917505, 917505); (917536, 917631); (917760, 917999) ].

Definition decimal_zeros : list Z :=
  [ 48; 1632; 1776; 1984; 2406; 2534; 2662; 2790; 2918; 3046; 3174; 3302; 3430; 3558; 3664;
    3792; 3872; 4160; 4240; 6112; 6160; 6470; 6608; 6784; 6800; 6992; 7088; 7232; 7248; 42528;
    43216; 43264; 43472; 43504; 43600; 44016; 65296; 66720; 68912; 69734; 69872; 69942; 70096;
    70384; 70736; 70864; 71248; 71360; 71472; 71904; 72016; 72784; 73040; 73120; 92768; 92864;
    93008; 120782; 120792; 120802; 120812; 120822; 123200; 123632; 125264; 130032 ].

Definition white_space : list (Z * Z) :=
  [ (9, 13); (28, 32); (133, 133); (160, 160); (5760, 5760); (8192, 8202); (8232, 8233);
    (8239, 8239); (8287, 8287); (12288, 12288) ].

Fixpoint in_ranges (t : list (Z * Z)) (cp : Z) : bool :=
  match t with
  | [] => false
  | (lo, hi) :: t' => ((lo <=? cp) && (cp <=? hi)) || in_ranges t' cp
  end.

(** The delta of the row that holds [cp]. *)
Fixpoint shift (t : list (Z * Z * Z * Z)) (cp : Z) : option Z :=
  match t with
  | [] => None
  | (lo, hi, step, delta) :: t' =>
      if (lo <=? cp) && (cp <=? hi) && ((cp - lo) mod step =? 0) then Some delta
      else shift t' cp
  end.

Fixpoint special (t : list (Z * list Z)) (cp : Z) : option (list Z) :=
  match t with
  | [] => None
  | (c, l) :: t' => if c =? cp then Some l else special t' cp
  end.

Definition map_case (sp : list (Z * list Z)) (t : list (Z * Z * Z * Z)) (cp : Z)
    : list Z :=
  match special sp cp with
  | Some l => l
  | None =>
      match shift t cp with
      | Some delta => [cp + delta]
      | None => [cp]
      end
  end.

(** The full lower-case and upper-case mappings of one code point. *)
Definition to_lower (cp : Z) : list Z := map_case lowercase_special lowercase cp.
Definition to_upper (cp : Z) : list Z := map_case uppercase_special uppercase cp.

Definition is_cased (cp : Z) : bool := in_ranges cased cp.
Definition is_case_ignorable (cp : Z) : bool := in_ranges case_ignorable cp.

(** [str.isspace] of one character. *)
Definition is_space (cp : Z) : bool := in_ranges white_space cp.

(** The value of a decimal digit (what [\d] matches and [int] reads). *)
Definition decimal (cp : Z) : option Z :=
  match find (fun z => (z <=? cp) && (cp <=? z + 9)) decimal_zeros with
  | Some z => Some (cp - z)
  | None => None
  end.

End Unicode.

(* ================================================================== *)
(** ** Python strings

    A [str] is a sequence of code points; it is held here as the string of
    the bytes of its UTF-8 encoding, so that ASCII text is written as it
    is (a lone surrogate, which a [str] may hold, by the same three-byte
    scheme). [code_points] reads the code points back, [of_code_points]
    encodes them; the operations below act on code points, as the
    interpreter's do. Two [str] are equal exactly when their encodings
    are. In a byte string that encodes no [str] the decoder skips a stray
    continuation byte and drops an unfinished sequence. *)

Module PyStr.
Import Unicode.

Definition byte (c : ascii) : Z := Z.of_N (N_of_ascii c).
Definition chr (b : Z) : ascii := ascii_of_N (Z.to_N b).

(** The decoder: [k] continuation bytes are still due for the code point
    whose leading bits are [acc]. *)
Fixpoint decode_from (acc : Z) (k : nat) (s : string) : list Z :=
  match s with
  | EmptyString => []
  | String c s' =>
      let n := byte c in
      match k with
      | O =>
          if n <? 128 then n :: decode_from 0 0 s'
          else if n <? 192 then decode_from 0 0 s'
          else if n <? 224 then decode_from (n - 192) 1 s'
          else if n <? 240 then decode_from (n - 224) 2 s'
          else decode_from ((n - 240) mod 8) 3 s'
      | S k' =>
          let acc' := acc * 64 + n mod 64 in
          match k' with
          | O => acc' :: decode_from 0 0 s'
          | S _ => decode_from acc' k' s'
          end
      end
  end.

Definition code_points (s : string) : list Z := decode_from 0 0 s.

Definition encode (cp : Z) : string :=
  if cp <? 128 then String (chr cp) ""
  else if cp <? 2048 then
    String (chr (192 + cp / 64)) (String (chr (128 + cp mod 64)) "")
  else if cp <? 65536 then
    String (chr (224 + cp / 4096))
      (String (chr (128 + cp / 64 mod 64)) (String (chr (128 + cp mod 64)) ""))
  else
    String (chr (240 + cp / 262144 mod 8))
      (String (chr (128 + cp / 4096 mod 64))
         (String (chr (128 + cp / 64 mod 64)) (String (chr (128 + cp mod 64)) ""))).

Fixpoint of_code_points (l : list Z) : string :=
  match l with
  | [] => ""
  | cp :: l' => encode cp ++ of_code_points l'
  end.

(** [len(s)] *)
Definition str_len (s : string) : nat := List.length (code_points s).

Fixpoint skip_ignorable (l : list Z) : list Z :=
  match l with
  | cp :: l' => if is_case_ignorable cp then skip_ignorable l' else l
  | [] => []
  end.

(** The context in which a capital sigma becomes a final sigma: a cased
    letter before it and none after it, case-ignorable characters apart.
    [before] holds the preceding code points, the nearest first. *)
Definition final_sigma (before after : list Z) : bool :=
  match skip_ignorable before with
  | cp :: _ => is_cased cp
  | [] => false
  end &&
  match skip_ignorable after with
  | cp :: _ => negb (is_cased cp)
  | [] => true
  end.

Fixpoint lower_from (before l : list Z) : list Z :=
  match l with
  | [] => []
  | cp :: rest =>
      (if cp =? 931 then [if final_sigma before rest then 962 else 963]
       else to_lower cp) ++ lower_from (cp :: before) rest
  end.

(** [s.lower()] *)
Definition lower (s : string) : string :=
  of_code_points (lower_from [] (code_points s)).

(** [s.upper()] *)
Definition upper (s : string) : string :=
  of_code_points (flat_map to_upper (code_points s)).

Fixpoint lstrip (cs : list Z) : list Z :=
  match cs with
  | c :: cs' => if is_space c then lstrip cs' else cs
  | [] => []
  end.

(** [s.strip()] *)
Definition strip (s : string) : string :=
  of_code_points (rev (lstrip (rev (lstrip (code_points s))))).

(** [s[:n]] *)
Definition prefix (n : nat) (s : string) : string :=
  of_code_points (firstn n (code_points s)).

(** [sep.join(parts)] *)
Fixpoint join (sep : string) (parts : list string) : string :=
  match parts with
  | [] => ""
  | [p] => p
  | p :: rest => p ++ sep ++ join sep rest
  end.

(** [x or ""] for a nullable text column. *)
Definition or_empty (x : option string) : string :=
  match x with
  | Some s => s
  | None => ""
  end.

End PyStr.

(* ================================================================== *)
(** ** Quotation calculator and the texts of the rendered document
       ([generate_pdf], lines 389-400 and 486-574) *)

Module Calc.
Import PyFloat PyStr.

(** A row of the [products] table. *)
Record Product : Type := {
  p_user_id : option Z;
  p_name : string;
  p_description : option string;
  p_price : float;
  p_unit_type : option string
}.

(** An entry of the [catalog] list built at lines 491-498. *)
Record catalog_entry : Type := {
  c_name : string;
  c_unit_type : string;
  c_description : string
}.

Definition catalog_of (products_db : list Product) : list catalog_entry :=
  map (fun p => {| c_name := p_name p;
                   c_unit_type := upper (strip (or_empty (p_unit_type p)));
                   c_description := or_empty (p_description p) |})
      products_db.

(** Lines 487-498: the catalog of the session's user; empty when the
    session holds no (truthy) user id. *)
Definition user_catalog (user_id : option Z) (products : list Product)
    : list catalog_entry :=
  match user_id with
  | Some uid =>
      if uid =? 0 then []
      else catalog_of
             (filter (fun p => match p_user_id p with
                               | Some o => o =? uid
                               | None => false
                               end) products)
  | None => []
  end.

(** [float(c or 0.0)] for an optional form field. *)
Definition charge (c : option float) : float :=
  match c with
  | Some x => if truthy x then x else 0%float
  | None => 0%float
  end.

Definition gst_rate : float := 0x1.70a3d70a3d70ap-3%float.  (* 0.18 *)

Definition line_amounts (quantity unit_price : list float) : list float :=
  map (fun qp => PrimFloat.mul (fst qp) (snd qp)) (combine quantity unit_price).

Record totals : Type := {
  total_amount : float;
  loading_charge : float;
  transportation_charge : float;
  sub_total : float;
  gst_amount : float;
  grand_total : float;
  round_off : float;
  final_total : Z
}.

(** Lines 393-400. *)
Definition compute_totals (quantity unit_price : list float)
    (loading transportation : option float) : result totals :=
  let total_amount := py_sum (line_amounts quantity unit_price) in
  let loading_charge := charge loading in
  let transportation_charge := charge transportation in
  let sub_total :=
    PrimFloat.add (PrimFloat.add total_amount loading_charge) transportation_charge in
  let gst_amount := PrimFloat.mul sub_total gst_rate in
  let grand_total := PrimFloat.add sub_total gst_amount in
  r <- py_round grand_total ;;
  rf <- float_of_int r ;;
  let round_off := PrimFloat.sub rf grand_total in
  final_total <- py_round grand_total ;;
  Ok {| total_amount := total_amount;
        loading_charge := loading_charge;
        transportation_charge := transportation_charge;
        sub_total := sub_total;
        gst_amount := gst_amount;
        grand_total := grand_total;
        round_off := round_off;
        final_total := final_total |}.

(** Lines 507-511: the unit of a line item. *)
Definition resolve_unit (catalog : list catalog_entry) (p : string) : string :=
  match find (fun prod => String.eqb (lower (c_name prod)) (lower p)) catalog with
  | Some prod => upper (c_unit_type prod)
  | None => ""
  end.

Inductive bucket : Type := Weight | Nos | Pieces | NoBucket.

(** Lines 514-519. *)
Definition bucket_of (unit : string) : bucket :=
  if String.eqb unit "KG" then Weight
  else if existsb (String.eqb unit) ["NOS"; "NO"; "NOS."] then Nos
  else if existsb (String.eqb unit) ["PCS"; "PIECE"; "PIECES"] then Pieces
  else NoBucket.

Record aggregates : Type := {
  total_weight : float;
  total_nos : float;
  total_pieces : float
}.

Definition accumulate (a : aggregates) (unit : string) (q : float) : aggregates :=
  match bucket_of unit with
  | Weight => {| total_weight := PrimFloat.add (total_weight a) q;
                 total_nos := total_nos a;
                 total_pieces := total_pieces a |}
  | Nos => {| total_weight := total_weight a;
              total_nos := PrimFloat.add (total_nos a) q;
              total_pieces := total_pieces a |}
  | Pieces => {| total_weight := total_weight a;
                 total_nos := total_nos a;
                 total_pieces := PrimFloat.add (total_pieces a) q |}
  | NoBucket => a
  end.

(** A line item as the loop of line 506 sees it. *)
Record line : Type := {
  l_product : string;
  l_description : string;
  l_quantity : float;
  l_unit_price : float
}.

(** [zip(product_name, description, quantity, unit_price)]: stops at the
    shortest sequence. *)
Fixpoint zip4 (ps ds : list string) (qs us : list float) : list line :=
  match ps, ds, qs, us with
  | p :: ps', d :: ds', q :: qs', u :: us' =>
      {| l_product := p; l_description := d; l_quantity := q; l_unit_price := u |}
        :: zip4 ps' ds' qs' us'
  | _, _, _, _ => []
  end.

(** Lines 389-390. *)
Definition default_description (product_name : list string)
    (description : option (list string)) : list string :=
  match description with
  | Some ds => ds
  | None => map (fun _ => "") product_name
  end.

(** The texts of one table row (lines 521-530). *)
Record row : Type := {
  r_no : string;
  r_shaded_even : bool;
  r_product : string;
  r_description : string;
  r_qty : string;
  r_rate : string;
  r_amount : string
}.

Definition draw_row (catalog : list catalog_entry) (i : Z) (l : line) : row :=
  let unit := resolve_unit catalog (l_product l) in
  let q := l_quantity l in
  let u := l_unit_price l in
  {| r_no := dec_string i;
     r_shaded_even := Z.eqb (i mod 2) 0;
     r_product := prefix 18 (l_product l);
     r_description := prefix 30 (l_description l);
     r_qty := if String.eqb unit "" then format_f 3 true false q
              else format_f 3 true false q ++ " " ++ unit;
     r_rate := format_f 2 true false u;
     r_amount := format_f 2 true false (PrimFloat.mul q u) |}.

Definition zero_aggregates : aggregates :=
  {| total_weight := 0%float; total_nos := 0%float; total_pieces := 0%float |}.

(** The loop of lines 506-531, from index [i]. *)
Fixpoint table_loop (catalog : list catalog_entry) (i : Z) (ls : list line)
    (a : aggregates) : aggregates * list row :=
  match ls with
  | [] => (a, [])
  | l :: ls' =>
      let a' := accumulate a (resolve_unit catalog (l_product l)) (l_quantity l) in
      let '(a'', rows) := table_loop catalog (i + 1) ls' a' in
      (a'', draw_row catalog i l :: rows)
  end.

(** [if cond: summary_parts.append(text)] *)
Definition append_if (cond : bool) (text : string) (parts : list string) : list string :=
  if cond then List.app parts [text] else parts.

(** Lines 534-540. *)
Definition summary_parts (a : aggregates) : list string :=
  let parts := [] in
  let parts :=
    append_if (PrimFloat.ltb 0%float (total_weight a))
      ("Total Weight: " ++ format_f 3 true false (total_weight a) ++ " KG") parts in
  let parts :=
    append_if (PrimFloat.ltb 0%float (total_nos a))
      ("Total Nos: " ++ format_f 0 true false (total_nos a)) parts in
  append_if (PrimFloat.ltb 0%float (total_pieces a))
    ("Total Pieces: " ++ format_f 0 true false (total_pieces a)) parts.

(** Lines 542-543: the band is drawn only when a part exists. *)
Definition summary_text (a : aggregates) : option string :=
  match summary_parts a with
  | [] => None
  | parts => Some (join " | " parts)
  end.

(** The texts of the totals panel (lines 562-574); [t_grand_total] is the
    number of the last line, before its currency sign. *)
Record totals_panel : Type := {
  t_sub_total : string;
  t_loading : string;
  t_transportation : string;
  t_gst : string;
  t_round_off : string;
  t_grand_total : string
}.

Definition draw_totals (t : totals) : result totals_panel :=
  ft <- float_of_int (final_total t) ;;
  Ok {| t_sub_total := format_f 2 true false (total_amount t);
        t_loading := format_f 2 true false (loading_charge t);
        t_transportation := format_f 2 true false (transportation_charge t);
        t_gst := format_f 2 true false (gst_amount t);
        t_round_off := format_f 2 false true (round_off t);
        t_grand_total := format_f 2 true false ft |}.

(** What [generate_pdf] computes and draws for the quotation body. *)
Record quotation : Type := {
  q_totals : totals;
  q_aggregates : aggregates;
  q_rows : list row;
  q_summary : option string;
  q_panel : totals_panel
}.

Definition calculate (catalog : list catalog_entry)
    (product_name : list string) (description : option (list string))
    (quantity unit_price : list float)
    (loading transportation : option float) : result quotation :=
  let description := default_description product_name description in
  t <- compute_totals quantity unit_price loading transportation ;;
  let '(a, rows) :=
    table_loop catalog 1 (zip4 product_name description quantity unit_price)
               zero_aggregates in
  panel <- draw_totals t ;;
  Ok {| q_totals := t;
        q_aggregates := a;
        q_rows := rows;
        q_summary := summary_text a;
        q_panel := panel |}.

End Calc.

(* ================================================================== *)
(** ** Dates: [datetime.strptime(s, "%Y-%m-%d")] and
       [strftime("%d-%m-%Y")] (lines 465-468) *)

Module Dates.
Import PyFloat Unicode PyStr.

Record date : Type := { year : Z; month : Z; day : Z }.

(** [\d]: a decimal digit of any script, with the value [int] reads. *)
Definition digit_val (cp : Z) : option Z := decimal cp.

Definition digit_char (d : Z) : ascii := ascii_of_N (Z.to_N (48 + d)).

(** A character of the class [[lo-hi]] of the digits "0" to "9". *)
Definition in_range (lo hi : Z) (cp : Z) : option Z :=
  if (48 + lo <=? cp) && (cp <=? 48 + hi) then Some (cp - 48) else None.

(** [%Y]: the pattern [\d\d\d\d]. *)
Definition parse_Y (s : list Z) : option (Z * list Z) :=
  match s with
  | a :: b :: c :: d :: rest =>
      match digit_val a, digit_val b, digit_val c, digit_val d with
      | Some a, Some b, Some c, Some d =>
          Some (1000 * a + 100 * b + 10 * c + d, rest)
      | _, _, _, _ => None
      end
  | _ => None
  end.

(** [%m]: the alternatives [1[0-2]], [0[1-9]], [[1-9]], tried in order. *)
Definition parse_m (s : list Z) : option (Z * list Z) :=
  match s with
  | a :: rest =>
      let two :=
        match rest with
        | b :: rest' =>
            match in_range 1 1 a, in_range 0 2 b with
            | Some _, Some b => Some (10 + b, rest')
            | _, _ =>
                match in_range 0 0 a, in_range 1 9 b with
                | Some _, Some b => Some (b, rest')
                | _, _ => None
                end
            end
        | [] => None
        end in
      match two with
      | Some r => Some r
      | None =>
          match in_range 1 9 a with
          | Some a => Some (a, rest)
          | None => None
          end
      end
  | [] => None
  end.

(** [%d]: the alternatives [3[01]], [[12]\d], [0[1-9]], [[1-9]] and a
    space followed by [[1-9]], tried in order. *)
Definition parse_d (s : list Z) : option (Z * list Z) :=
  match s with
  | a :: rest =>
      let two :=
        match rest with
        | b :: rest' =>
            match in_range 3 3 a, in_range 0 1 b with
            | Some _, Some b => Some (30 + b, rest')
            | _, _ =>
                match in_range 1 2 a, digit_val b with
                | Some a, Some b => Some (10 * a + b, rest')
                | _, _ =>
                    match in_range 0 0 a, in_range 1 9 b with
                    | Some _, Some b => Some (b, rest')
                    | _, _ => None
                    end
                end
            end
        | [] => None
        end in
      match two with
      | Some r => Some r
      | None =>
          match in_range 1 9 a with
          | Some a => Some (a, rest)
          | None =>
              match rest with
              | b :: rest' =>
                  if a =? 32 then
                    match in_range 1 9 b with
                    | Some b => Some (b, rest')
                    | None => None
                    end
                  else None
              | [] => None
              end
          end
      end
  | [] => None
  end.

Definition expect_dash (s : list Z) : option (list Z) :=
  match s with
  | c :: rest => if c =? 45 then Some rest else None
  | [] => None
  end.

Definition is_leap (y : Z) : bool :=
  (y mod 4 =? 0) && (negb (y mod 100 =? 0) || (y mod 400 =? 0)).

Definition days_in_month (y m : Z) : Z :=
  if m =? 2 then (if is_leap y then 29 else 28)
  else if (m =? 4) || (m =? 6) || (m =? 9) || (m =? 11) then 30
  else 31.

(** The checks of the [date] constructor. *)
Definition valid_date (y m d : Z) : bool :=
  (1 <=? y) && (y <=? 9999) && (1 <=? m) && (m <=? 12) &&
  (1 <=? d) && (d <=? days_in_month y m).

(** [datetime.strptime(s, "%Y-%m-%d")]: the whole string must match, and
    the fields must form a date; every failure is a [ValueError]. *)
Definition strptime_Ymd (s : string) : result date :=
  match parse_Y (code_points s) with
  | None => Raise ValueError
  | Some (y, s1) =>
  match expect_dash s1 with
  | None => Raise ValueError
  | Some s2 =>
  match parse_m s2 with
  | None => Raise ValueError
  | Some (m, s3) =>
  match expect_dash s3 with
  | None => Raise ValueError
  | Some s4 =>
  match parse_d s4 with
  | None => Raise ValueError
  | Some (d, s5) =>
      match s5 with
      | [] =>
          if valid_date y m d
          then Ok {| year := y; month := m; day := d |}
          else Raise ValueError
      | _ :: _ => Raise ValueError   (* unconverted data remains *)
      end
  end end end end end.

Definition two_digits (n : Z) : string :=
  String (digit_char (n / 10 mod 10)) (String (digit_char (n mod 10)) "").

Definition four_digits (n : Z) : string :=
  String (digit_char (n / 1000 mod 10))
    (String (digit_char (n / 100 mod 10)) (two_digits n)).

(** [strftime("%d-%m-%Y")]: day and month on two digits; the year as the
    C library of the platform (glibc) prints [%Y], in decimal without
    padding, so four digits from the year 1000 on. *)
Definition strftime_dmY (d : date) : string :=
  two_digits (day d) ++ "-" ++ two_digits (month d) ++ "-" ++ dec_string (year d).

(** The ISO text of a date, [%Y-%m-%d], the year on four digits. *)
Definition iso_Ymd (d : date) : string :=
  four_digits (year d) ++ "-" ++ two_digits (month d) ++ "-" ++ two_digits (day d).

(** Lines 465-468. *)
Definition valid_till_fmt (valid_till : string) : string :=
  match strptime_Ymd valid_till with
  | Ok d => strftime_dmY d
  | Raise _ => valid_till
  end.

End Dates.

(* ================================================================== *)
(** ** History log and its handlers ([view_history], [delete_history]) *)

Module History.
Import PyFloat PyStr.

#[local] Set Warnings "-register-all".

(** The Python value [json.load] returns. A [dict] keeps its keys in
    insertion order and holds each key once. *)
Inductive json : Type :=
| JNull
| JBool (b : bool)
| JInt (z : Z)
| JFloat (f : float)
| JStr (s : string)
| JList (l : list json)
| JDict (kvs : list (string * json)).

(** [quotation_history.json] on disk: absent, present but rejected by
    [json.load], or holding a JSON document. *)
Inductive file_state : Type :=
| Missing
| Unparseable
| Content (v : json).

(** The world the handlers act on: the history file and the regular files
    on disk, by path as written (a directory such as "static/" is never
    among them, so that removing it fails and changes nothing). *)
Record world : Type := {
  history_file : file_state;
  files : list string
}.

Record session : Type := {
  logged_in : bool;
  user_id : option Z
}.

Inductive response : Type :=
| Redirect (url : string)
| HistoryPage (history : list json).   (* quotation_history.html *)

(** [d.get(key)] *)
Fixpoint dict_get (kvs : list (string * json)) (key : string) : option json :=
  match kvs with
  | [] => None
  | (k, v) :: kvs' => if String.eqb k key then Some v else dict_get kvs' key
  end.

(** [h.get(key)]: only a [dict] has the method. *)
Definition py_get (h : json) (key : string) : result (option json) :=
  match h with
  | JDict kvs => Ok (dict_get kvs key)
  | _ => Raise AttributeError
  end.

(** [v == n] for an [int] [n]: numbers compare by value, [True] is 1 and
    [False] is 0, anything else differs. *)
Definition eq_int (v : option json) (n : Z) : bool :=
  match v with
  | Some (JInt z) => z =? n
  | Some (JBool b) => (if b then 1 else 0) =? n
  | Some (JFloat f) =>
      match exact f with
      | Some q => Qeq_bool q (inject_Z n)
      | None => false
      end
  | _ => false
  end.

(** The characters of a string, each a string of its own. *)
Definition chars (s : string) : list json :=
  map (fun cp => JStr (encode cp)) (code_points s).

(** [iter(v)]: a list yields its items, a dict its keys, a string its
    characters; nothing else is iterable. *)
Definition py_iter (v : json) : result (list json) :=
  match v with
  | JList l => Ok l
  | JDict kvs => Ok (map (fun kv => JStr (fst kv)) kvs)
  | JStr s => Ok (chars s)
  | _ => Raise TypeError
  end.

(** [len(v)] *)
Definition py_len (v : json) : result Z :=
  match v with
  | JList l => Ok (Z.of_nat (List.length l))
  | JDict kvs => Ok (Z.of_nat (List.length kvs))
  | JStr s => Ok (Z.of_nat (str_len s))
  | _ => Raise TypeError
  end.

(** The position a Python index denotes in a sequence of length [n]. *)
Definition position (n : nat) (index : Z) : option nat :=
  let i := if index <? 0 then index + Z.of_nat n else index in
  if (0 <=? i) && (i <? Z.of_nat n) then Some (Z.to_nat i) else None.

(** [v[index]] for an [int] index. *)
Definition py_index (v : json) (index : Z) : result json :=
  match v with
  | JList l =>
      match position (List.length l) index with
      | Some i => match nth_error l i with
                  | Some x => Ok x
                  | None => Raise IndexError
                  end
      | None => Raise IndexError
      end
  | JStr s =>
      match position (str_len s) index with
      | Some i => match nth_error (chars s) i with
                  | Some c => Ok c
                  | None => Raise IndexError
                  end
      | None => Raise IndexError
      end
  | JDict _ => Raise KeyError
  | _ => Raise TypeError
  end.

Fixpoint remove_at {A : Type} (i : nat) (l : list A) : list A :=
  match l, i with
  | [], _ => []
  | _ :: l', O => l'
  | x :: l', S i' => x :: remove_at i' l'
  end.

(** [del v[index]] *)
Definition py_del (v : json) (index : Z) : result json :=
  match v with
  | JList l =>
      match position (List.length l) index with
      | Some i => Ok (JList (remove_at i l))
      | None => Raise IndexError
      end
  | JDict _ => Raise KeyError
  | _ => Raise TypeError
  end.

(** The [try: json.load(f) except Exception: []] of the two handlers. *)
Definition load_or_empty (fs : file_state) : json :=
  match fs with
  | Content v => v
  | _ => JList []
  end.

(** [[h for h in all_history if h.get("user_id") == user_id]] *)
Fixpoint owned_by (uid : Z) (items : list json) : result (list json) :=
  match items with
  | [] => Ok []
  | h :: rest =>
      v <- py_get h "user_id" ;;
      rest' <- owned_by uid rest ;;
      Ok (if eq_int v uid then h :: rest' else rest')
  end.

(** [if not user_id]: an absent id and the id 0 are falsy. *)
Definition current_user (s : session) : option Z :=
  match user_id s with
  | Some uid => if uid =? 0 then None else Some uid
  | None => None
  end.

(** Lines 665-686. *)
Definition view_history (s : session) (w : world) : result response * world :=
  match current_user s with
  | None => (Ok (Redirect "/login"), w)
  | Some uid =>
      match history_file w with
      | Missing => (Ok (HistoryPage []), w)
      | fs =>
          (all_history <- py_iter (load_or_empty fs) ;;
           history <- owned_by uid all_history ;;
           Ok (HistoryPage history), w)
      end
  end.

(** [os.path.join("static", name)] *)
Definition static_path (name : string) : string :=
  match name with
  | String "/" _ => name
  | _ => "static/" ++ name
  end.

(** [entry.get("file", "")] as the second argument of [os.path.join]. *)
Definition file_of (entry : json) : result string :=
  v <- py_get entry "file" ;;
  match v with
  | None => Ok ""
  | Some (JStr name) => Ok name
  | Some _ => Raise TypeError
  end.

Definition exists_file (path : string) (fs : list string) : bool :=
  existsb (String.eqb path) fs.

(** [os.remove(path)] under [try/except: pass]. *)
Definition remove_file (path : string) (fs : list string) : list string :=
  filter (fun p => negb (String.eqb path p)) fs.

(** Lines 688-717. The handler takes no request: it never reads the
    session. *)
Definition delete_history (index : Z) (w : world) : result response * world :=
  match history_file w with
  | Missing => (Ok (Redirect "/history"), w)
  | fs =>
      let history := load_or_empty fs in
      match py_len history with
      | Raise e => (Raise e, w)
      | Ok n =>
          if n <=? index then (Ok (Redirect "/history"), w)
          else
            match (entry <- py_index history index ;;
                   name <- file_of entry ;;
                   Ok (static_path name)) with
            | Raise e => (Raise e, w)
            | Ok pdf_path =>
                let files' := if exists_file pdf_path (files w)
                              then remove_file pdf_path (files w)
                              else files w in
                match py_del history index with
                | Raise e => (Raise e, {| history_file := history_file w;
                                          files := files' |})
                | Ok history' =>
                    (Ok (Redirect "/history"),
                     {| history_file := Content history'; files := files' |})
                end
            end
      end
  end.

(** Lines 255-264 of [edit_quotation]: the same file, read with the check
    [isinstance(history, list)] ("protect against corrupted file that
    contains a dict etc."). *)
Definition load_list_or_empty (fs : file_state) : list json :=
  match fs with
  | Content (JList l) => l
  | _ => []
  end.

(** Lines 266-276 of [edit_quotation]: the index guard ("protect against
    negative indexes and out-of-range") and the entry handed to the form,
    [entry.get("data", {}) if isinstance(entry, dict) else {}]. *)
Definition edit_quotation_prefill (index : Z) (w : world) : response + json :=
  let history := load_list_or_empty (history_file w) in
  if (index <? 0) || (Z.of_nat (List.length history) <=? index)
  then inl (Redirect "/history")
  else
    match nth_error history (Z.to_nat index) with
    | Some (JDict kvs) =>
        match dict_get kvs "data" with
        | Some data => inr data
        | None => inr (JDict [])
        end
    | Some _ => inr (JDict [])
    | None => inl (Redirect "/history")
    end.

(** The two history routes as the application mounts them: a request
    carries its session, and each route passes on what its handler takes. *)
Inductive route : Type :=
| GetHistory
| PostDeleteHistory (index : Z).

Definition handle (s : session) (r : route) (w : world) : result response * world :=
  match r with
  | GetHistory => view_history s w
  | PostDeleteHistory index => delete_history index w
  end.

End History.

(* ================================================================== *)
(** ** The specification's formulas, written from its words *)

Module Spec.
Import PyFloat PyStr Calc.

(** The value a charge field delivers: the form default 0.0 when absent. *)
Definition form_charge (c : option float) : float :=
  match c with
  | Some x => x
  | None => 0%float
  end.

(** [qty*price], position by position. *)
Fixpoint products (qty price : list float) : list float :=
  match qty, price with
  | q :: qty', p :: price' => PrimFloat.mul q p :: products qty' price'
  | _, _ => []
  end.

#[local] Set Warnings "-inexact-float".

(** The rate of the specification, 0.18: as a float, the double nearest
    to it. *)
Definition rate : float := 0.18%float.

(** [round(sum(qty*price) + loading + transport
           + 0.18*(sum(qty*price)+loading+transport))] *)
Definition final_total_formula (qty price : list float)
    (loading transport : option float) : result Z :=
  let s := py_sum (products qty price) in
  let l := form_charge loading in
  let t := form_charge transport in
  py_round
    (PrimFloat.add
       (PrimFloat.add (PrimFloat.add s l) t)
       (PrimFloat.mul rate (PrimFloat.add (PrimFloat.add s l) t))).

(** The grand total over the first [n] positions of the two sequences,
    with the charges as the calculator takes them. *)
Definition grand_total_over (n : nat) (qty price : list float)
    (loading transport : float) : float :=
  let s :=
    PrimFloat.add
      (PrimFloat.add (py_sum (products (firstn n qty) (firstn n price))) loading)
      transport in
  PrimFloat.add s (PrimFloat.mul s rate).

Definition nos_units : list string := ["NOS"; "NO"; "NOS."].
Definition pieces_units : list string := ["PCS"; "PIECE"; "PIECES"].

(** The unit of a line item is one of [units]. *)
Definition in_units (catalog : list catalog_entry) (units : list string) (l : line) : bool :=
  existsb (String.eqb (resolve_unit catalog (l_product l))) units.

(** The quantities of the line items whose unit is one of [units], added
    up in order. *)
Definition bucket_total (catalog : list catalog_entry) (units : list string)
    (ls : list line) : float :=
  fold_left PrimFloat.add (map l_quantity (filter (in_units catalog units) ls))
            0%float.

(** The three buckets in their fixed order, each with its label text. *)
Definition bucket_texts (a : aggregates) : list (float * string) :=
  [ (total_weight a, "Total Weight: " ++ format_f 3 true false (total_weight a) ++ " KG");
    (total_nos a, "Total Nos: " ++ format_f 0 true false (total_nos a));
    (total_pieces a, "Total Pieces: " ++ format_f 0 true false (total_pieces a)) ].

(** The summary as the specification words it: the buckets whose total is
    non-zero. *)
Definition nonzero_summary (a : aggregates) : string :=
  join " | " (map snd (filter (fun b => negb (PrimFloat.eqb (fst b) 0%float))
                              (bucket_texts a))).

(** The shortest of four lengths. *)
Definition min4 (a b c d : nat) : nat := Nat.min (Nat.min a b) (Nat.min c d).

(** The summary over the buckets whose total is greater than zero. *)
Definition positive_summary_parts (a : aggregates) : list string :=
  map snd (filter (fun b => PrimFloat.ltb 0%float (fst b)) (bucket_texts a)).

End Spec.

(* ================================================================== *)
(** ** Naming and recording a quotation ([generate_pdf], lines 405-415
       and 614-659) *)

Module Persist.
Import PyFloat PyStr Calc Dates History.

(** What [datetime.now()] returns. *)
Record datetime : Type := {
  dt_date : date;
  hour : Z;
  minute : Z;
  second : Z
}.

(** The field ranges of a [datetime]. *)
Definition valid_datetime (t : datetime) : bool :=
  valid_date (year (dt_date t)) (month (dt_date t)) (day (dt_date t)) &&
  (0 <=? hour t) && (hour t <=? 23) &&
  (0 <=? minute t) && (minute t <=? 59) &&
  (0 <=? second t) && (second t <=? 59).

(** [strftime('%d-%m-%Y_%H%M%S')] *)
Definition file_stamp (t : datetime) : string :=
  strftime_dmY (dt_date t) ++ "_" ++
  two_digits (hour t) ++ two_digits (minute t) ++ two_digits (second t).

(** [strftime("%d-%m-%Y %H:%M")] *)
Definition minute_stamp (t : datetime) : string :=
  strftime_dmY (dt_date t) ++ " " ++ two_digits (hour t) ++ ":" ++ two_digits (minute t).

(** [s.replace(" ", "_")] *)
Fixpoint replace_spaces (s : string) : string :=
  match s with
  | EmptyString => EmptyString
  | String c s' =>
      String (if Ascii.eqb c " "%char then "_"%char else c) (replace_spaces s')
  end.

(** Lines 413-415. *)
Definition pdf_file (customer_name : string) (now : datetime) : string :=
  "static/quotation_" ++ replace_spaces customer_name ++ "_" ++ file_stamp now ++ ".pdf".

Fixpoint has_slash (s : string) : bool :=
  match s with
  | EmptyString => false
  | String c s' => Ascii.eqb c "/"%char || has_slash s'
  end.

(** [os.path.basename(path)]: what follows the last "/". *)
Fixpoint basename (path : string) : string :=
  match path with
  | EmptyString => EmptyString
  | String c rest =>
      if Ascii.eqb c "/"%char || has_slash rest then basename rest else path
  end.

(** Lines 405-409: [str(quotation_number or "").strip()], with the fallback
    "LSY/001" for a blank number. *)
Definition quotation_no (quotation_number : string) : string :=
  let qn := strip quotation_number in
  if String.eqb qn "" then "LSY/001" else qn.

(** The fields of the quotation form that [generate_pdf] receives. *)
Record form : Type := {
  customer_name : string;
  customer_address : string;
  customer_city : string;
  shipping_name : string;
  shipping_address : string;
  shipping_city : string;
  company_name : string;
  company_address : string;
  company_email : string;
  company_phone : string;
  company_gst : string;
  bank_name : string;
  account_name : string;
  account_number : string;
  ifsc_code : string;
  valid_till : string;
  product_name : list string;
  description : option (list string);
  quantity : list float;
  unit_price : list float;
  loading_charge : option float;
  transportation_charge : option float;
  note : option string;
  quotation_number : string
}.

Definition json_strings (l : list string) : json := JList (map JStr l).
Definition json_floats (l : list float) : json := JList (map JFloat l).

Definition json_opt_string (s : option string) : json :=
  match s with
  | Some s => JStr s
  | None => JNull
  end.

Definition json_opt_int (z : option Z) : json :=
  match z with
  | Some z => JInt z
  | None => JNull
  end.

(** The ["data"] snapshot of lines 624-648. *)
Definition form_data (f : form) : json :=
  JDict
    [ ("company_name", JStr (company_name f));
      ("company_address", JStr (company_address f));
      ("company_email", JStr (company_email f));
      ("company_phone", JStr (company_phone f));
      ("company_gst", JStr (company_gst f));
      ("customer_name", JStr (customer_name f));
      ("customer_address", JStr (customer_address f));
      ("customer_city", JStr (customer_city f));
      ("shipping_name", JStr (shipping_name f));
      ("shipping_address", JStr (shipping_address f));
      ("shipping_city", JStr (shipping_city f));
      ("account_name", JStr (account_name f));
      ("account_number", JStr (account_number f));
      ("ifsc_code", JStr (ifsc_code f));
      ("bank_name", JStr (bank_name f));
      ("valid_till", JStr (valid_till f));
      ("note", json_opt_string (note f));
      ("loading_charge", JFloat (charge (loading_charge f)));
      ("transportation_charge", JFloat (charge (transportation_charge f)));
      ("product_name", json_strings (product_name f));
      ("description",
        json_strings (default_description (product_name f) (description f)));
      ("quantity", json_floats (quantity f));
      ("unit_price", json_floats (unit_price f)) ].

(** The record of lines 616-649: [user_id] is the session's, as it is;
    [date_now] is the clock read of line 410, [file_now] the one of line 415. *)
Definition history_entry (user_id : option Z) (f : form)
    (date_now file_now : datetime) (final_total : Z) : json :=
  JDict
    [ ("quotation_no", JStr (quotation_no (quotation_number f)));
      ("customer_name", JStr (customer_name f));
      ("date", JStr (strftime_dmY (dt_date date_now)));
      ("file", JStr (basename (pdf_file (customer_name f) file_now)));
      ("total", JInt final_total);
      ("user_id", json_opt_int user_id);
      ("data", form_data f) ].

(** Lines 650-659: the record goes in front of the list the file holds (an
    absent or unreadable file counts as the empty list); a document that is
    no list has no [insert]. *)
Definition append_history (entry : json) (w : world) : result unit * world :=
  match load_or_empty (history_file w) with
  | JList history =>
      (Ok tt, {| history_file := Content (JList (entry :: history));
                 files := files w |})
  | _ => (Raise AttributeError, w)
  end.

End Persist.

(* ================================================================== *)
(** ** Showing and serving a stored document ([edit_pdf], [download_pdf]) *)

Module Documents.
Import PyFloat Dates History Persist.

(** What [edit_pdf] answers: a redirect, the "PDF not found" message, or
    the preview page, given by the values its text embeds: the entry's
    customer name, the file shown and the index of its edit link. *)
Inductive edit_response : Type :=
| EditRedirect (url : string)
| PdfNotFound (pdf_name : string)
| EditPage (customer : option json) (pdf_name : string) (index : Z).

(** The argument of [os.path.join("static", ...)] in [edit_pdf]:
    [entry.get("file")], which must be a string. *)
Definition file_or_none (entry : json) : result string :=
  v <- py_get entry "file" ;;
  match v with
  | Some (JStr name) => Ok name
  | _ => Raise TypeError
  end.

(** [os.path.exists(path)]: a regular file of the world, or one of the
    directories [dirs] that exist beside them (by path as written). *)
Definition path_exists (dirs : list string) (path : string) (w : world) : bool :=
  exists_file path (files w) || existsb (String.eqb path) dirs.

(** Lines 312-357. *)
Definition edit_pdf (dirs : list string) (index : Z) (w : world)
    : result edit_response :=
  match history_file w with
  | Missing => Ok (EditRedirect "/history")
  | fs =>
      let history := load_or_empty fs in
      n <- py_len history ;;
      if n <=? index then Ok (EditRedirect "/history")
      else
        entry <- py_index history index ;;
        pdf_name <- file_or_none entry ;;
        if negb (path_exists dirs (static_path pdf_name) w)
        then Ok (PdfNotFound pdf_name)
        else
          customer <- py_get entry "customer_name" ;;
          Ok (EditPage customer pdf_name index)
  end.

(** [d[key] = v]: the value of a present key is replaced where it stands, a
    new key goes last. *)
Fixpoint dict_set (kvs : list (string * json)) (key : string) (v : json)
    : list (string * json) :=
  match kvs with
  | [] => [(key, v)]
  | (k, x) :: kvs' =>
      if String.eqb k key then (k, v) :: kvs' else (k, x) :: dict_set kvs' key v
  end.

(** [v == name] for a string [name]. *)
Definition eq_str (v : option json) (name : string) : bool :=
  match v with
  | Some (JStr s) => String.eqb s name
  | _ => false
  end.

(** The loop of lines 734-738: the first record whose file is [pdf_name] is
    stamped; [None] when the loop ends without one. *)
Fixpoint stamp_first (pdf_name stamp : string) (items : list json)
    : result (option (list json)) :=
  match items with
  | [] => Ok None
  | h :: rest =>
      v <- py_get h "file" ;;
      if eq_str v pdf_name then
        match h with
        | JDict kvs => Ok (Some (JDict (dict_set kvs "last_downloaded" (JStr stamp)) :: rest))
        | _ => Raise AttributeError
        end
      else
        r <- stamp_first pdf_name stamp rest ;;
        Ok (option_map (cons h) r)
  end.

Inductive download_response : Type :=
| FileNotFound                               (* {"error": "File not found"} *)
| FileResponse (path filename : string).

(** Lines 719-743; [now] is the clock read of line 736. The handler ends by
    handing the path to [FileResponse]. *)
Definition download_pdf (dirs : list string) (pdf_name : string) (now : datetime)
    (w : world) : result download_response * world :=
  let pdf_path := static_path pdf_name in
  if negb (path_exists dirs pdf_path w) then (Ok FileNotFound, w)
  else
    match history_file w with
    | Missing => (Ok (FileResponse pdf_path pdf_name), w)
    | fs =>
        match (items <- py_iter (load_or_empty fs) ;;
               stamp_first pdf_name (minute_stamp now) items) with
        | Raise e => (Raise e, w)
        | Ok None => (Ok (FileResponse pdf_path pdf_name), w)
        | Ok (Some items') =>
            (Ok (FileResponse pdf_path pdf_name),
             {| history_file := Content (JList items'); files := files w |})
        end
    end.

End Documents.

(* ================================================================== *)
(** ** Vocabulary of the further properties *)

Module Props.
Import PyFloat Unicode PyStr Calc History Persist Documents.

Definition is_dict (h : json) : bool :=
  match h with
  | JDict _ => true
  | _ => false
  end.

(** [h.get("user_id") == uid] on a record. *)
Definition owner_is (uid : Z) (h : json) : bool :=
  match h with
  | JDict kvs => eq_int (dict_get kvs "user_id") uid
  | _ => false
  end.

(** [h.get("file") == name] on a record. *)
Definition file_is (name : string) (h : json) : bool :=
  match h with
  | JDict kvs => eq_str (dict_get kvs "file") name
  | _ => false
  end.

(** A record with its download stamp set. *)
Definition stamped (stamp : string) (h : json) : json :=
  match h with
  | JDict kvs => JDict (dict_set kvs "last_downloaded" (JStr stamp))
  | _ => h
  end.

(** The list with the element at position [i] replaced by its image. *)
Fixpoint update_at {A : Type} (f : A -> A) (i : nat) (l : list A) : list A :=
  match l, i with
  | [], _ => []
  | x :: l', O => f x :: l'
  | x :: l', S i' => x :: update_at f i' l'
  end.

(** The position of the first element that satisfies [p]. *)
Fixpoint find_index {A : Type} (p : A -> bool) (l : list A) : option nat :=
  match l with
  | [] => None
  | x :: l' => if p x then Some O else option_map S (find_index p l')
  end.

Definition is_digit (c : ascii) : bool :=
  let n := N_of_ascii c in (48 <=? n)%N && (n <=? 57)%N.

Fixpoint all_digits (s : string) : bool :=
  match s with
  | EmptyString => true
  | String c s' => is_digit c && all_digits s'
  end.

(** The grand total of lines 393-398, before it is rounded. *)
Definition grand_total_value (quantity unit_price : list float)
    (loading transportation : option float) : float :=
  let sub_total :=
    PrimFloat.add (PrimFloat.add (py_sum (line_amounts quantity unit_price))
                                 (charge loading))
                  (charge transportation) in
  PrimFloat.add sub_total (PrimFloat.mul sub_total gst_rate).

(** A code point the decoder can deliver. *)
Definition valid_cp (cp : Z) : Prop := 0 <= cp < 2097152.

Definition valid_cpb (cp : Z) : bool := (0 <=? cp) && (cp <? 2097152).

(** The code points of a row of a case table. *)
Definition row_points (row : Z * Z * Z * Z) : list Z :=
  let '(lo, hi, step, _) := row in
  map (fun k => lo + step * Z.of_nat k) (seq 0 (S (Z.to_nat ((hi - lo) / step)))).

Definition eq_points (a b : list Z) : bool :=
  if list_eq_dec Z.eq_dec a b then true else false.

(** [check] holds of every code point a case mapping changes. *)
Definition holds_on_table (sp : list (Z * list Z)) (t : list (Z * Z * Z * Z))
    (check : Z -> bool) : bool :=
  forallb (fun e => check (fst e)) sp &&
  forallb (fun row => (0 <? snd (fst row)) && forallb check (row_points row)) t.

(** [s.isascii()] *)
Fixpoint is_ascii (s : string) : bool :=
  match s with
  | EmptyString => true
  | String c s' => (byte c <? 128) && is_ascii s'
  end.

(** [c in s] for a character of one byte. *)
Fixpoint has_char (c : ascii) (s : string) : bool :=
  match s with
  | EmptyString => false
  | String x s' => Ascii.eqb x c || has_char c s'
  end.

(** A code point that lower-casing leaves alone. *)
Definition lowered (x : Z) : Prop := valid_cp x /\ x <> 931 /\ to_lower x = [x].

(** [strip] on code points. *)
Definition strip_points (l : list Z) : list Z := rev (lstrip (rev (lstrip l))).

Definition ascii_points (l : list Z) : Prop := Forall (fun c => 0 <= c < 128) l.

End Props.

(* ================================================================== *)
(** * Verification *)

(* ================================================================== *)
(** ** Facts on binary64 arithmetic *)

Module FloatFacts.
Import PyFloat.

Lemma zeq_refl (x : float) : zeq x x.
Proof. now left. Qed.

Lemma SFadd_zero_r (a : spec_float) (s s' : bool) :
  SF64add a (S754_zero s) = SF64add a (S754_zero s') \/
  (is_zero (SF64add a (S754_zero s)) = true /\
   is_zero (SF64add a (S754_zero s')) = true).
Proof.
  destruct a as [sa | sa | | sa ma ea]; try (left; reflexivity).
  right. destruct sa, s, s'; split; reflexivity.
Qed.

Lemma SFadd_zero_l (b : spec_float) (s s' : bool) :
  SF64add (S754_zero s) b = SF64add (S754_zero s') b \/
  (is_zero (SF64add (S754_zero s) b) = true /\
   is_zero (SF64add (S754_zero s') b) = true).
Proof.
  destruct b as [sb | sb | | sb mb eb]; try (left; reflexivity).
  right. destruct sb, s, s'; split; reflexivity.
Qed.

Lemma is_zero_inv (f : spec_float) : is_zero f = true -> exists s, f = S754_zero s.
Proof. destruct f; try discriminate. eauto. Qed.

Lemma add_zeq (x x' y y' : float) :
  zeq x x' -> zeq y y' -> zeq (x + y) (x' + y').
Proof.
  unfold zeq. rewrite !add_spec.
  intros [-> | [Hx Hx']] [-> | [Hy Hy']].
  - now left.
  - apply is_zero_inv in Hy, Hy'. destruct Hy as [s ->], Hy' as [s' ->].
    apply SFadd_zero_r.
  - apply is_zero_inv in Hx, Hx'. destruct Hx as [s ->], Hx' as [s' ->].
    apply SFadd_zero_l.
  - apply is_zero_inv in Hx, Hx', Hy, Hy'.
    destruct Hx as [s1 ->], Hx' as [s2 ->], Hy as [s3 ->], Hy' as [s4 ->].
    right. destruct s1, s2, s3, s4; split; reflexivity.
Qed.

Lemma mul_zeq_l (x x' c : float) : zeq x x' -> zeq (x * c) (x' * c).
Proof.
  unfold zeq. rewrite !mul_spec.
  intros [-> | [Hx Hx']]; [now left|].
  apply is_zero_inv in Hx, Hx'. destruct Hx as [s ->], Hx' as [s' ->].
  destruct (Prim2SF c) as [sc | sc | | sc mc ec]; try (left; reflexivity);
    right; split; reflexivity.
Qed.

Lemma py_round_zeq (x x' : float) : zeq x x' -> py_round x = py_round x'.
Proof.
  unfold zeq, py_round. intros [-> | [Hx Hx']]; [reflexivity|].
  apply is_zero_inv in Hx, Hx'. destruct Hx as [s ->], Hx' as [s' ->].
  reflexivity.
Qed.

Lemma SFmul_comm (a b : spec_float) : SF64mul a b = SF64mul b a.
Proof.
  destruct a as [sa | sa | | sa ma ea], b as [sb | sb | | sb mb eb];
    unfold SF64mul, SFmul; try reflexivity;
    rewrite (xorb_comm sa sb); try reflexivity.
  now rewrite (Pos.mul_comm ma mb), (Z.add_comm ea eb).
Qed.

Lemma mul_comm (x y : float) : (x * y = y * x)%float.
Proof.
  apply Prim2SF_inj. rewrite !mul_spec. apply SFmul_comm.
Qed.

(** A float that compares equal to zero is a zero. *)
Lemma eqb_zero (x : float) :
  PrimFloat.eqb x 0%float = is_zero (Prim2SF x).
Proof.
  rewrite eqb_spec. change (Prim2SF 0%float) with (S754_zero false).
  destruct (Prim2SF x) as [s | s | | s m e]; try reflexivity; now destruct s.
Qed.

Lemma charge_zeq (c : option float) : zeq (Calc.charge c) (Spec.form_charge c).
Proof.
  destruct c as [x|]; simpl; [|apply zeq_refl].
  unfold truthy. rewrite eqb_zero.
  destruct (is_zero (Prim2SF x)) eqn:Hz; simpl; [|apply zeq_refl].
  right. split; [reflexivity | assumption].
Qed.

(** *** Digits and shifts of [SpecFloat] *)

Lemma digits_bounds (p : positive) :
  2 ^ (Zpos (digits2_pos p) - 1) <= Zpos p < 2 ^ Zpos (digits2_pos p).
Proof.
  induction p as [p IH | p IH |]; simpl digits2_pos.
  - rewrite Pos2Z.inj_succ, Z.pow_succ_r by lia.
    replace (Z.succ (Zpos (digits2_pos p)) - 1) with (Z.succ (Zpos (digits2_pos p) - 1)) by lia.
    rewrite Z.pow_succ_r by lia. lia.
  - rewrite Pos2Z.inj_succ, Z.pow_succ_r by lia.
    replace (Z.succ (Zpos (digits2_pos p)) - 1) with (Z.succ (Zpos (digits2_pos p) - 1)) by lia.
    rewrite Z.pow_succ_r by lia. lia.
  - simpl. lia.
Qed.

Lemma digits_unique (p : positive) (k : Z) :
  2 ^ (k - 1) <= Zpos p < 2 ^ k -> Zpos (digits2_pos p) = k.
Proof.
  intros [Hlo Hhi]. pose proof (digits_bounds p) as [Dlo Dhi].
  destruct (Z.lt_trichotomy (Zpos (digits2_pos p)) k) as [Hlt | [Heq | Hgt]]; [|assumption|].
  - assert (2 ^ Zpos (digits2_pos p) <= 2 ^ (k - 1)) by (apply Z.pow_le_mono_r; lia). lia.
  - destruct (Z.le_gt_cases 0 k) as [Hk | Hk].
    + assert (2 ^ k <= 2 ^ (Zpos (digits2_pos p) - 1)) by (apply Z.pow_le_mono_r; lia). lia.
    + rewrite (Z.pow_neg_r 2 k) in Hhi by lia. lia.
Qed.

Lemma iter_xO_value (p d : positive) :
  Zpos (Pos.iter xO p d) = Zpos p * 2 ^ Zpos d.
Proof.
  induction d as [|d IH] using Pos.peano_ind.
  - simpl. lia.
  - rewrite Pos.iter_succ, Pos2Z.inj_xO, IH, Pos2Z.inj_succ, Z.pow_succ_r by lia. lia.
Qed.

Lemma iter_xO_digits (p d : positive) :
  Zpos (digits2_pos (Pos.iter xO p d)) = Zpos (digits2_pos p) + Zpos d.
Proof.
  induction d as [|d IH] using Pos.peano_ind.
  - simpl. lia.
  - rewrite Pos.iter_succ. simpl digits2_pos. lia.
Qed.

Lemma shr_fexp_canonical (m : positive) (e : Z) :
  canonical_mantissa prec emax m e = true ->
  shr_fexp prec emax (Zpos m) e loc_Exact =
  ({| shr_m := Zpos m; shr_r := false; shr_s := false |}, e).
Proof.
  unfold canonical_mantissa, shr_fexp. intros Hc. apply Z.eqb_eq in Hc.
  change (Zdigits2 (Zpos m)) with (Zpos (digits2_pos m)).
  rewrite Hc, Z.sub_diag. reflexivity.
Qed.

(** A mantissa already in canonical position is rounded to itself. *)
Lemma binary_round_aux_canonical (s : bool) (m : positive) (e : Z) :
  canonical_mantissa prec emax m e = true ->
  e <= emax - prec ->
  binary_round_aux prec emax s (Zpos m) e loc_Exact = S754_finite s m e.
Proof.
  intros Hc He. unfold binary_round_aux.
  rewrite (shr_fexp_canonical m e Hc).
  cbn [shr_m loc_of_shr_record round_nearest_even].
  rewrite (shr_fexp_canonical m e Hc). cbn [shr_m].
  destruct (e <=? emax - prec) eqn:E; [reflexivity | apply Z.leb_gt in E; lia].
Qed.

(** Rounding what needs no right shift is exact. *)
Lemma binary_round_exact (s : bool) (p : positive) (ex : Z) :
  fexp prec emax (Zpos (digits2_pos p) + ex) <= ex ->
  ex <= emax - prec ->
  exists (m : positive) (e : Z),
    binary_round prec emax s p ex = S754_finite s m e /\
    valid_binary (S754_finite s m e) = true /\
    e <= ex /\ Zpos m = Zpos p * 2 ^ (ex - e).
Proof.
  intros Hf He. unfold binary_round, shl_align.
  set (fe := fexp prec emax (Zpos (digits2_pos p) + ex)) in *.
  destruct (fe - ex) as [|d|d] eqn:Hd; try lia.
  - exists p, ex. assert (fe = ex) as Hfe by lia.
    assert (canonical_mantissa prec emax p ex = true) as Hc
      by (unfold canonical_mantissa; fold fe; now apply Z.eqb_eq).
    rewrite binary_round_aux_canonical by assumption.
    repeat split; try lia.
    + unfold SpecFloat.valid_binary, bounded. rewrite Hc. cbn [andb]. now apply Z.leb_le.
    + rewrite Z.sub_diag. simpl. lia.
  - exists (Pos.iter xO p d), fe.
    assert (canonical_mantissa prec emax (Pos.iter xO p d) fe = true) as Hc.
    { unfold canonical_mantissa. apply Z.eqb_eq. rewrite iter_xO_digits.
      replace (Zpos (digits2_pos p) + Zpos d + fe) with (Zpos (digits2_pos p) + ex) by lia.
      reflexivity. }
    rewrite binary_round_aux_canonical by (assumption || lia).
    repeat split; try lia.
    + unfold SpecFloat.valid_binary, bounded. rewrite Hc. cbn [andb]. apply Z.leb_le. lia.
    + rewrite iter_xO_value. f_equal. f_equal. lia.
Qed.

Lemma shr_1_double (z : Z) :
  0 < z ->
  shr_1 {| shr_m := 2 * z; shr_r := false; shr_s := false |} =
  {| shr_m := z; shr_r := false; shr_s := false |}.
Proof. destruct z; try lia. reflexivity. Qed.

(** Shifting out [n] zero bits is exact. *)
Lemma iter_shr_exact (n : positive) (z : Z) :
  0 < z ->
  iter_pos shr_1 n {| shr_m := z * 2 ^ Zpos n; shr_r := false; shr_s := false |} =
  {| shr_m := z; shr_r := false; shr_s := false |}.
Proof.
  revert z. induction n as [n IH | n IH |]; intros z Hz; cbn [iter_pos].
  - replace (z * 2 ^ Zpos n~1) with (2 * ((z * 2 ^ Zpos n) * 2 ^ Zpos n)).
    + rewrite shr_1_double by lia. rewrite IH by lia. now apply IH.
    + replace (Zpos n~1) with (Zpos n + Zpos n + 1) by lia.
      rewrite !Z.pow_add_r by lia. change (2 ^ 1) with 2. ring.
  - replace (z * 2 ^ Zpos n~0) with ((z * 2 ^ Zpos n) * 2 ^ Zpos n).
    + rewrite IH by lia. now apply IH.
    + replace (Zpos n~0) with (Zpos n + Zpos n) by lia.
      rewrite !Z.pow_add_r by lia. ring.
  - replace (z * 2 ^ 1) with (2 * z) by lia. now apply shr_1_double.
Qed.

(** What [valid_binary] says of a finite float. *)
Lemma bounded_inv (m : positive) (e : Z) :
  bounded prec emax m e = true ->
  fexp prec emax (Zpos (digits2_pos m) + e) = e /\
  Zpos (digits2_pos m) <= 53 /\ -1074 <= e <= 971 /\
  (-1074 < e -> Zpos (digits2_pos m) = 53).
Proof.
  unfold bounded, canonical_mantissa. intros H.
  apply andb_prop in H as [Hc He]. apply Z.eqb_eq in Hc. apply Z.leb_le in He.
  split; [assumption|]. revert Hc He. unfold fexp, SpecFloat.emin, emax, prec. lia.
Qed.

Lemma shr_fexp_big (m pe : positive) :
  bounded prec emax m (Zpos pe) = true ->
  shr_fexp prec emax (Zpos (Pos.iter xO m pe)) 0 loc_Exact =
  ({| shr_m := Zpos m; shr_r := false; shr_s := false |}, Zpos pe).
Proof.
  intros Hb. pose proof (bounded_inv _ _ Hb) as (Hc & _).
  unfold shr_fexp.
  change (Zdigits2 (Zpos (Pos.iter xO m pe))) with (Zpos (digits2_pos (Pos.iter xO m pe))).
  rewrite iter_xO_digits, Z.add_0_r, Hc, Z.sub_0_r.
  unfold shr. cbn [shr_record_of_loc].
  rewrite iter_xO_value, iter_shr_exact by lia. reflexivity.
Qed.

(** The float of an integer [m * 2^e] that is itself a float. *)
Lemma binary_round_big (s : bool) (m pe : positive) :
  bounded prec emax m (Zpos pe) = true ->
  binary_round prec emax s (Pos.iter xO m pe) 0 = S754_finite s m (Zpos pe).
Proof.
  intros Hb. pose proof (bounded_inv _ _ Hb) as (Hc & _ & He & Hd).
  assert (canonical_mantissa prec emax m (Zpos pe) = true) as Hcm
    by (unfold canonical_mantissa; now apply Z.eqb_eq).
  unfold binary_round. rewrite iter_xO_digits, Z.add_0_r, Hc.
  unfold shl_align. cbn [Z.sub Z.opp Z.add].
  unfold binary_round_aux. rewrite (shr_fexp_big _ _ Hb).
  cbn [shr_m loc_of_shr_record round_nearest_even].
  rewrite (shr_fexp_canonical _ _ Hcm). cbn [shr_m].
  destruct (Zpos pe <=? emax - prec) eqn:E; [reflexivity|].
  apply Z.leb_gt in E. revert E. unfold emax, prec. lia.
Qed.

(** *** Rounding to the nearest integer *)

Lemma round_half_even_one (n : Z) : round_half_even n 1 = n.
Proof.
  unfold round_half_even. rewrite Z.mod_1_r, Z.div_1_r. reflexivity.
Qed.

Lemma round_half_even_near (n d : Z) :
  0 < d -> - d <= 2 * (round_half_even n d * d - n) <= d.
Proof.
  intros Hd. unfold round_half_even.
  pose proof (Z.div_mod n d ltac:(lia)) as E.
  pose proof (Z.mod_pos_bound n d Hd) as B.
  destruct (2 * (n mod d) <? d) eqn:E1; [apply Z.ltb_lt in E1; nia|].
  apply Z.ltb_ge in E1.
  destruct (d <? 2 * (n mod d)) eqn:E2; [apply Z.ltb_lt in E2; nia|].
  apply Z.ltb_ge in E2.
  destruct (Z.even (n / d)); nia.
Qed.

Lemma round_half_even_range (n d : Z) :
  0 < d -> 0 <= n -> 0 <= round_half_even n d <= n.
Proof.
  intros Hd Hn. pose proof (round_half_even_near n d Hd) as Hnear.
  assert (0 <= round_half_even n d) by nia.
  split; [assumption|].
  destruct (Z.eq_dec d 1) as [-> | Hd1]; [rewrite round_half_even_one; lia|].
  destruct (Z.eq_dec (round_half_even n d) 0) as [-> | Hr]; [lia|]. nia.
Qed.

Lemma mag_den_pos (e : Z) : 0 < mag_den e.
Proof.
  destruct e as [|p|p]; cbn [mag_den];
    first [lia | apply Z.pow_pos_nonneg; lia].
Qed.

Lemma mag_num_pos (m : positive) (e : Z) : 0 < mag_num m e.
Proof.
  destruct e as [|p|p]; cbn [mag_num];
    first [lia | pose proof (Z.pow_pos_nonneg 2 (Zpos p)); nia].
Qed.

(** *** The float of a rounded float *)

Lemma normalize_signed (s : bool) (p : positive) :
  binary_normalize prec emax (cond_Zopp s (Zpos p)) 0 false =
  binary_round prec emax s p 0.
Proof. now destruct s. Qed.

Lemma exact_sf_scaled (s : bool) (m p : positive) (e : Z) :
  e <= 0 -> Zpos m = Zpos p * 2 ^ (0 - e) ->
  exists q, exact_sf (S754_finite s m e) = Some q /\
            (q == inject_Z (cond_Zopp s (Zpos p)))%Q.
Proof.
  intros He Hm. eexists. split; [reflexivity|].
  destruct e as [|pe|pe]; try lia; unfold Qeq; cbn [Qnum Qden inject_Z mag_num mag_den].
  - f_equal. destruct s; cbn [cond_Zopp]; change (2 ^ (0 - 0)) with 1 in Hm; lia.
  - rewrite Z2Pos.id by (apply Z.pow_pos_nonneg; lia).
    change (0 - Zneg pe) with (Zpos pe) in Hm.
    destruct s; cbn [cond_Zopp]; lia.
Qed.

(** An integer of at most 53 bits converts exactly. *)
Lemma normalize_small (s : bool) (p : positive) :
  Zpos (digits2_pos p) <= 53 ->
  exists f q,
    binary_normalize prec emax (cond_Zopp s (Zpos p)) 0 false = f /\
    valid_binary f = true /\ exact_sf f = Some q /\
    (q == inject_Z (cond_Zopp s (Zpos p)))%Q.
Proof.
  intros Hd. rewrite normalize_signed.
  destruct (binary_round_exact s p 0) as (m & e & Hr & Hv & He & Hm).
  - unfold fexp, SpecFloat.emin, emax, prec. lia.
  - unfold emax, prec. lia.
  - destruct (exact_sf_scaled s m p e He Hm) as (q & Hq & Hqe).
    exists (S754_finite s m e), q. now rewrite Hr.
Qed.

Lemma float_of_int_ok (z : Z) (f : spec_float) (q : Q) :
  binary_normalize prec emax z 0 false = f ->
  valid_binary f = true -> exact_sf f = Some q ->
  float_of_int z = Ok (SF2Prim f) /\ exact (SF2Prim f) = Some q.
Proof.
  intros Hn Hv Hq. unfold float_of_int, exact. rewrite Hn.
  rewrite Prim2SF_SF2Prim by assumption.
  split; [|assumption]. destruct f; try reflexivity; discriminate.
Qed.

(** [round(g) - g] never fails on the conversion of [round(g)], which is
    exact. *)
Lemma float_of_int_round (g : float) (r : Z) :
  py_round g = Ok r ->
  exists rf q, float_of_int r = Ok rf /\ exact rf = Some q /\
               (q == inject_Z r)%Q.
Proof.
  unfold py_round. pose proof (Prim2SF_valid g) as Hv.
  destruct (Prim2SF g) as [s | s | | s m e]; try discriminate; intros [= <-].
  - exists (SF2Prim (S754_zero false)), 0%Q.
    destruct (float_of_int_ok 0 (S754_zero false) 0%Q) as [H1 H2]; try reflexivity.
    repeat split; assumption.
  - cbn [SpecFloat.valid_binary] in Hv.
    pose proof (bounded_inv _ _ Hv) as (Hc & Hd & He & _).
    assert (exists f q,
               binary_normalize prec emax
                 (cond_Zopp s (round_half_even (mag_num m e) (mag_den e))) 0 false = f /\
               valid_binary f = true /\ exact_sf f = Some q /\
               (q == inject_Z (cond_Zopp s (round_half_even (mag_num m e) (mag_den e))))%Q)
      as (f & q & Hn & Hvf & Hq & Hqe).
    { destruct e as [|pe|pe]; cbn [mag_num mag_den].
      - rewrite round_half_even_one. now apply normalize_small.
      - rewrite round_half_even_one, <- iter_xO_value, normalize_signed.
        rewrite binary_round_big by assumption.
        exists (S754_finite s m (Zpos pe)). eexists.
        repeat split; [assumption|].
        cbn [exact_sf Qnum Qden inject_Z mag_num mag_den]. rewrite iter_xO_value. reflexivity.
      - pose proof (round_half_even_range (Zpos m) (2 ^ Zpos pe)
                      ltac:(apply Z.pow_pos_nonneg; lia) ltac:(lia)) as Hr.
        destruct (round_half_even (Zpos m) (2 ^ Zpos pe)) as [|p|p] eqn:ER; try lia.
        + exists (S754_zero false), 0%Q. destruct s; repeat split; reflexivity.
        + apply normalize_small.
          pose proof (digits_bounds p) as [Plo _]. pose proof (digits_bounds m) as [_ Mhi].
          assert (2 ^ (Zpos (digits2_pos p) - 1) < 2 ^ Zpos (digits2_pos m)) as Hlt by lia.
          apply Z.pow_lt_mono_r_iff in Hlt; lia. }
    destruct (float_of_int_ok _ f q Hn Hvf Hq) as [H1 H2].
    exists (SF2Prim f), q. repeat split; assumption.
Qed.

Lemma py_round_nearest (g : float) (r : Z) :
  py_round g = Ok r ->
  exists q, exact g = Some q /\ (Qabs (inject_Z r - q) <= 1 # 2)%Q.
Proof.
  unfold py_round, exact.
  destruct (Prim2SF g) as [s | s | | s m e]; try discriminate; intros [= <-].
  - exists 0%Q. split; [reflexivity | discriminate].
  - eexists. split; [reflexivity|].
    pose proof (mag_den_pos e) as Hd.
    pose proof (round_half_even_near (mag_num m e) (mag_den e) Hd) as Hn.
    apply Qabs_Qle_condition.
    unfold Qle, Qminus, Qplus, Qopp, inject_Z. cbn [Qnum Qden].
    rewrite Pos.mul_1_l, Z2Pos.id by assumption.
    destruct s; cbn [cond_Zopp]; split; lia.
Qed.

(** *** The sign of a difference *)

Lemma shr_1_half (mrs : shr_record) :
  0 <= shr_m mrs -> shr_m (shr_1 mrs) = shr_m mrs / 2.
Proof.
  destruct mrs as [m r s]. cbn [shr_m]. intros Hm.
  destruct m as [|[p|p|]|p]; try lia; cbn [shr_1 shr_m].
  - reflexivity.
  - rewrite Pos2Z.inj_xI. apply Z.div_unique with (r := 1); lia.
  - rewrite Pos2Z.inj_xO. apply Z.div_unique with (r := 0); lia.
  - reflexivity.
Qed.

Ltac pow2_side :=
  first [ lia
        | apply Z.pow_pos_nonneg; lia
        | apply Z.neq_sym, Z.lt_neq, Z.pow_pos_nonneg; lia ].

Lemma iter_shr_div (n : positive) (mrs : shr_record) :
  0 <= shr_m mrs -> shr_m (iter_pos shr_1 n mrs) = shr_m mrs / 2 ^ Zpos n.
Proof.
  revert mrs. induction n as [n IH | n IH |]; intros mrs Hm; cbn [iter_pos].
  - assert (0 <= shr_m (shr_1 mrs)) as H1
      by (rewrite shr_1_half by assumption; apply Z.div_pos; lia).
    assert (0 <= shr_m (iter_pos shr_1 n (shr_1 mrs))) as H2
      by (rewrite IH by assumption; apply Z.div_pos; [lia | apply Z.pow_pos_nonneg; lia]).
    rewrite IH, IH, shr_1_half by assumption.
    rewrite !Z.div_div by pow2_side.
    f_equal. replace (Zpos n~1) with (1 + Zpos n + Zpos n) by lia.
    rewrite !Z.pow_add_r by lia. change (2 ^ 1) with 2. ring.
  - assert (0 <= shr_m (iter_pos shr_1 n mrs)) as H2
      by (rewrite IH by assumption; apply Z.div_pos; [lia | apply Z.pow_pos_nonneg; lia]).
    rewrite IH, IH by assumption.
    rewrite Z.div_div by pow2_side.
    f_equal. replace (Zpos n~0) with (Zpos n + Zpos n) by lia.
    now rewrite Z.pow_add_r by lia.
  - now apply shr_1_half.
Qed.

Lemma shr_m_of_loc (m : Z) (l : location) : shr_m (shr_record_of_loc m l) = m.
Proof. destruct l as [|[ | | ]]; reflexivity. Qed.

(** Above the least exponent a right shift keeps a mantissa positive. *)
Lemma shr_fexp_pos (p : positive) (e : Z) (l : location) :
  -1074 <= e ->
  0 < shr_m (fst (shr_fexp prec emax (Zpos p) e l)) /\
  -1074 <= snd (shr_fexp prec emax (Zpos p) e l).
Proof.
  intros He. unfold shr_fexp, shr.
  change (Zdigits2 (Zpos p)) with (Zpos (digits2_pos p)).
  destruct (fexp prec emax (Zpos (digits2_pos p) + e) - e) as [|n|n] eqn:En;
    cbn [fst snd]; rewrite ?shr_m_of_loc; try lia.
  rewrite iter_shr_div by (rewrite shr_m_of_loc; lia). rewrite shr_m_of_loc.
  split; [|lia].
  assert (Zpos n = Zpos (digits2_pos p) - 53) as Hn
    by (revert En; unfold fexp, SpecFloat.emin, emax, prec; lia).
  pose proof (digits_bounds p) as [Plo _].
  assert (2 ^ Zpos n <= 2 ^ (Zpos (digits2_pos p) - 1)) by (apply Z.pow_le_mono_r; lia).
  apply Z.div_str_pos. split; [apply Z.pow_pos_nonneg; lia | lia].
Qed.

Lemma round_nearest_even_pos (m : Z) (l : location) :
  0 < m -> 0 < round_nearest_even m l.
Proof.
  intros Hm. destruct l as [|[ | | ]]; cbn [round_nearest_even]; try lia.
  destruct (Z.even m); lia.
Qed.

Lemma binary_round_aux_signed (s : bool) (p : positive) (e : Z) (l : location) :
  -1074 <= e -> signed s (binary_round_aux prec emax s (Zpos p) e l).
Proof.
  intros He. unfold binary_round_aux.
  pose proof (shr_fexp_pos p e l He) as [H1 H1e].
  destruct (shr_fexp prec emax (Zpos p) e l) as [mrs' e']. cbn [fst snd] in H1, H1e.
  pose proof (round_nearest_even_pos (shr_m mrs') (loc_of_shr_record mrs') H1) as Hr.
  destruct (round_nearest_even (shr_m mrs') (loc_of_shr_record mrs')) as [|p'|p'];
    try lia.
  pose proof (shr_fexp_pos p' e' loc_Exact H1e) as [H2 _].
  destruct (shr_fexp prec emax (Zpos p') e' loc_Exact) as [mrs'' e'']. cbn [fst] in H2.
  destruct (shr_m mrs'') as [|m|m]; try lia.
  destruct (e'' <=? emax - prec); [left; eauto | now right].
Qed.

Lemma binary_round_signed (s : bool) (p : positive) (e : Z) :
  -1074 <= e -> signed s (binary_round prec emax s p e).
Proof.
  intros He. unfold binary_round, shl_align.
  set (fe := fexp prec emax (Zpos (digits2_pos p) + e)).
  assert (-1074 <= fe) by (unfold fe, fexp, SpecFloat.emin, emax, prec; lia).
  destruct (fe - e); now apply binary_round_aux_signed.
Qed.

Lemma signed_pos (f : spec_float) :
  signed false f -> SFltb (S754_zero false) f = true.
Proof. intros [(m & e & ->) | ->]; reflexivity. Qed.

Lemma signed_neg (f : spec_float) :
  signed true f -> SFltb f (S754_zero false) = true.
Proof. intros [(m & e & ->) | ->]; reflexivity. Qed.

Lemma two_pow_pos (e : Z) : (0 < two_pow e)%Q.
Proof.
  unfold Qlt, two_pow. cbn [Qnum Qden]. pose proof (mag_num_pos 1 e). lia.
Qed.

Lemma mag_num_max (m : positive) (e : Z) : mag_num m e = Zpos m * 2 ^ Z.max e 0.
Proof.
  destruct e as [|p|p]; cbn [mag_num].
  - change (Z.max 0 0) with 0. change (2 ^ 0) with 1. lia.
  - now rewrite Z.max_l by lia.
  - rewrite Z.max_r by lia. change (2 ^ 0) with 1. lia.
Qed.

Lemma mag_den_max (e : Z) : mag_den e = 2 ^ Z.max (- e) 0.
Proof.
  destruct e as [|p|p]; cbn [mag_den].
  - reflexivity.
  - now rewrite Z.max_r by lia.
  - now rewrite Z.max_l by lia.
Qed.

Lemma shl_align_value (m : positive) (e ez : Z) :
  ez <= e -> Zpos (fst (shl_align m e ez)) = Zpos m * 2 ^ (e - ez).
Proof.
  intros He. unfold shl_align. destruct (ez - e) as [|d|d] eqn:Ed; try lia; cbn [fst].
  - replace (e - ez) with 0 by lia. change (2 ^ 0) with 1. lia.
  - rewrite iter_xO_value. do 2 f_equal. lia.
Qed.

(** The value of a finite float over the common exponent [ez]. *)
Lemma exact_aligned (s : bool) (m : positive) (e ez : Z) :
  ez <= e ->
  (Qmake (cond_Zopp s (mag_num m e)) (Z.to_pos (mag_den e)) ==
   inject_Z (cond_Zopp s (Zpos (fst (shl_align m e ez)))) * two_pow ez)%Q.
Proof.
  intros He. rewrite shl_align_value by assumption.
  unfold Qeq, Qmult, two_pow, inject_Z. cbn [Qnum Qden].
  rewrite Pos.mul_1_l, !Z2Pos.id by apply mag_den_pos.
  rewrite !mag_den_max, !mag_num_max.
  assert (2 ^ Z.max e 0 * 2 ^ Z.max (- ez) 0 =
          2 ^ (e - ez) * 2 ^ Z.max ez 0 * 2 ^ Z.max (- e) 0) as H
    by (rewrite <- !Z.pow_add_r by lia; f_equal; lia).
  destruct s; cbn [cond_Zopp].
  - replace (- (Zpos m * 2 ^ Z.max e 0) * 2 ^ Z.max (- ez) 0)
      with (- Zpos m * (2 ^ Z.max e 0 * 2 ^ Z.max (- ez) 0)) by ring.
    rewrite H. ring.
  - replace (Zpos m * 2 ^ Z.max e 0 * 2 ^ Z.max (- ez) 0)
      with (Zpos m * (2 ^ Z.max e 0 * 2 ^ Z.max (- ez) 0)) by ring.
    rewrite H. ring.
Qed.

Lemma scaled_lt (a b : Z) (t qa qb : Q) :
  (0 < t)%Q -> (qa == inject_Z a * t)%Q -> (qb == inject_Z b * t)%Q ->
  (qb < qa)%Q -> b < a.
Proof.
  intros Ht Ha Hb Hlt. apply Z.nle_gt. intros Hle.
  apply (Qlt_not_le _ _ Hlt). rewrite Ha, Hb.
  apply Qmult_le_compat_r; [now rewrite <- Zle_Qle | now apply Qlt_le_weak].
Qed.

Lemma finite_sign (s : bool) (m : positive) (e : Z) :
  (if s then Qmake (cond_Zopp s (mag_num m e)) (Z.to_pos (mag_den e)) < 0
   else 0 < Qmake (cond_Zopp s (mag_num m e)) (Z.to_pos (mag_den e)))%Q.
Proof.
  pose proof (mag_num_pos m e).
  destruct s; unfold Qlt; cbn [Qnum Qden cond_Zopp]; lia.
Qed.

(** The difference of two finite floats has the sign of the exact
    difference. *)
Lemma SFsub_sign (a b : spec_float) (qa qb : Q) :
  valid_binary a = true -> valid_binary b = true ->
  exact_sf a = Some qa -> exact_sf b = Some qb ->
  ((qb < qa)%Q -> SFltb (S754_zero false) (SF64sub a b) = true) /\
  ((qa < qb)%Q -> SFltb (SF64sub a b) (S754_zero false) = true).
Proof.
  intros Va Vb Ha Hb.
  destruct a as [sa | sa | | sa ma ea]; try discriminate;
    destruct b as [sb | sb | | sb mb eb]; try discriminate;
    cbn [exact_sf] in Ha, Hb; injection Ha as <-; injection Hb as <-.
  - split; intros H; now apply Qlt_irrefl in H.
  - pose proof (finite_sign sb mb eb) as Hs.
    destruct sb; split; intros H; try reflexivity;
      exfalso; apply (Qlt_irrefl 0); eapply Qlt_trans; eassumption.
  - pose proof (finite_sign sa ma ea) as Hs.
    destruct sa; split; intros H; try reflexivity;
      exfalso; apply (Qlt_irrefl 0); eapply Qlt_trans; eassumption.
  - cbn [SpecFloat.valid_binary] in Va, Vb.
    pose proof (bounded_inv _ _ Va) as (_ & _ & Ea & _).
    pose proof (bounded_inv _ _ Vb) as (_ & _ & Eb & _).
    unfold SF64sub, SFsub. set (ez := Z.min ea eb).
    pose proof (exact_aligned sa ma ea ez ltac:(lia)) as Qa.
    pose proof (exact_aligned sb mb eb ez ltac:(lia)) as Qb.
    set (A := cond_Zopp sa (Zpos (fst (shl_align ma ea ez)))) in *.
    set (B := cond_Zopp sb (Zpos (fst (shl_align mb eb ez)))) in *.
    split; intros H.
    + pose proof (scaled_lt A B _ _ _ (two_pow_pos ez) Qa Qb H) as Hlt.
      destruct (A - B) as [|p|p] eqn:E; try lia.
      apply signed_pos, binary_round_signed. lia.
    + pose proof (scaled_lt B A _ _ _ (two_pow_pos ez) Qb Qa H) as Hlt.
      destruct (A - B) as [|p|p] eqn:E; try lia.
      apply signed_neg, binary_round_signed. lia.
Qed.

Lemma sub_sign (a b : float) (qa qb : Q) :
  exact a = Some qa -> exact b = Some qb ->
  ((qb < qa)%Q -> PrimFloat.ltb 0%float (a - b)%float = true) /\
  ((qa < qb)%Q -> PrimFloat.ltb (a - b)%float 0%float = true).
Proof.
  intros Ha Hb. rewrite !ltb_spec, sub_spec.
  change (Prim2SF 0%float) with (S754_zero false).
  apply SFsub_sign; auto using Prim2SF_valid.
Qed.

End FloatFacts.

(* ================================================================== *)
(** ** Facts on strings *)

Module StrFacts.
Import Unicode PyStr Props.

Lemma byte_range (c : ascii) : 0 <= byte c < 256.
Proof. unfold byte. pose proof (N_ascii_bounded c). lia. Qed.

Lemma byte_chr (b : Z) : 0 <= b < 256 -> byte (chr b) = b.
Proof.
  intros Hb. unfold byte, chr. rewrite N_ascii_embedding by lia. lia.
Qed.

Lemma decode_from_valid (s : string) :
  forall acc k, 0 <= acc -> (acc + 1) * 64 ^ Z.of_nat k <= 2097152 ->
    Forall valid_cp (decode_from acc k s).
Proof.
  induction s as [|c s IH]; intros acc k Hacc Hk; cbn [decode_from]; [constructor|].
  pose proof (byte_range c) as Hc.
  assert (forall a j, 0 <= a -> (a + 1) * 64 ^ Z.of_nat j <= 2097152 ->
                      Forall valid_cp (decode_from a j s)) as IH' by (intros; now apply IH).
  assert (Forall valid_cp (decode_from 0 0 s)) as H0 by (apply IH; cbn; lia).
  destruct k as [|k'].
  - destruct (byte c <? 128) eqn:E1; [constructor; [unfold valid_cp; apply Z.ltb_lt in E1; lia | exact H0]|].
    destruct (byte c <? 192) eqn:E2; [exact H0|].
    apply Z.ltb_ge in E1, E2.
    destruct (byte c <? 224) eqn:E3; [apply Z.ltb_lt in E3; apply IH; [lia | cbn; lia]|].
    apply Z.ltb_ge in E3.
    destruct (byte c <? 240) eqn:E4; [apply Z.ltb_lt in E4; apply IH; [lia | cbn; lia]|].
    pose proof (Z.mod_pos_bound (byte c - 240) 8 ltac:(lia)).
    apply IH; [lia | cbn; lia].
  - pose proof (Z.mod_pos_bound (byte c) 64 ltac:(lia)) as Hm.
    assert ((acc * 64 + byte c mod 64 + 1) * 64 ^ Z.of_nat k' <= 2097152) as Hnext.
    { replace (Z.of_nat (S k')) with (Z.of_nat k' + 1) in Hk by lia.
      rewrite Z.pow_add_r in Hk by lia. change (64 ^ 1) with 64 in Hk.
      assert (0 < 64 ^ Z.of_nat k') by (apply Z.pow_pos_nonneg; lia). nia. }
    destruct k' as [|k''].
    + constructor; [|exact H0]. unfold valid_cp. cbn in Hnext. lia.
    + apply IH; [lia | exact Hnext].
Qed.

Lemma code_points_valid (s : string) : Forall valid_cp (code_points s).
Proof. apply decode_from_valid; cbn; lia. Qed.

Lemma decode_encode (cp : Z) (t : string) :
  valid_cp cp -> decode_from 0 0 (encode cp ++ t) = cp :: decode_from 0 0 t.
Proof.
  unfold valid_cp, encode. intros Hcp.
  pose proof (Z.mod_pos_bound cp 64 ltac:(lia)) as M0.
  pose proof (Z.mod_pos_bound (cp / 64) 64 ltac:(lia)) as M1.
  pose proof (Z.mod_pos_bound (cp / 4096) 64 ltac:(lia)) as M2.
  pose proof (Z.mod_pos_bound (cp / 262144) 8 ltac:(lia)) as M3.
  pose proof (Z.div_mod cp 64 ltac:(lia)) as D0.
  pose proof (Z.div_mod (cp / 64) 64 ltac:(lia)) as D1.
  pose proof (Z.div_mod (cp / 4096) 64 ltac:(lia)) as D2.
  assert (cp / 64 / 64 = cp / 4096) as Q1 by (rewrite Z.div_div by lia; reflexivity).
  assert (cp / 4096 / 64 = cp / 262144) as Q2 by (rewrite Z.div_div by lia; reflexivity).
  assert (forall x, 0 <= x < 64 -> (128 + x) mod 64 = x) as Hcont.
  { intros x Hx. symmetry. apply (Z.mod_unique _ _ 2); lia. }
  destruct (cp <? 128) eqn:E1.
  - apply Z.ltb_lt in E1. cbn [append decode_from]. rewrite byte_chr by lia.
    apply Z.ltb_lt in E1. now rewrite E1.
  - apply Z.ltb_ge in E1. destruct (cp <? 2048) eqn:E2.
    + apply Z.ltb_lt in E2.
      assert (0 <= cp / 64 < 32) by (split; [apply Z.div_pos; lia | apply Z.div_lt_upper_bound; lia]).
      cbn [append decode_from]. rewrite !byte_chr by lia.
      replace (192 + cp / 64 <? 128) with false by (symmetry; apply Z.ltb_ge; lia).
      replace (192 + cp / 64 <? 192) with false by (symmetry; apply Z.ltb_ge; lia).
      replace (192 + cp / 64 <? 224) with true by (symmetry; apply Z.ltb_lt; lia).
      rewrite Hcont by lia. f_equal. lia.
    + apply Z.ltb_ge in E2. destruct (cp <? 65536) eqn:E3.
      * apply Z.ltb_lt in E3.
        assert (0 <= cp / 4096 < 16)
          by (split; [apply Z.div_pos; lia | apply Z.div_lt_upper_bound; lia]).
        cbn [append decode_from]. rewrite !byte_chr by lia.
        replace (224 + cp / 4096 <? 128) with false by (symmetry; apply Z.ltb_ge; lia).
        replace (224 + cp / 4096 <? 192) with false by (symmetry; apply Z.ltb_ge; lia).
        replace (224 + cp / 4096 <? 224) with false by (symmetry; apply Z.ltb_ge; lia).
        replace (224 + cp / 4096 <? 240) with true by (symmetry; apply Z.ltb_lt; lia).
        rewrite !Hcont by lia. f_equal. lia.
      * apply Z.ltb_ge in E3.
        assert (0 <= cp / 262144 < 8)
          by (split; [apply Z.div_pos; lia | apply Z.div_lt_upper_bound; lia]).
        assert (cp / 262144 mod 8 = cp / 262144) as M4 by (apply Z.mod_small; lia).
        cbn [append decode_from]. rewrite !byte_chr by lia.
        replace (240 + cp / 262144 mod 8 <? 128) with false by (symmetry; apply Z.ltb_ge; lia).
        replace (240 + cp / 262144 mod 8 <? 192) with false by (symmetry; apply Z.ltb_ge; lia).
        replace (240 + cp / 262144 mod 8 <? 224) with false by (symmetry; apply Z.ltb_ge; lia).
        replace (240 + cp / 262144 mod 8 <? 240) with false by (symmetry; apply Z.ltb_ge; lia).
        rewrite !Hcont by lia.
        replace (240 + cp / 262144 mod 8 - 240) with (cp / 262144 mod 8) by lia.
        rewrite Z.mod_mod by lia. f_equal. lia.
Qed.

(** Decoding undoes encoding. *)
Lemma code_points_of_code_points (l : list Z) :
  Forall valid_cp l -> code_points (of_code_points l) = l.
Proof.
  unfold code_points. induction 1 as [|cp l Hcp Hl IH]; [reflexivity|].
  cbn [of_code_points]. rewrite decode_encode by assumption. now rewrite IH.
Qed.

(** *** The case tables *)

Lemma eq_points_eq (a b : list Z) : eq_points a b = true -> a = b.
Proof. unfold eq_points. destruct (list_eq_dec Z.eq_dec a b); [auto | discriminate]. Qed.

Lemma special_In (t : list (Z * list Z)) (cp : Z) (l : list Z) :
  special t cp = Some l -> In (cp, l) t.
Proof.
  induction t as [|[c x] t IH]; cbn [special]; [discriminate|].
  destruct (c =? cp) eqn:E.
  - apply Z.eqb_eq in E. intros [= <-]. subst. now left.
  - intros H. right. now apply IH.
Qed.

Lemma row_points_In (lo hi step delta cp : Z) :
  0 < step -> lo <= cp <= hi -> (cp - lo) mod step = 0 ->
  In cp (row_points (lo, hi, step, delta)).
Proof.
  intros Hs Hr Hm. unfold row_points. apply in_map_iff.
  exists (Z.to_nat ((cp - lo) / step)).
  pose proof (Z.div_mod (cp - lo) step ltac:(lia)) as Hd.
  assert (0 <= (cp - lo) / step) by (apply Z.div_pos; lia).
  split; [rewrite Z2Nat.id by lia; lia|].
  apply in_seq. split; [lia|]. cbn [Nat.add].
  assert ((cp - lo) / step <= (hi - lo) / step) by (apply Z.div_le_mono; lia).
  lia.
Qed.

Lemma shift_In (t : list (Z * Z * Z * Z)) (cp delta : Z) :
  shift t cp = Some delta ->
  exists row, In row t /\ snd row = delta /\ (0 < snd (fst row) -> In cp (row_points row)).
Proof.
  induction t as [|[[[lo hi] step] d] t IH]; cbn [shift]; [discriminate|].
  destruct ((lo <=? cp) && (cp <=? hi) && ((cp - lo) mod step =? 0)) eqn:E.
  - intros [= <-]. exists (lo, hi, step, d). split; [now left|]. split; [reflexivity|].
    cbn [fst snd]. intros Hs.
    apply andb_prop in E as [E E3]. apply andb_prop in E as [E1 E2].
    apply Z.leb_le in E1, E2. apply Z.eqb_eq in E3. now apply row_points_In.
  - intros H. destruct (IH H) as (row & Hin & Hd & Hp). exists row. split; [now right | auto].
Qed.

(** What was checked on the tables holds of every code point that has a
    mapping. *)
Lemma holds_on_table_sound (sp : list (Z * list Z)) (t : list (Z * Z * Z * Z))
    (check : Z -> bool) (cp : Z) :
  holds_on_table sp t check = true ->
  special sp cp <> None \/ shift t cp <> None ->
  check cp = true.
Proof.
  unfold holds_on_table. intros H Hcp. apply andb_prop in H as [Hsp Ht].
  rewrite forallb_forall in Hsp, Ht.
  destruct (special sp cp) as [l|] eqn:Es.
  - exact (Hsp _ (special_In _ _ _ Es)).
  - destruct (shift t cp) as [d|] eqn:Ed; [|destruct Hcp; congruence].
    destruct (shift_In _ _ _ Ed) as (row & Hin & _ & Hp).
    specialize (Ht row Hin). apply andb_prop in Ht as [Hstep Hall].
    apply Z.ltb_lt in Hstep. rewrite forallb_forall in Hall. apply Hall. now apply Hp.
Qed.

Lemma map_case_unmapped (sp : list (Z * list Z)) (t : list (Z * Z * Z * Z)) (cp : Z) :
  special sp cp = None -> shift t cp = None -> map_case sp t cp = [cp].
Proof. intros Hs Ht. unfold map_case. now rewrite Hs, Ht. Qed.

Lemma map_case_cases (sp : list (Z * list Z)) (t : list (Z * Z * Z * Z)) (cp : Z) :
  map_case sp t cp = [cp] \/ (special sp cp <> None \/ shift t cp <> None).
Proof.
  destruct (special sp cp) eqn:Es; [right; left; discriminate|].
  destruct (shift t cp) eqn:Et; [right; right; discriminate|].
  left. now apply map_case_unmapped.
Qed.

Lemma to_upper_table :
  holds_on_table uppercase_special uppercase
    (fun cp => forallb valid_cpb (to_upper cp) &&
               eq_points (flat_map to_upper (to_upper cp)) (to_upper cp)) = true.
Proof. vm_compute. reflexivity. Qed.

Lemma to_lower_table :
  holds_on_table lowercase_special lowercase
    (fun cp => forallb (fun x => valid_cpb x && negb (x =? 931) &&
                                 eq_points (to_lower x) [x]) (to_lower cp)) = true.
Proof. vm_compute. reflexivity. Qed.

Lemma valid_cpb_valid (cp : Z) : valid_cpb cp = true -> valid_cp cp.
Proof. unfold valid_cpb, valid_cp. intros H. apply andb_prop in H as [H1 H2]. lia. Qed.

Lemma to_upper_valid (cp : Z) : valid_cp cp -> Forall valid_cp (to_upper cp).
Proof.
  intros Hcp. destruct (map_case_cases uppercase_special uppercase cp) as [H | H].
  - unfold to_upper. rewrite H. now constructor.
  - pose proof (holds_on_table_sound _ _ _ cp to_upper_table H) as Hc. cbv beta in Hc.
    apply andb_prop in Hc as [Hc _]. rewrite forallb_forall in Hc.
    apply Forall_forall. intros x Hx. apply valid_cpb_valid. now apply Hc.
Qed.

(** The upper-case mapping leaves its own results alone. *)
Lemma to_upper_idem (cp : Z) : flat_map to_upper (to_upper cp) = to_upper cp.
Proof.
  destruct (map_case_cases uppercase_special uppercase cp) as [H | H].
  - unfold to_upper in *. rewrite H. cbn [flat_map]. rewrite H. reflexivity.
  - pose proof (holds_on_table_sound _ _ _ cp to_upper_table H) as Hc. cbv beta in Hc.
    apply andb_prop in Hc as [_ Hc]. now apply eq_points_eq.
Qed.

Lemma to_lower_931 : to_lower 931 = [963].
Proof. vm_compute. reflexivity. Qed.

(** A code point of a lower-case mapping is valid, is no capital sigma and
    is its own lower case. *)
Lemma to_lower_fixed (cp x : Z) :
  valid_cp cp -> In x (to_lower cp) ->
  valid_cp x /\ x <> 931 /\ to_lower x = [x].
Proof.
  intros Hcp Hx. destruct (map_case_cases lowercase_special lowercase cp) as [H | H].
  - unfold to_lower in Hx. rewrite H in Hx. destruct Hx as [<- | []].
    split; [assumption|]. split; [|exact H].
    intros ->. change (to_lower 931 = [931]) in H. rewrite to_lower_931 in H. discriminate.
  - pose proof (holds_on_table_sound _ _ _ cp to_lower_table H) as Hc. cbv beta in Hc.
    rewrite forallb_forall in Hc. specialize (Hc x Hx).
    apply andb_prop in Hc as [Hc H3]. apply andb_prop in Hc as [H1 H2].
    split; [now apply valid_cpb_valid|]. split.
    + intros ->. discriminate.
    + now apply eq_points_eq.
Qed.

(** *** [upper], [lower], [strip] and slices *)

Lemma flat_map_idem {A : Type} (f : A -> list A) (l : list A) :
  (forall x, flat_map f (f x) = f x) -> flat_map f (flat_map f l) = flat_map f l.
Proof.
  intros Hf. induction l as [|x l IH]; [reflexivity|].
  cbn [flat_map]. rewrite flat_map_app, Hf, IH. reflexivity.
Qed.

Lemma flat_map_valid (f : Z -> list Z) (l : list Z) :
  (forall x, valid_cp x -> Forall valid_cp (f x)) ->
  Forall valid_cp l -> Forall valid_cp (flat_map f l).
Proof.
  intros Hf. induction 1 as [|x l Hx Hl IH]; cbn [flat_map]; [constructor|].
  apply Forall_app. split; [now apply Hf | exact IH].
Qed.

Lemma code_points_upper (s : string) :
  code_points (upper s) = flat_map to_upper (code_points s).
Proof.
  unfold upper. apply code_points_of_code_points.
  apply flat_map_valid; [exact to_upper_valid | apply code_points_valid].
Qed.

(** [s.upper().upper() == s.upper()] *)
Lemma upper_idem (s : string) : upper (upper s) = upper s.
Proof.
  unfold upper at 1. rewrite code_points_upper.
  rewrite flat_map_idem by exact to_upper_idem. reflexivity.
Qed.

Lemma lower_from_lowered (l : list Z) :
  Forall valid_cp l -> forall before, Forall lowered (lower_from before l).
Proof.
  induction 1 as [|cp l Hcp Hl IH]; intros before; cbn [lower_from]; [constructor|].
  apply Forall_app. split; [|apply IH].
  destruct (cp =? 931) eqn:E.
  - constructor; [|constructor].
    destruct (final_sigma before l); (split; [unfold valid_cp; lia|]);
      (split; [discriminate | vm_compute; reflexivity]).
  - apply Forall_forall. intros x Hx. exact (to_lower_fixed cp x Hcp Hx).
Qed.

Lemma lower_from_fixed (l : list Z) :
  Forall lowered l -> forall before, lower_from before l = l.
Proof.
  induction 1 as [|x l (_ & Hx & Hfix) Hl IH]; intros before; cbn [lower_from];
    [reflexivity|].
  apply Z.eqb_neq in Hx. rewrite Hx, Hfix, IH. reflexivity.
Qed.

Lemma lowered_valid (l : list Z) : Forall lowered l -> Forall valid_cp l.
Proof. apply Forall_impl. now intros x [H _]. Qed.

Lemma code_points_lower (s : string) :
  code_points (lower s) = lower_from [] (code_points s).
Proof.
  unfold lower. apply code_points_of_code_points, lowered_valid.
  apply lower_from_lowered, code_points_valid.
Qed.

(** [s.lower().lower() == s.lower()] *)
Lemma lower_idem (s : string) : lower (lower s) = lower s.
Proof.
  unfold lower at 1. rewrite code_points_lower.
  rewrite lower_from_fixed; [reflexivity|].
  apply lower_from_lowered, code_points_valid.
Qed.

Lemma lstrip_fixed (l : list Z) : lstrip (lstrip l) = lstrip l.
Proof.
  induction l as [|c l IH]; [reflexivity|]. cbn [lstrip].
  destruct (is_space c) eqn:E; [exact IH|]. cbn [lstrip]. now rewrite E.
Qed.

Lemma lstrip_suffix (l : list Z) : exists pre, l = (pre ++ lstrip l)%list.
Proof.
  induction l as [|c l [pre IH]]; [now exists []|]. cbn [lstrip].
  destruct (is_space c); [|now exists []].
  exists (c :: pre). cbn. now rewrite <- IH.
Qed.

Lemma lstrip_head (l : list Z) :
  lstrip l = l <-> match l with [] => True | c :: _ => is_space c = false end.
Proof.
  destruct l as [|c l]; [easy|]. cbn [lstrip]. destruct (is_space c) eqn:E.
  - split; [|discriminate]. intros H. exfalso.
    destruct (lstrip_suffix l) as [pre Hp].
    assert (List.length (lstrip l) = S (List.length l)) as Hl by now rewrite H.
    rewrite Hp in Hl at 2. rewrite length_app in Hl. lia.
  - easy.
Qed.

(** Stripping the right end keeps a left end that is already stripped. *)
Lemma lstrip_rev_lstrip (l : list Z) :
  lstrip l = l -> lstrip (rev (lstrip (rev l))) = rev (lstrip (rev l)).
Proof.
  intros Hl. apply lstrip_head.
  destruct (lstrip_suffix (rev l)) as [pre Hp].
  assert (l = (rev (lstrip (rev l)) ++ rev pre)%list) as Hsplit.
  { rewrite <- (rev_involutive l) at 1. rewrite Hp at 1. now rewrite rev_app_distr. }
  destruct (rev (lstrip (rev l))) as [|c r] eqn:Er; [exact I|].
  apply lstrip_head in Hl. rewrite Hsplit in Hl. exact Hl.
Qed.

Lemma strip_points_idem (l : list Z) : strip_points (strip_points l) = strip_points l.
Proof.
  unfold strip_points.
  rewrite (lstrip_rev_lstrip (lstrip l)) by apply lstrip_fixed.
  rewrite rev_involutive, lstrip_fixed. reflexivity.
Qed.

Lemma lstrip_valid (l : list Z) : Forall valid_cp l -> Forall valid_cp (lstrip l).
Proof.
  induction 1 as [|c l Hc Hl IH]; cbn [lstrip]; [constructor|].
  destruct (is_space c); [exact IH | now constructor].
Qed.

Lemma strip_points_valid (l : list Z) : Forall valid_cp l -> Forall valid_cp (strip_points l).
Proof.
  intros H. unfold strip_points.
  apply Forall_rev, lstrip_valid, Forall_rev, lstrip_valid, H.
Qed.

Lemma code_points_strip (s : string) :
  code_points (strip s) = strip_points (code_points s).
Proof.
  unfold strip. apply code_points_of_code_points.
  apply (strip_points_valid _ (code_points_valid s)).
Qed.

(** [s.strip().strip() == s.strip()] *)
Lemma strip_idem (s : string) : strip (strip s) = strip s.
Proof.
  unfold strip at 1. rewrite code_points_strip.
  fold (strip_points (strip_points (code_points s))).
  now rewrite strip_points_idem.
Qed.

(** A stripped text has no white space at either end. *)
Lemma strip_points_ends (l : list Z) :
  match strip_points l with
  | [] => True
  | c :: _ => is_space c = false
  end /\
  match rev (strip_points l) with
  | [] => True
  | c :: _ => is_space c = false
  end.
Proof.
  split.
  - apply lstrip_head. unfold strip_points. apply lstrip_rev_lstrip, lstrip_fixed.
  - unfold strip_points. rewrite rev_involutive. apply lstrip_head, lstrip_fixed.
Qed.

Lemma code_points_prefix (n : nat) (s : string) :
  code_points (prefix n s) = firstn n (code_points s).
Proof.
  unfold prefix. apply code_points_of_code_points.
  pose proof (code_points_valid s) as Hv.
  rewrite <- (firstn_skipn n (code_points s)) in Hv.
  now apply Forall_app in Hv.
Qed.

(** [len(s[:n]) == min(n, len(s))] *)
Lemma str_len_prefix (n : nat) (s : string) :
  str_len (prefix n s) = Nat.min n (str_len s).
Proof. unfold str_len. rewrite code_points_prefix. apply length_firstn. Qed.

(** *** ASCII text *)

Lemma ascii_case_table :
  forallb (fun c =>
             match to_upper c, to_lower c with
             | [u], [l] =>
                 (0 <=? u) && (u <? 128) && (0 <=? l) && (l <? 128) &&
                 eq_points (to_lower u) [l] && eq_points (to_upper l) [u]
             | _, _ => false
             end)
          (map Z.of_nat (seq 0 128)) = true.
Proof. vm_compute. reflexivity. Qed.

Lemma ascii_case (c : Z) :
  0 <= c < 128 ->
  exists u l, to_upper c = [u] /\ to_lower c = [l] /\ 0 <= u < 128 /\ 0 <= l < 128 /\
              to_lower u = [l] /\ to_upper l = [u].
Proof.
  intros Hc. pose proof ascii_case_table as H. rewrite forallb_forall in H.
  specialize (H c). cbv beta in H.
  assert (In c (map Z.of_nat (seq 0 128))) as Hin.
  { apply in_map_iff. exists (Z.to_nat c). split; [lia|]. apply in_seq. lia. }
  specialize (H Hin).
  destruct (to_upper c) as [|u [|? ?]]; try discriminate.
  destruct (to_lower c) as [|l [|? ?]]; try discriminate.
  repeat (apply andb_prop in H as [H ?]).
  exists u, l. repeat split; try lia; now apply eq_points_eq.
Qed.

Lemma code_points_ascii (s : string) : is_ascii s = true -> ascii_points (code_points s).
Proof.
  unfold code_points, ascii_points. induction s as [|c s IH]; cbn [is_ascii decode_from];
    [constructor|].
  intros H. apply andb_prop in H as [Hc Hs]. rewrite Hc.
  constructor; [pose proof (byte_range c); apply Z.ltb_lt in Hc; lia | now apply IH].
Qed.

Lemma lower_from_no_sigma (l : list Z) :
  Forall (fun c => c <> 931) l -> forall before, lower_from before l = flat_map to_lower l.
Proof.
  induction 1 as [|c l Hc Hl IH]; intros before; cbn [lower_from flat_map]; [reflexivity|].
  apply Z.eqb_neq in Hc. now rewrite Hc, IH.
Qed.

Lemma ascii_points_no_sigma (l : list Z) : ascii_points l -> Forall (fun c => c <> 931) l.
Proof. apply Forall_impl. intros; lia. Qed.

Lemma ascii_points_valid (l : list Z) : ascii_points l -> Forall valid_cp l.
Proof. apply Forall_impl. unfold valid_cp. intros; lia. Qed.

Lemma ascii_upper_points (l : list Z) :
  ascii_points l ->
  ascii_points (flat_map to_upper l) /\
  flat_map to_lower (flat_map to_upper l) = flat_map to_lower l.
Proof.
  induction 1 as [|c l Hc Hl [IH1 IH2]]; [split; [constructor | reflexivity]|].
  destruct (ascii_case c Hc) as (u & lo & Hu & Hlo & Hur & _ & Hul & _).
  cbn [flat_map]. rewrite Hu, Hlo. cbn [List.app flat_map]. rewrite Hul. cbn [List.app].
  split; [now constructor | now rewrite IH2].
Qed.

Lemma ascii_lower_points (l : list Z) :
  ascii_points l ->
  ascii_points (flat_map to_lower l) /\
  flat_map to_upper (flat_map to_lower l) = flat_map to_upper l.
Proof.
  induction 1 as [|c l Hc Hl [IH1 IH2]]; [split; [constructor | reflexivity]|].
  destruct (ascii_case c Hc) as (u & lo & Hu & Hlo & _ & Hlr & _ & Hlu).
  cbn [flat_map]. rewrite Hu, Hlo. cbn [List.app flat_map]. rewrite Hlu. cbn [List.app].
  split; [now constructor | now rewrite IH2].
Qed.

(** On ASCII text [s.upper().lower() == s.lower()]. *)
Lemma lower_upper_ascii (s : string) : is_ascii s = true -> lower (upper s) = lower s.
Proof.
  intros Hs. pose proof (code_points_ascii s Hs) as Ha.
  destruct (ascii_upper_points _ Ha) as [Hu Hlu].
  unfold lower. rewrite code_points_upper.
  rewrite !lower_from_no_sigma by now apply ascii_points_no_sigma.
  now rewrite Hlu.
Qed.

(** On ASCII text [s.lower().upper() == s.upper()]. *)
Lemma upper_lower_ascii (s : string) : is_ascii s = true -> upper (lower s) = upper s.
Proof.
  intros Hs. pose proof (code_points_ascii s Hs) as Ha.
  destruct (ascii_lower_points _ Ha) as [Hl Hul].
  unfold upper. rewrite code_points_lower.
  rewrite lower_from_no_sigma by now apply ascii_points_no_sigma.
  now rewrite Hul.
Qed.

End StrFacts.

(* ================================================================== *)
(** ** The quotation calculator *)

Module CalcFacts.
Import PyFloat PyStr Calc Spec Props FloatFacts.

Lemma products_line_amounts (qty price : list float) :
  products qty price = line_amounts qty price.
Proof.
  unfold line_amounts. revert price.
  induction qty as [|q qty IH]; intros [|p price]; cbn; try reflexivity.
  now rewrite IH.
Qed.

(** The constant of line 397 is the double nearest to 18/100. *)
Lemma gst_rate_value :
  Prim2SF gst_rate = S754_finite false 6485183463413514 (-55) /\
  exists q, exact gst_rate = Some q /\ (Qabs (q - (18 # 100)) <= 1 # (2 ^ 56))%Q.
Proof.
  split; [reflexivity|]. eexists. split; [reflexivity|]. vm_compute. discriminate.
Qed.

(** The constant of line 397 is the rate of the specification. *)
Lemma gst_rate_rate : gst_rate = rate.
Proof. reflexivity. Qed.

(** The grand total of the code and the one of the formula agree up to the
    sign of a zero, which [round] does not see. *)
Lemma grand_total_zeq (s : float) (loading transport : option float) :
  let sub := (s + charge loading + charge transport)%float in
  let sub' := (s + form_charge loading + form_charge transport)%float in
  zeq (sub + sub * gst_rate)%float (sub' + rate * sub')%float.
Proof.
  intros sub sub'. rewrite <- gst_rate_rate.
  assert (zeq sub sub') as Hsub
    by (apply add_zeq; [apply add_zeq; [apply zeq_refl|] |]; apply charge_zeq).
  apply add_zeq; [assumption|]. rewrite (mul_comm gst_rate sub'). now apply mul_zeq_l.
Qed.

(** What a successful run of lines 393-400 has computed. *)
Lemma compute_totals_ok (quantity unit_price : list float)
    (loading transportation : option float) (t : totals) :
  compute_totals quantity unit_price loading transportation = Ok t ->
  total_amount t = py_sum (line_amounts quantity unit_price) /\
  loading_charge t = charge loading /\
  transportation_charge t = charge transportation /\
  sub_total t = (total_amount t + loading_charge t + transportation_charge t)%float /\
  gst_amount t = (sub_total t * gst_rate)%float /\
  grand_total t = (sub_total t + gst_amount t)%float /\
  py_round (grand_total t) = Ok (final_total t) /\
  exists ft, float_of_int (final_total t) = Ok ft /\
             round_off t = (ft - grand_total t)%float.
Proof.
  unfold compute_totals. set (g := (_ + _ * gst_rate)%float).
  destruct (py_round g) as [r|e] eqn:Er; cbn [bind]; [|discriminate].
  destruct (float_of_int r) as [rf|e] eqn:Erf; cbn [bind]; [|discriminate].
  intros [= <-]. cbn. repeat split; try reflexivity; try assumption. eauto.
Qed.

(** C1. With quantity and unit-price sequences of equal length,
    [final_total] is [round(sum(qty*price) + loading + transport +
    0.18*(sum(qty*price) + loading + transport))] for every pair of charges
    the form accepts, an absent charge counting as 0.0: the request fails in
    [round] exactly when the formula does (NaN, infinity), and on success the
    totals obey [total_amount = sum(qty*price)],
    [sub_total = total_amount + loading_charge + transportation_charge],
    [gst_amount = sub_total * 0.18], [grand_total = sub_total + gst_amount]
    and [final_total = round(grand_total)]. The formula and the rate 0.18
    are written from the words of the specification. *)
Theorem final_total_matches_formula
    (quantity unit_price : list float) (loading transportation : option float) :
  List.length quantity = List.length unit_price ->
  fmap final_total (compute_totals quantity unit_price loading transportation) =
    final_total_formula quantity unit_price loading transportation /\
  forall t, compute_totals quantity unit_price loading transportation = Ok t ->
    total_amount t = py_sum (products quantity unit_price) /\
    sub_total t = (total_amount t + loading_charge t + transportation_charge t)%float /\
    gst_amount t = (sub_total t * rate)%float /\
    grand_total t = (sub_total t + gst_amount t)%float /\
    py_round (grand_total t) = Ok (final_total t).
Proof.
  intros _. unfold compute_totals, final_total_formula.
  rewrite products_line_amounts.
  set (s := py_sum (line_amounts quantity unit_price)).
  pose proof (py_round_zeq _ _ (grand_total_zeq s loading transportation)) as Hr.
  cbv zeta in Hr. rewrite <- Hr.
  set (g := (s + charge loading + charge transportation
             + (s + charge loading + charge transportation) * gst_rate)%float).
  destruct (py_round g) as [r|e] eqn:Er; cbn [bind fmap].
  - destruct (float_of_int_round g r Er) as (rf & q & Hrf & _).
    rewrite Hrf. cbn [bind fmap final_total]. split; [reflexivity|].
    intros t [= <-]. cbn. repeat split; try reflexivity. exact Er.
  - split; [reflexivity | discriminate].
Qed.

(** 2*50 + 10*1.5 + 12.5 = 127.5, and 127.5 + 0.18*127.5 = 150.45. *)
Lemma final_total_matches_formula_witness :
  fmap final_total (compute_totals [2; 10]%float [50; 1.5]%float (Some 12.5%float) None) =
    Ok 150 /\
  exists t,
    compute_totals [2; 10]%float [50; 1.5]%float (Some 12.5%float) None = Ok t /\
    total_amount t = 115%float /\ sub_total t = 127.5%float /\
    gst_amount t = (127.5 * rate)%float /\ final_total t = 150.
Proof.
  pose proof (final_total_matches_formula
                [2; 10]%float [50; 1.5]%float (Some 12.5%float) None eq_refl) as [H1 H2].
  split.
  - rewrite H1. vm_compute. reflexivity.
  - destruct (compute_totals [2; 10]%float [50; 1.5]%float (Some 12.5%float) None)
      as [t|e] eqn:E; [|vm_compute in E; discriminate].
    exists t. split; [reflexivity|].
    destruct (H2 t eq_refl) as (Ha & Hs & Hg & _ & _).
    assert (total_amount t = 115%float) as Ha' by (rewrite Ha; vm_compute; reflexivity).
    assert (sub_total t = 127.5%float) as Hs'.
    { rewrite Hs, Ha'. vm_compute in E. injection E as <-. vm_compute. reflexivity. }
    repeat split.
    + exact Ha'.
    + exact Hs'.
    + now rewrite Hg, Hs'.
    + vm_compute in E. injection E as <-. reflexivity.
Defined.

(** C4. [final_total] is [grand_total] rounded to the nearest integer (at
    most one half away from it), [round_off] is the float difference
    [final_total - grand_total], positive when the total was rounded up and
    negative when it was rounded down; for qty=[2], price=[50] and no
    charges: sub_total 100, GST 18, grand_total 118, final_total 118 and a
    round-off of 0, drawn as "+0.00". *)
Theorem round_off_is_signed_difference :
  (forall quantity unit_price loading transportation t,
      compute_totals quantity unit_price loading transportation = Ok t ->
      py_round (grand_total t) = Ok (final_total t) /\
      exists (g : Q) (ft : float),
        exact (grand_total t) = Some g /\
        (Qabs (inject_Z (final_total t) - g) <= (1 # 2))%Q /\
        float_of_int (final_total t) = Ok ft /\
        round_off t = (ft - grand_total t)%float /\
        ((g < inject_Z (final_total t))%Q ->
           PrimFloat.ltb 0%float (round_off t) = true) /\
        ((inject_Z (final_total t) < g)%Q ->
           PrimFloat.ltb (round_off t) 0%float = true)) /\
  (exists t,
      compute_totals [2]%float [50]%float (Some 0%float) (Some 0%float) = Ok t /\
      total_amount t = 100%float /\ sub_total t = 100%float /\
      gst_amount t = 18%float /\ grand_total t = 118%float /\
      final_total t = 118 /\ round_off t = 0%float /\
      fmap t_round_off (draw_totals t) = Ok "+0.00").
Proof.
  split.
  - intros quantity unit_price loading transportation t. unfold compute_totals.
    set (g := (_ + _ * gst_rate)%float).
    destruct (py_round g) as [r|e] eqn:Er; cbn [bind]; [|discriminate].
    destruct (float_of_int_round g r Er) as (rf & q & Hrf & Hq & Hqr).
    rewrite Hrf. cbn [bind]. intros [= <-].
    cbn [grand_total final_total round_off]. split; [exact Er|].
    destruct (py_round_nearest g r Er) as (qg & Hg & Hnear).
    exists qg, rf. repeat split; try assumption.
    + intros Hlt. apply (proj1 (sub_sign rf g q qg Hq Hg)). now rewrite Hqr.
    + intros Hlt. apply (proj2 (sub_sign rf g q qg Hq Hg)). now rewrite Hqr.
  - eexists. split; [vm_compute; reflexivity|]. repeat split; vm_compute; reflexivity.
Qed.

Lemma round_off_is_signed_difference_witness :
  exists t, compute_totals [10; 3]%float [50; 2.5]%float None None = Ok t /\
            py_round (grand_total t) = Ok (final_total t).
Proof.
  eexists. split; [vm_compute; reflexivity|].
  refine (proj1 (proj1 round_off_is_signed_difference
                   [10; 3]%float [50; 2.5]%float None None _ _)).
  vm_compute. reflexivity.
Defined.


(** *** Unit resolution and quantity aggregation *)

Lemma resolve_unit_first (pre post : list catalog_entry) (e : catalog_entry) (p : string) :
  lower (c_name e) = lower p ->
  (forall e', In e' pre -> lower (c_name e') <> lower p) ->
  resolve_unit (pre ++ e :: post) p = upper (c_unit_type e).
Proof.
  intros He Hpre. unfold resolve_unit.
  induction pre as [|x pre IH]; cbn [List.app find].
  - rewrite He, String.eqb_refl. reflexivity.
  - destruct (String.eqb (lower (c_name x)) (lower p)) eqn:Ex.
    + apply String.eqb_eq in Ex. exfalso. apply (Hpre x); [now left | assumption].
    + apply IH. intros e' He'. apply Hpre. now right.
Qed.

Lemma resolve_unit_none (catalog : list catalog_entry) (p : string) :
  (forall e, In e catalog -> lower (c_name e) <> lower p) ->
  resolve_unit catalog p = "".
Proof.
  intros Hno. unfold resolve_unit.
  induction catalog as [|x catalog IH]; cbn [find]; [reflexivity|].
  destruct (String.eqb (lower (c_name x)) (lower p)) eqn:Ex.
  - apply String.eqb_eq in Ex. exfalso. apply (Hno x); [now left | assumption].
  - apply IH. intros e He. apply Hno. now right.
Qed.

(** The three unit sets are disjoint, and [bucket_of] decides them. *)
Lemma bucket_of_units (unit : string) :
  (existsb (String.eqb unit) ["KG"],
   existsb (String.eqb unit) nos_units,
   existsb (String.eqb unit) pieces_units) =
  match bucket_of unit with
  | Weight => (true, false, false)
  | Nos => (false, true, false)
  | Pieces => (false, false, true)
  | NoBucket => (false, false, false)
  end.
Proof.
  unfold bucket_of, nos_units, pieces_units. cbn [existsb].
  destruct (String.eqb unit "KG") eqn:E1;
    [apply String.eqb_eq in E1; subst; reflexivity|].
  destruct (String.eqb unit "NOS") eqn:E2;
    [apply String.eqb_eq in E2; subst; reflexivity|].
  destruct (String.eqb unit "NO") eqn:E3;
    [apply String.eqb_eq in E3; subst; reflexivity|].
  destruct (String.eqb unit "NOS.") eqn:E4;
    [apply String.eqb_eq in E4; subst; reflexivity|].
  cbn [orb].
  destruct (String.eqb unit "PCS"), (String.eqb unit "PIECE"), (String.eqb unit "PIECES");
    reflexivity.
Qed.

(** The loop invariant: each total is its start value plus, in order, the
    quantities of the lines of its own units. *)
Lemma table_loop_aggregates (catalog : list catalog_entry) (ls : list line) :
  forall (i : Z) (a : aggregates),
    let a' := fst (table_loop catalog i ls a) in
    total_weight a' =
      fold_left PrimFloat.add (map l_quantity (filter (in_units catalog ["KG"]) ls))
                (total_weight a) /\
    total_nos a' =
      fold_left PrimFloat.add (map l_quantity (filter (in_units catalog nos_units) ls))
                (total_nos a) /\
    total_pieces a' =
      fold_left PrimFloat.add (map l_quantity (filter (in_units catalog pieces_units) ls))
                (total_pieces a).
Proof.
  induction ls as [|l ls IH]; intros i a; cbn [table_loop].
  - cbn. auto.
  - specialize (IH (i + 1)
                   (accumulate a (resolve_unit catalog (l_product l)) (l_quantity l))).
    destruct (table_loop catalog (i + 1) ls
                (accumulate a (resolve_unit catalog (l_product l)) (l_quantity l)))
      as [a'' rows]. cbn [fst] in *.
    destruct IH as (Hw & Hn & Hp). rewrite Hw, Hn, Hp. clear Hw Hn Hp.
    cbn [filter].
    change (in_units catalog ["KG"] l)
      with (existsb (String.eqb (resolve_unit catalog (l_product l))) ["KG"]).
    change (in_units catalog nos_units l)
      with (existsb (String.eqb (resolve_unit catalog (l_product l))) nos_units).
    change (in_units catalog pieces_units l)
      with (existsb (String.eqb (resolve_unit catalog (l_product l))) pieces_units).
    pose proof (bucket_of_units (resolve_unit catalog (l_product l))) as Hb.
    unfold accumulate.
    destruct (bucket_of (resolve_unit catalog (l_product l)));
      pose proof (f_equal (fun t => fst (fst t)) Hb) as H1;
      pose proof (f_equal (fun t => snd (fst t)) Hb) as H2;
      pose proof (f_equal snd Hb) as H3;
      cbv beta in H1, H2, H3; cbn [fst snd] in H1, H2, H3;
      rewrite H1, H2, H3; cbn; auto.
Qed.

Lemma table_loop_rows (catalog : list catalog_entry) (ls : list line) :
  forall (i : Z) (a : aggregates),
    List.length (snd (table_loop catalog i ls a)) = List.length ls.
Proof.
  induction ls as [|l ls IH]; intros i a; cbn [table_loop]; [reflexivity|].
  specialize (IH (i + 1)
                 (accumulate a (resolve_unit catalog (l_product l)) (l_quantity l))).
  destruct (table_loop catalog (i + 1) ls _) as [a'' rows]. cbn in *. now rewrite IH.
Qed.

Lemma catalog_of_app (ps qs : list Product) :
  catalog_of (ps ++ qs) = (catalog_of ps ++ catalog_of qs)%list.
Proof. unfold catalog_of. apply map_app. Qed.

(** A row belongs to the user [uid]: the filter of line 490. *)
Lemma user_catalog_rows (uid : Z) (products : list Product) :
  uid <> 0 ->
  user_catalog (Some uid) products =
    catalog_of (filter (fun p => match p_user_id p with
                                 | Some o => o =? uid
                                 | None => false
                                 end) products).
Proof. intros Hu. unfold user_catalog. apply Z.eqb_neq in Hu. now rewrite Hu. Qed.

(** In the catalog of a user the first row of that user with the name
    decides, whatever the rows of other users hold. *)
Lemma resolve_unit_of_user (uid : Z) (pre post : list Product) (r : Product)
    (name : string) :
  uid <> 0 ->
  p_user_id r = Some uid ->
  lower (p_name r) = lower name ->
  (forall r', In r' pre -> p_user_id r' = Some uid -> lower (p_name r') <> lower name) ->
  resolve_unit (user_catalog (Some uid) (pre ++ r :: post)) name =
    upper (strip (or_empty (p_unit_type r))).
Proof.
  intros Hu Hr Hn Hpre. rewrite user_catalog_rows by assumption.
  rewrite filter_app. cbn [filter]. rewrite Hr, Z.eqb_refl, catalog_of_app.
  cbn [catalog_of map].
  rewrite (resolve_unit_first _ _
             {| c_name := p_name r;
                c_unit_type := upper (strip (or_empty (p_unit_type r)));
                c_description := or_empty (p_description r) |} name Hn).
  - cbn [c_unit_type]. apply StrFacts.upper_idem.
  - intros e' He'. unfold catalog_of in He'. apply in_map_iff in He' as (r' & <- & Hin).
    apply filter_In in Hin as [Hin Ho]. cbn [c_name]. apply (Hpre r' Hin).
    destruct (p_user_id r') as [o|]; [|discriminate]. apply Z.eqb_eq in Ho. now subst.
Qed.

Lemma resolve_unit_of_nobody (uid : Z) (products : list Product) (name : string) :
  (forall r, In r products -> p_user_id r = Some uid -> lower (p_name r) <> lower name) ->
  resolve_unit (user_catalog (Some uid) products) name = "".
Proof.
  intros Hno. unfold user_catalog. destruct (uid =? 0); [reflexivity|].
  apply resolve_unit_none. intros e He.
  unfold catalog_of in He. apply in_map_iff in He as (r & <- & Hin).
  apply filter_In in Hin as [Hin Ho]. cbn [c_name]. apply (Hno r Hin).
  destruct (p_user_id r) as [o|]; [|discriminate]. apply Z.eqb_eq in Ho. now subst.
Qed.

(** C2. A line item's unit is the one of the first catalog entry whose name
    equals the product name up to case ([lower] of both), and no unit when
    there is none; the catalog is made of the product rows of the session's
    user only, the first of them with the name deciding whatever rows of
    other users hold; the quantities of the lines of unit "KG" add up to
    [total_weight], those of "NOS", "NO" or "NOS." to [total_nos], those of
    "PCS", "PIECE" or "PIECES" to [total_pieces], and a line of any other
    or of no unit enters no total; with the products Bolt (KG) and Plate
    (NOS) of the session's user, among rows of another user, and the items
    (Bolt, 10), (Plate, 3) the totals are 10, 3 and 0; the product named
    "Bolt" matches the catalog entry "bolt". *)
Theorem units_resolve_and_aggregate :
  (forall (pre post : list catalog_entry) (e : catalog_entry) (p : string),
      lower (c_name e) = lower p ->
      (forall e', In e' pre -> lower (c_name e') <> lower p) ->
      resolve_unit (pre ++ e :: post)%list p = upper (c_unit_type e)) /\
  (forall (catalog : list catalog_entry) (p : string),
      (forall e, In e catalog -> lower (c_name e) <> lower p) ->
      resolve_unit catalog p = "") /\
  (forall (uid : Z) (pre post : list Product) (r : Product) (p : string),
      uid <> 0 ->
      p_user_id r = Some uid ->
      lower (p_name r) = lower p ->
      (forall r', In r' pre -> p_user_id r' = Some uid -> lower (p_name r') <> lower p) ->
      resolve_unit (user_catalog (Some uid) (pre ++ r :: post)%list) p =
        upper (strip (or_empty (p_unit_type r)))) /\
  (forall (uid : Z) (products : list Product) (p : string),
      (forall r, In r products -> p_user_id r = Some uid -> lower (p_name r) <> lower p) ->
      resolve_unit (user_catalog (Some uid) products) p = "") /\
  (forall (catalog : list catalog_entry) (ls : list line),
      let a := fst (table_loop catalog 1 ls zero_aggregates) in
      total_weight a = bucket_total catalog ["KG"] ls /\
      total_nos a = bucket_total catalog ["NOS"; "NO"; "NOS."] ls /\
      total_pieces a = bucket_total catalog ["PCS"; "PIECE"; "PIECES"] ls) /\
  (let row := fun uid name unit =>
                {| p_user_id := Some uid; p_name := name; p_description := None;
                   p_price := 1%float; p_unit_type := Some unit |} in
   fmap q_aggregates
     (calculate
        (user_catalog (Some 7)
           [row 8 "Bolt" "NOS"; row 7 "Bolt" "KG"; row 8 "Plate" "PCS"; row 7 "Plate" "NOS"])
        ["Bolt"; "Plate"] None [10; 3]%float [50; 2.5]%float None None) =
   Ok {| total_weight := 10%float; total_nos := 3%float; total_pieces := 0%float |}) /\
  (let entry := fun name unit =>
                  {| c_name := name; c_unit_type := unit; c_description := "" |} in
   resolve_unit [entry "bolt" "KG"] "Bolt" = "KG" /\
   resolve_unit [entry "nut" "PCS"; entry "BOLT" "NOS"; entry "bolt" "KG"] "Bolt" = "NOS" /\
   resolve_unit [entry "bolt" "KG"] "Bolts" = "").
Proof.
  split; [exact resolve_unit_first|].
  split; [exact resolve_unit_none|].
  split; [exact resolve_unit_of_user|].
  split; [exact resolve_unit_of_nobody|].
  split; [|split; [vm_compute; reflexivity | repeat split; vm_compute; reflexivity]].
  intros catalog ls. exact (table_loop_aggregates catalog ls 1 zero_aggregates).
Qed.

Lemma units_resolve_and_aggregate_witness :
  resolve_unit
    [ {| c_name := "Nut"; c_unit_type := "PCS"; c_description := "" |};
      {| c_name := "ÉCROU"; c_unit_type := "NOS"; c_description := "" |};
      {| c_name := "écrou"; c_unit_type := "KG"; c_description := "" |} ]
    "écrou" = "NOS" /\
  resolve_unit
    [ {| c_name := "Nut"; c_unit_type := "PCS"; c_description := "" |} ] "Bolt" = "" /\
  resolve_unit
    (user_catalog (Some 7)
       [ {| p_user_id := Some 8; p_name := "bolt"; p_description := None;
            p_price := 1%float; p_unit_type := Some "NOS" |};
         {| p_user_id := Some 7; p_name := "BOLT"; p_description := None;
            p_price := 1%float; p_unit_type := Some " kg " |} ])
    "Bolt" = "KG".
Proof.
  split; [|split].
  - refine (proj1 units_resolve_and_aggregate
              [ {| c_name := "Nut"; c_unit_type := "PCS"; c_description := "" |} ]
              [ {| c_name := "écrou"; c_unit_type := "KG"; c_description := "" |} ]
              {| c_name := "ÉCROU"; c_unit_type := "NOS"; c_description := "" |}
              "écrou" _ _).
    + vm_compute. reflexivity.
    + intros e' [<- | []]. vm_compute. discriminate.
  - refine (proj1 (proj2 units_resolve_and_aggregate)
              [ {| c_name := "Nut"; c_unit_type := "PCS"; c_description := "" |} ]
              "Bolt" _).
    intros e [<- | []]. vm_compute. discriminate.
  - refine (proj1 (proj2 (proj2 units_resolve_and_aggregate)) 7
              [ {| p_user_id := Some 8; p_name := "bolt"; p_description := None;
                   p_price := 1%float; p_unit_type := Some "NOS" |} ] []
              {| p_user_id := Some 7; p_name := "BOLT"; p_description := None;
                 p_price := 1%float; p_unit_type := Some " kg " |}
              "Bolt" _ eq_refl _ _).
    + discriminate.
    + vm_compute. reflexivity.
    + intros r' [<- | []]. discriminate.
Defined.

(** *** The quantity summary *)

Lemma summary_parts_positive (a : aggregates) :
  summary_parts a = positive_summary_parts a.
Proof.
  unfold summary_parts, positive_summary_parts, bucket_texts, append_if.
  cbn [filter map fst snd].
  destruct (PrimFloat.ltb 0%float (total_weight a)),
           (PrimFloat.ltb 0%float (total_nos a)),
           (PrimFloat.ltb 0%float (total_pieces a)); reflexivity.
Qed.

(** C3, as the specification words it, fails: a bucket whose total is
    non-zero but negative is left out of the summary. With Bolt sold by the
    KG and the single item (Bolt, -5), [total_weight] is -5.0, the wording
    asks for "Total Weight: -5.000 KG", and the code draws no summary. *)
Lemma summary_skips_negative_total :
  let bolt := {| p_user_id := Some 7; p_name := "Bolt"; p_description := None;
                 p_price := 50%float; p_unit_type := Some "KG" |} in
  exists q,
    calculate (user_catalog (Some 7) [bolt]) ["Bolt"] None
      [(-5)%float] [50%float] None None = Ok q /\
    total_weight (q_aggregates q) = (-5)%float /\
    PrimFloat.eqb (total_weight (q_aggregates q)) 0%float = false /\
    nonzero_summary (q_aggregates q) = "Total Weight: -5.000 KG" /\
    summary_parts (q_aggregates q) = [] /\
    q_summary q = None.
Proof.
  eexists. split; [vm_compute; reflexivity|]. repeat split; vm_compute; reflexivity.
Qed.

(** C3, amended. The summary joins, with " | " and in the order weight, nos,
    pieces, the texts of exactly the buckets whose total is greater than
    zero, the weight with three decimals and "KG", nos and pieces with no
    decimals, and there is no summary when no total is greater than zero;
    for Bolt (KG), Plate (NOS) and the items (Bolt, 10), (Plate, 3) it is
    "Total Weight: 10.000 KG | Total Nos: 3". *)
Theorem summary_joins_positive_buckets :
  (forall a : aggregates,
      summary_parts a = positive_summary_parts a /\
      summary_text a =
        match positive_summary_parts a with
        | [] => None
        | parts => Some (join " | " parts)
        end) /\
  (let bolt := {| p_user_id := Some 7; p_name := "Bolt"; p_description := None;
                  p_price := 50%float; p_unit_type := Some "KG" |} in
   let plate := {| p_user_id := Some 7; p_name := "Plate"; p_description := None;
                   p_price := 2.5%float; p_unit_type := Some "NOS" |} in
   fmap q_summary
     (calculate (user_catalog (Some 7) [bolt; plate])
        ["Bolt"; "Plate"] None [10; 3]%float [50; 2.5]%float None None) =
   Ok (Some "Total Weight: 10.000 KG | Total Nos: 3")).
Proof.
  split; [|vm_compute; reflexivity].
  intros a. split; [apply summary_parts_positive|].
  unfold summary_text. now rewrite summary_parts_positive.
Qed.

(** *** Sequences of unequal lengths *)

Lemma line_amounts_firstn (quantity unit_price : list float) :
  let n := Nat.min (List.length quantity) (List.length unit_price) in
  line_amounts quantity unit_price =
  line_amounts (firstn n quantity) (firstn n unit_price).
Proof.
  unfold line_amounts. revert unit_price.
  induction quantity as [|q qs IH]; intros [|u us]; cbn; try reflexivity.
  f_equal. apply IH.
Qed.

Lemma zip4_firstn (ps ds : list string) (qs us : list float) :
  let m := min4 (List.length ps) (List.length ds) (List.length qs) (List.length us) in
  zip4 ps ds qs us = zip4 (firstn m ps) (firstn m ds) (firstn m qs) (firstn m us) /\
  List.length (zip4 ps ds qs us) = m.
Proof.
  unfold min4. revert ds qs us.
  induction ps as [|p ps IH]; intros [|d ds] [|q qs] [|u us]; cbn; auto.
  destruct (IH ds qs us) as [H1 H2]. rewrite Nat.succ_min_distr. cbn.
    split; [f_equal; exact H1 | f_equal; exact H2].
Qed.

Lemma draw_totals_ok (quantity unit_price : list float)
    (loading transportation : option float) (t : totals) :
  compute_totals quantity unit_price loading transportation = Ok t ->
  exists panel, draw_totals t = Ok panel.
Proof.
  intros Ht.
  destruct (compute_totals_ok _ _ _ _ _ Ht) as (_ & _ & _ & _ & _ & _ & _ & ft & Hft & _).
  unfold draw_totals. rewrite Hft. cbn [bind]. eauto.
Qed.

(** The totals fail only in [round]: on NaN and on an infinity. *)
Lemma compute_totals_cases (quantity unit_price : list float)
    (loading transportation : option float) :
  let s := (py_sum (line_amounts quantity unit_price) + charge loading
            + charge transportation)%float in
  let g := (s + s * gst_rate)%float in
  match Prim2SF g with
  | S754_nan =>
      compute_totals quantity unit_price loading transportation = Raise ValueError
  | S754_infinity _ =>
      compute_totals quantity unit_price loading transportation = Raise OverflowError
  | _ =>
      exists t,
        compute_totals quantity unit_price loading transportation = Ok t /\
        total_amount t = py_sum (line_amounts quantity unit_price) /\
        grand_total t = g
  end.
Proof.
  intros s g. unfold compute_totals. fold s. fold g.
  destruct (py_round g) as [r|e] eqn:Er.
  - destruct (float_of_int_round g r Er) as (rf & q & Hrf & _).
    cbn [bind]. rewrite Hrf. cbn [bind].
    unfold py_round in Er.
    destruct (Prim2SF g); try discriminate; eexists; repeat split; reflexivity.
  - cbn [bind]. unfold py_round in Er.
    destruct (Prim2SF g); try discriminate; now injection Er as <-.
Qed.

Lemma table_loop_columns (catalog : list catalog_entry) (ls : list line) :
  forall (i : Z) (a : aggregates),
    map r_product (snd (table_loop catalog i ls a)) =
      map (fun l => prefix 18 (l_product l)) ls /\
    map r_description (snd (table_loop catalog i ls a)) =
      map (fun l => prefix 30 (l_description l)) ls.
Proof.
  induction ls as [|l ls IH]; intros i a; cbn [table_loop]; [now split|].
  specialize (IH (i + 1)
                 (accumulate a (resolve_unit catalog (l_product l)) (l_quantity l))).
  destruct (table_loop catalog (i + 1) ls _) as [a'' rows]. cbn [snd map] in *.
  destruct IH as [-> ->]. now split.
Qed.

Lemma zip4_columns (ps ds : list string) (qs us : list float) :
  let m := min4 (List.length ps) (List.length ds) (List.length qs) (List.length us) in
  map l_product (zip4 ps ds qs us) = firstn m ps /\
  map l_description (zip4 ps ds qs us) = firstn m ds.
Proof.
  unfold min4. revert ds qs us.
  induction ps as [|p ps IH]; intros [|d ds] [|q qs] [|u us]; cbn; auto.
  destruct (IH ds qs us) as [H1 H2]. split; f_equal; assumption.
Qed.

(** C10. Sequences of unequal lengths are neither rejected nor padded: the
    request succeeds whenever the grand total over the first
    [min(len(quantity), len(unit_price))] positions is finite (it fails
    only in [round], on NaN or an infinity), [total_amount] is the sum of
    the products over those positions, the table has one row for each of the
    positions all four zipped sequences have, with the names and
    descriptions of those positions, whatever lies beyond is ignored, and
    only an absent description list is replaced, by one empty string per
    product name. Three names, two quantities and four prices give two
    rows and the total 2*50 + 3*10. *)
Theorem unequal_lengths_are_truncated
    (catalog : list catalog_entry) (product_name : list string)
    (description : option (list string)) (quantity unit_price : list float)
    (loading transportation : option float) :
  let n := Nat.min (List.length quantity) (List.length unit_price) in
  let ds := default_description product_name description in
  let m := min4 (List.length product_name) (List.length ds)
                (List.length quantity) (List.length unit_price) in
  let ls := zip4 (firstn m product_name) (firstn m ds)
                 (firstn m quantity) (firstn m unit_price) in
  let g := grand_total_over n quantity unit_price
                            (charge loading) (charge transportation) in
  default_description product_name None = repeat "" (List.length product_name) /\
  match Prim2SF g with
  | S754_nan =>
      calculate catalog product_name description quantity unit_price
                loading transportation = Raise ValueError
  | S754_infinity _ =>
      calculate catalog product_name description quantity unit_price
                loading transportation = Raise OverflowError
  | _ =>
      exists q,
        calculate catalog product_name description quantity unit_price
                  loading transportation = Ok q /\
        total_amount (q_totals q) =
          py_sum (products (firstn n quantity) (firstn n unit_price)) /\
        grand_total (q_totals q) = g /\
        q_rows q = snd (table_loop catalog 1 ls zero_aggregates) /\
        q_aggregates q = fst (table_loop catalog 1 ls zero_aggregates) /\
        List.length (q_rows q) = m /\
        map r_product (q_rows q) = map (prefix 18) (firstn m product_name) /\
        map r_description (q_rows q) = map (prefix 30) (firstn m ds)
  end /\
  (exists q,
      calculate [] ["Bolt"; "Plate"; "Nut"] None [2; 3]%float [50; 10; 7; 9]%float
                None None = Ok q /\
      total_amount (q_totals q) = 130%float /\
      final_total (q_totals q) = 153 /\
      map r_product (q_rows q) = ["Bolt"; "Plate"] /\
      map r_description (q_rows q) = [""; ""] /\
      map r_amount (q_rows q) = ["100.00"; "30.00"]).
Proof.
  intros n ds m ls g.
  split; [|split].
  { cbn. induction product_name as [|p ps IH]; cbn; [reflexivity | now rewrite IH]. }
  2:{ eexists. split; [vm_compute; reflexivity|]. repeat split; vm_compute; reflexivity. }
  pose proof (line_amounts_firstn quantity unit_price) as Hla. cbv zeta in Hla. fold n in Hla.
  pose proof (compute_totals_cases quantity unit_price loading transportation) as Hc.
  cbv zeta in Hc. rewrite Hla, <- products_line_amounts in Hc.
  change ((py_sum (products (firstn n quantity) (firstn n unit_price)) + charge loading
           + charge transportation
           + (py_sum (products (firstn n quantity) (firstn n unit_price)) + charge loading
              + charge transportation) * gst_rate)%float) with g in Hc.
  destruct (zip4_firstn product_name ds quantity unit_price) as [Hz Hlen].
  fold m in Hz, Hlen. fold ls in Hz.
  destruct (zip4_columns product_name ds quantity unit_price) as [Hzp Hzd].
  fold m in Hzp, Hzd.
  unfold calculate. fold ds.
  destruct (Prim2SF g) as [sg | sg | | sg mg eg];
    try (rewrite Hc; reflexivity);
    destruct Hc as (t & Ht & Hta & Htg); rewrite Ht; cbn [bind];
    pose proof (table_loop_rows catalog (zip4 product_name ds quantity unit_price)
                  1 zero_aggregates) as Hrows;
    pose proof (table_loop_columns catalog (zip4 product_name ds quantity unit_price)
                  1 zero_aggregates) as [Hcp Hcd];
    rewrite <- Hz;
    destruct (table_loop catalog 1 (zip4 product_name ds quantity unit_price)
                zero_aggregates) as [a rows]; cbn [snd fst] in *;
    destruct (draw_totals_ok _ _ _ _ _ Ht) as (panel & Hp); rewrite Hp; cbn [bind];
    eexists; (split; [reflexivity|]);
    cbn [q_totals q_rows q_aggregates];
    (split; [exact Hta|]);
    (split; [exact Htg|]); (split; [reflexivity|]); (split; [reflexivity|]);
    (split; [now rewrite Hrows|]);
    (split; [rewrite Hcp, <- Hzp; now rewrite map_map
            |rewrite Hcd, <- Hzd; now rewrite map_map]).
Qed.

Lemma unequal_lengths_are_truncated_witness :
  exists q,
    calculate [] ["Bolt"; "Plate"] (Some ["M8"]) [2; 3; 4]%float [50; 10]%float
              (Some 20%float) None = Ok q /\
    total_amount (q_totals q) = 130%float /\
    List.length (q_rows q) = 1%nat /\
    map r_product (q_rows q) = ["Bolt"].
Proof.
  destruct (proj1 (proj2 (unequal_lengths_are_truncated
                            [] ["Bolt"; "Plate"] (Some ["M8"]) [2; 3; 4]%float
                            [50; 10]%float (Some 20%float) None)))
    as (q & Hq & Ha & _ & _ & _ & Hl & Hp & _).
  exists q. split; [exact Hq|]. split; [|split].
  - rewrite Ha. vm_compute. reflexivity.
  - exact Hl.
  - rewrite Hp. vm_compute. reflexivity.
Defined.

End CalcFacts.

(* ================================================================== *)
(** ** The valid-till date *)

Module DateFacts.
Import PyFloat Unicode PyStr Dates Props.

Lemma mod10_digit (z : Z) : 0 <= z mod 10 <= 9.
Proof. pose proof (Z.mod_pos_bound z 10). lia. Qed.

(** Case analysis over the integers of a small range. *)
Lemma range_cases (P : Z -> Prop) (lo : Z) (n : nat) :
  (forall k, (k < n)%nat -> P (lo + Z.of_nat k)) ->
  forall z, lo <= z < lo + Z.of_nat n -> P z.
Proof.
  intros H z Hz. replace z with (lo + Z.of_nat (Z.to_nat (z - lo))) by lia.
  apply H. lia.
Qed.

Ltac small_cases k Hk :=
  repeat (destruct k as [|k]; [reflexivity|]); exfalso; lia.

Lemma byte_digit_char (d : Z) : 0 <= d <= 9 -> byte (digit_char d) = 48 + d.
Proof.
  intros Hd. pattern d. apply (range_cases _ 0 10); [|lia]. intros k Hk.
  small_cases k Hk.
Qed.

Lemma digit_val_ascii (d : Z) : 0 <= d <= 9 -> digit_val (48 + d) = Some d.
Proof.
  intros Hd. pattern d. apply (range_cases _ 0 10); [|lia]. intros k Hk.
  small_cases k Hk.
Qed.

(** The digits "0" to "9" are single bytes. *)
Lemma code_points_digit (d : Z) (s : string) :
  0 <= d <= 9 -> code_points (String (digit_char d) s) = (48 + d) :: code_points s.
Proof.
  intros Hd. unfold code_points. cbn [decode_from]. rewrite byte_digit_char by assumption.
  replace (48 + d <? 128) with true by (symmetry; apply Z.ltb_lt; lia). reflexivity.
Qed.

Lemma code_points_dash (s : string) : code_points (String "-" s) = 45 :: code_points s.
Proof. reflexivity. Qed.

Lemma code_points_two_digits (n : Z) (s : string) :
  code_points (two_digits n ++ s) =
    (48 + n / 10 mod 10) :: (48 + n mod 10) :: code_points s.
Proof.
  unfold two_digits. cbn [append]. now rewrite !code_points_digit by apply mod10_digit.
Qed.

Lemma code_points_four_digits (n : Z) (s : string) :
  code_points (four_digits n ++ s) =
    (48 + n / 1000 mod 10) :: (48 + n / 100 mod 10) ::
    (48 + n / 10 mod 10) :: (48 + n mod 10) :: code_points s.
Proof.
  unfold four_digits. cbn [append]. rewrite !code_points_digit by apply mod10_digit.
  do 2 f_equal. apply code_points_two_digits.
Qed.

Lemma parse_Y_four_digits (y : Z) (rest : list Z) :
  0 <= y <= 9999 ->
  parse_Y ((48 + y / 1000 mod 10) :: (48 + y / 100 mod 10) ::
           (48 + y / 10 mod 10) :: (48 + y mod 10) :: rest) = Some (y, rest).
Proof.
  intros Hy. cbn [parse_Y].
  rewrite !digit_val_ascii by apply mod10_digit.
  f_equal. f_equal.
  pose proof (Z.div_mod y 1000 ltac:(lia)). pose proof (Z.mod_pos_bound y 1000 ltac:(lia)).
  pose proof (Z.div_mod y 100 ltac:(lia)). pose proof (Z.mod_pos_bound y 100 ltac:(lia)).
  pose proof (Z.div_mod y 10 ltac:(lia)). pose proof (Z.mod_pos_bound y 10 ltac:(lia)).
  pose proof (Z.div_mod (y / 1000) 10 ltac:(lia)).
  pose proof (Z.div_mod (y / 100) 10 ltac:(lia)).
  pose proof (Z.div_mod (y / 10) 10 ltac:(lia)).
  assert (y / 1000 / 10 = 0) by (rewrite Z.div_div by lia; apply Z.div_small; lia).
  assert (y / 100 / 10 = y / 1000) by (rewrite Z.div_div by lia; reflexivity).
  assert (y / 10 / 10 = y / 100) by (rewrite Z.div_div by lia; reflexivity).
  lia.
Qed.

(** A month written on two digits and followed by a dash: read back when
    it is one of 01..12; otherwise the pattern fails or leaves a digit
    where the dash is due. *)
Lemma parse_m_iso (m : Z) (rest : list Z) :
  0 <= m <= 99 ->
  match parse_m ((48 + m / 10 mod 10) :: (48 + m mod 10) :: 45 :: rest) with
  | Some (m', s3) =>
      match expect_dash s3 with
      | Some s4 => Some (m', s4)
      | None => None
      end
  | None => None
  end = if (1 <=? m) && (m <=? 12) then Some (m, rest) else None.
Proof.
  intros Hm. pattern m. apply (range_cases _ 0 100); [|lia]. intros k Hk.
  small_cases k Hk.
Qed.

(** A day written on two digits at the end of the text. *)
Lemma parse_d_iso (d : Z) :
  0 <= d <= 99 ->
  match parse_d [48 + d / 10 mod 10; 48 + d mod 10] with
  | Some (d', []) => Some d'
  | _ => None
  end = if (1 <=? d) && (d <=? 31) then Some d else None.
Proof.
  intros Hd. pattern d. apply (range_cases _ 0 100); [|lia]. intros k Hk.
  small_cases k Hk.
Qed.

Lemma valid_date_bounds (y m d : Z) :
  valid_date y m d = true -> 1 <= y <= 9999 /\ 1 <= m <= 12 /\ 1 <= d <= 31.
Proof.
  unfold valid_date, days_in_month. intros H.
  repeat (apply andb_prop in H as [H ?]).
  repeat match goal with
         | H : (_ <=? _) = true |- _ => apply Z.leb_le in H
         end.
  repeat split; try lia.
  destruct (m =? 2); [destruct (is_leap y); lia|].
  destruct ((m =? 4) || (m =? 6) || (m =? 9) || (m =? 11)); lia.
Qed.

(** A text of the shape YYYY-MM-DD parses exactly when it names a date. *)
Lemma strptime_iso_cases (y m d : Z) :
  0 <= y <= 9999 -> 0 <= m <= 99 -> 0 <= d <= 99 ->
  strptime_Ymd (iso_Ymd {| year := y; month := m; day := d |}) =
    if valid_date y m d then Ok {| year := y; month := m; day := d |}
    else Raise ValueError.
Proof.
  intros Hy Hm Hd. unfold strptime_Ymd, iso_Ymd. cbn [year month day].
  replace (two_digits d) with (two_digits d ++ "")%string
    by (unfold two_digits; reflexivity).
  rewrite code_points_four_digits. cbn [append].
  rewrite code_points_dash, code_points_two_digits. cbn [append].
  rewrite code_points_dash, code_points_two_digits. change (code_points "") with (@nil Z).
  rewrite parse_Y_four_digits by assumption.
  cbn [expect_dash]. change (45 =? 45) with true. cbv iota.
  pose proof (parse_m_iso m [48 + d / 10 mod 10; 48 + d mod 10] Hm) as Pm.
  pose proof (parse_d_iso d Hd) as Pd.
  destruct (parse_m _) as [[m' s3]|].
  - destruct (expect_dash s3) as [s4|].
    + destruct ((1 <=? m) && (m <=? 12)) eqn:Em; [|discriminate].
      injection Pm as -> ->.
      destruct (parse_d _) as [[d' [|c s5]]|].
      * destruct ((1 <=? d) && (d <=? 31)) eqn:Ed; [|discriminate].
        injection Pd as ->. reflexivity.
      * destruct ((1 <=? d) && (d <=? 31)) eqn:Ed; [discriminate|].
        destruct (valid_date y m d) eqn:Ev; [|reflexivity].
        apply valid_date_bounds in Ev. apply andb_false_iff in Ed as [Ed | Ed];
          [apply Z.leb_gt in Ed | apply Z.leb_gt in Ed]; lia.
      * destruct ((1 <=? d) && (d <=? 31)) eqn:Ed; [discriminate|].
        destruct (valid_date y m d) eqn:Ev; [|reflexivity].
        apply valid_date_bounds in Ev. apply andb_false_iff in Ed as [Ed | Ed];
          [apply Z.leb_gt in Ed | apply Z.leb_gt in Ed]; lia.
    + destruct ((1 <=? m) && (m <=? 12)) eqn:Em; [discriminate|].
      destruct (valid_date y m d) eqn:Ev; [|reflexivity].
      apply valid_date_bounds in Ev. apply andb_false_iff in Em as [Em | Em];
        [apply Z.leb_gt in Em | apply Z.leb_gt in Em]; lia.
  - destruct ((1 <=? m) && (m <=? 12)) eqn:Em; [discriminate|].
    destruct (valid_date y m d) eqn:Ev; [|reflexivity].
    apply valid_date_bounds in Ev. apply andb_false_iff in Em as [Em | Em];
      [apply Z.leb_gt in Em | apply Z.leb_gt in Em]; lia.
Qed.

(** The ISO text of a date parses back to it. *)
Lemma strptime_iso (dt : date) :
  valid_date (year dt) (month dt) (day dt) = true ->
  strptime_Ymd (iso_Ymd dt) = Ok dt.
Proof.
  destruct dt as [y m d]. cbn [year month day]. intros Hv.
  pose proof (valid_date_bounds y m d Hv) as (Hy & Hm & Hd).
  rewrite strptime_iso_cases by lia. now rewrite Hv.
Qed.

(** What [strptime] returns is a date. *)
Lemma strptime_valid (s : string) (dt : date) :
  strptime_Ymd s = Ok dt -> valid_date (year dt) (month dt) (day dt) = true.
Proof.
  unfold strptime_Ymd.
  destruct (parse_Y (code_points s)) as [[y s1]|]; [|discriminate].
  destruct (expect_dash s1) as [s2|]; [|discriminate].
  destruct (parse_m s2) as [[m s3]|]; [|discriminate].
  destruct (expect_dash s3) as [s4|]; [|discriminate].
  destruct (parse_d s4) as [[d [|c s5]]|]; try discriminate.
  destruct (valid_date y m d) eqn:Ev; [|discriminate].
  intros [= <-]. exact Ev.
Qed.

Lemma parse_Y_dash (a b : Z) (rest : list Z) : parse_Y (a :: b :: 45 :: rest) = None.
Proof.
  destruct rest as [|c rest]; [reflexivity|]. cbn [parse_Y].
  destruct (digit_val a), (digit_val b); reflexivity.
Qed.

(** A day-month-year text is no ISO date: its third character is the dash. *)
Lemma strptime_dmY_raises (dt : date) : strptime_Ymd (strftime_dmY dt) = Raise ValueError.
Proof.
  unfold strptime_Ymd, strftime_dmY.
  rewrite code_points_two_digits. cbn [append].
  rewrite code_points_dash, parse_Y_dash. reflexivity.
Qed.

Lemma year_texts :
  forallb (fun y => String.eqb (dec_string y) (four_digits y))
          (map (fun k => 1000 + Z.of_nat k) (seq 0 (Z.to_nat 9000))) = true.
Proof. vm_compute. reflexivity. Qed.

(** From the year 1000 on, the year is printed on its four digits. *)
Lemma dec_string_four_digits (y : Z) : 1000 <= y <= 9999 -> dec_string y = four_digits y.
Proof.
  intros Hy. pose proof year_texts as H. rewrite forallb_forall in H.
  specialize (H y). cbv beta in H. apply String.eqb_eq, H.
  apply in_map_iff. exists (Z.to_nat (y - 1000)).
  split; [lia | apply in_seq; lia].
Qed.

(** C9. A valid-till text in ISO form, year-month-day on 4-2-2 digits of a
    real date, is drawn in the form day-month-year, [strftime]'s
    "%d-%m-%Y" (the year on its four digits from the year 1000 on, without
    leading zeros before); more generally whatever [strptime] accepts for
    "%Y-%m-%d" is a date and is drawn as its "%d-%m-%Y" text, and a text
    [strptime] rejects is drawn unchanged: so are a text of ISO shape that
    names no date of the calendar and a text that is already in
    day-month-year form. Decimal digits of other scripts are read as
    [strptime] reads them. *)
Theorem valid_till_is_reformatted :
  (forall dt : date,
      valid_date (year dt) (month dt) (day dt) = true ->
      valid_till_fmt (iso_Ymd dt) = strftime_dmY dt /\
      (1000 <= year dt ->
       strftime_dmY dt =
         two_digits (day dt) ++ "-" ++ two_digits (month dt) ++ "-" ++
         four_digits (year dt))%string) /\
  (forall (s : string) (dt : date),
      strptime_Ymd s = Ok dt ->
      valid_date (year dt) (month dt) (day dt) = true /\
      valid_till_fmt s = strftime_dmY dt) /\
  (forall (s : string) (e : exn),
      strptime_Ymd s = Raise e -> valid_till_fmt s = s) /\
  (forall y m d : Z,
      0 <= y <= 9999 -> 0 <= m <= 99 -> 0 <= d <= 99 ->
      valid_date y m d = false ->
      valid_till_fmt (iso_Ymd {| year := y; month := m; day := d |}) =
        iso_Ymd {| year := y; month := m; day := d |}) /\
  (forall dt : date, valid_till_fmt (strftime_dmY dt) = strftime_dmY dt) /\
  (valid_till_fmt "2024-02-29" = "29-02-2024" /\
   valid_till_fmt "2024-1-5" = "05-01-2024" /\
   valid_till_fmt "２０２４-01-05" = "05-01-2024" /\
   valid_till_fmt "0999-01-05" = "05-01-999" /\
   valid_till_fmt "2023-02-29" = "2023-02-29" /\
   valid_till_fmt "29/02/2024" = "29/02/2024").
Proof.
  split; [|split; [|split; [|split; [|split]]]].
  - intros dt Hv. split.
    + unfold valid_till_fmt. now rewrite strptime_iso.
    + intros Hy. unfold strftime_dmY. rewrite dec_string_four_digits; [reflexivity|].
      apply valid_date_bounds in Hv. lia.
  - intros s dt Hs. split; [exact (strptime_valid s dt Hs)|].
    unfold valid_till_fmt. now rewrite Hs.
  - intros s e Hs. unfold valid_till_fmt. now rewrite Hs.
  - intros y m d Hy Hm Hd Hv. unfold valid_till_fmt.
    rewrite strptime_iso_cases by assumption. now rewrite Hv.
  - intros dt. unfold valid_till_fmt. now rewrite strptime_dmY_raises.
  - repeat split; vm_compute; reflexivity.
Qed.

Lemma valid_till_is_reformatted_witness :
  valid_till_fmt "2024-12-31" = "31-12-2024" /\
  valid_till_fmt "2024-०३-13" = "2024-०३-13" /\
  valid_till_fmt "2024-03-1३" = "13-03-2024" /\
  valid_till_fmt "9999-13-01" = "9999-13-01".
Proof.
  split; [|split; [|split]].
  - exact (proj1 (proj1 valid_till_is_reformatted
                    {| year := 2024; month := 12; day := 31 |} eq_refl)).
  - refine (proj1 (proj2 (proj2 valid_till_is_reformatted)) "2024-०३-13" ValueError _).
    vm_compute. reflexivity.
  - refine (proj2 (proj1 (proj2 valid_till_is_reformatted) "2024-03-1३"
                     {| year := 2024; month := 3; day := 13 |} _)).
    vm_compute. reflexivity.
  - refine (proj1 (proj2 (proj2 (proj2 valid_till_is_reformatted))) 9999 13 1 _ _ _ eq_refl);
      lia.
Defined.

End DateFacts.

(* ================================================================== *)
(** ** The history log *)

Module HistoryFacts.
Import PyFloat Dates History Persist.

Lemma eq_int_JInt (j uid : Z) : eq_int (Some (JInt j)) uid = true -> j = uid.
Proof. cbn. apply Z.eqb_eq. Qed.

(** The comprehension of line 681 is a filter. *)
Lemma owned_by_filter (uid : Z) (items hs : list json) :
  owned_by uid items = Ok hs ->
  forall h, In h hs ->
    In h items /\ exists v, py_get h "user_id" = Ok v /\ eq_int v uid = true.
Proof.
  revert hs. induction items as [|x items IH]; intros hs; cbn [owned_by bind].
  - intros [= <-] h [].
  - destruct (py_get x "user_id") as [v|e] eqn:Ev; cbn [bind]; [|discriminate].
    destruct (owned_by uid items) as [rest|e]; cbn [bind]; [|discriminate].
    destruct (eq_int v uid) eqn:Eo; intros [= <-] h Hin.
    + destruct Hin as [<- | Hin].
      * split; [now left | eauto].
      * destruct (IH rest eq_refl h Hin) as [H1 H2]. split; [now right | assumption].
    + destruct (IH rest eq_refl h Hin) as [H1 H2]. split; [now right | assumption].
Qed.

(** Removing a position removes a record for good when no other position
    holds an equal one. *)
Lemma remove_at_only (A : Type) (l : list A) (i : nat) (x : A) :
  (forall j, j <> i -> nth_error l j <> Some x) -> ~ In x (remove_at i l).
Proof.
  revert i. induction l as [|a l IH]; intros [|i] Hj; cbn [remove_at]; try easy.
  - intros Hin. apply In_nth_error in Hin as [j Hn]. apply (Hj (S j)); [lia | exact Hn].
  - intros [-> | Hin].
    + apply (Hj 0%nat); [lia | reflexivity].
    + apply (IH i); [|exact Hin]. intros j Hji. apply (Hj (S j)). lia.
Qed.

Lemma position_lt (n : nat) (index : Z) (i : nat) :
  position n index = Some i -> (Z.of_nat n <=? index) = false /\ (i < n)%nat.
Proof.
  unfold position.
  destruct (index <? 0) eqn:E0;
    [apply Z.ltb_lt in E0 | apply Z.ltb_ge in E0];
    match goal with |- context [(0 <=? ?a) && (?a <? ?b)] =>
      destruct ((0 <=? a) && (a <? b)) eqn:E end; try discriminate;
    apply andb_prop in E as [E1 E2]; apply Z.leb_le in E1; apply Z.ltb_lt in E2;
    intros [= <-]; split; try lia; apply Z.leb_gt; lia.
Qed.

(** What [delete_history] does at a position of the list. *)
Lemma delete_history_at (w : world) (l : list json) (index : Z) (i : nat)
    (entry : json) (name : string) :
  history_file w = Content (JList l) ->
  position (List.length l) index = Some i ->
  nth_error l i = Some entry ->
  file_of entry = Ok name ->
  delete_history index w =
  (Ok (Redirect "/history"),
   {| history_file := Content (JList (remove_at i l));
      files := if exists_file (static_path name) (files w)
               then remove_file (static_path name) (files w)
               else files w |}).
Proof.
  intros Hf Hp Hn Hname. unfold delete_history. rewrite Hf.
  cbn [load_or_empty py_len py_index py_del].
  destruct (position_lt _ _ _ Hp) as [Hlt _]. rewrite Hlt, Hp, Hn.
  cbn [bind]. rewrite Hname. cbn [bind]. reflexivity.
Qed.

(** The guard of line 700: an index at or past the end changes nothing. *)
Lemma delete_history_past_end (w : world) (index n : Z) :
  py_len (load_or_empty (history_file w)) = Ok n -> n <= index ->
  delete_history index w = (Ok (Redirect "/history"), w).
Proof.
  intros Hlen Hle. unfold delete_history.
  destruct (history_file w) as [| |v] eqn:Ef; [reflexivity| |];
    rewrite Hlen; (destruct (n <=? index) eqn:E; [reflexivity | apply Z.leb_gt in E; lia]).
Qed.

(** A missing file and a file [json.load] rejects list as empty. *)
Lemma view_history_missing_or_unparseable (s : session) (w : world) (uid : Z) :
  current_user s = Some uid ->
  history_file w = Missing \/ history_file w = Unparseable ->
  view_history s w = (Ok (HistoryPage []), w).
Proof.
  intros Hu [Hf | Hf]; unfold view_history; rewrite Hu, Hf; reflexivity.
Qed.

(** Without a user id in the session, [view_history] redirects to the login
    page and changes nothing. *)
Lemma view_history_anonymous (s : session) (w : world) :
  current_user s = None -> view_history s w = (Ok (Redirect "/login"), w).
Proof. intros Hu. unfold view_history. now rewrite Hu. Qed.

Lemma view_history_list (s : session) (w : world) (uid : Z) (l : list json) :
  current_user s = Some uid ->
  history_file w = Content (JList l) ->
  view_history s w = (fmap HistoryPage (owned_by uid l), w).
Proof.
  intros Hu Hf. unfold view_history. rewrite Hu, Hf. cbn [load_or_empty py_iter bind].
  unfold fmap. reflexivity.
Qed.

Lemma view_history_reads_only (s : session) (w : world) : snd (view_history s w) = w.
Proof.
  unfold view_history. destruct (current_user s); [|reflexivity].
  destruct (history_file w); reflexivity.
Qed.

(** C6, as the specification words it, fails: the log holds records, not
    identities, and [delete_history] removes a position. Two quotations
    recorded with the same fields within one second are equal records;
    after index 0 is deleted, the history page still returns a record equal
    to the deleted one. *)
Lemma deleted_record_is_still_listed :
  let f := {| customer_name := "Acme"; customer_address := "1 Main Road";
              customer_city := "Pune"; shipping_name := "Acme";
              shipping_address := "1 Main Road"; shipping_city := "Pune";
              company_name := "LSY"; company_address := "2 Mill Lane";
              company_email := "sales@lsy.example"; company_phone := "12345";
              company_gst := "27AAAAA0000A1Z5"; bank_name := "Bank";
              account_name := "LSY"; account_number := "001"; ifsc_code := "IFSC0001";
              valid_till := "2025-02-01"; product_name := ["Bolt"];
              description := None; quantity := [2%float]; unit_price := [50%float];
              loading_charge := None; transportation_charge := None; note := None;
              quotation_number := "Q-1" |} in
  let now := {| dt_date := {| year := 2025; month := 1; day := 2 |};
                hour := 9; minute := 5; second := 7 |} in
  let record := history_entry (Some 7) f now now 118 in
  let s := {| logged_in := true; user_id := Some 7 |} in
  let w0 := {| history_file := Missing; files := [] |} in
  let w := snd (append_history record (snd (append_history record w0))) in
  history_file w = Content (JList [record; record]) /\
  py_index (JList [record; record]) 0 = Ok record /\
  fst (delete_history 0 w) = Ok (Redirect "/history") /\
  exists hs,
    fst (view_history s (snd (delete_history 0 w))) = Ok (HistoryPage hs) /\
    In record hs.
Proof.
  intros f now record s w0 w.
  split; [reflexivity|]. split; [reflexivity|]. split; [vm_compute; reflexivity|].
  exists [record]. split; [vm_compute; reflexivity | now left].
Qed.

(** C6, amended. For a logged-in user the history page holds only records
    whose [user_id] equals the user's id (a record the application wrote
    holds an integer there, and it is the user's), and showing the page
    changes nothing; once [delete_history] has removed the record at a
    position of the list, the file holds the list without that position,
    the next history page is the filter of that shorter list, and it does
    not hold the removed record unless another position of the log holds
    an equal one. *)
Theorem history_lists_own_records_only :
  (forall (s : session) (w w' : world) (uid : Z) (hs : list json),
      current_user s = Some uid ->
      view_history s w = (Ok (HistoryPage hs), w') ->
      w' = w /\
      forall h, In h hs ->
        exists v, py_get h "user_id" = Ok v /\ eq_int v uid = true /\
                  (forall j, v = Some (JInt j) -> j = uid)) /\
  (forall (s : session) (w : world) (uid : Z) (l : list json) (index : Z) (i : nat)
          (entry : json) (name : string),
      current_user s = Some uid ->
      history_file w = Content (JList l) ->
      position (List.length l) index = Some i ->
      nth_error l i = Some entry ->
      file_of entry = Ok name ->
      let w' := snd (delete_history index w) in
      fst (delete_history index w) = Ok (Redirect "/history") /\
      history_file w' = Content (JList (remove_at i l)) /\
      fst (view_history s w') = fmap HistoryPage (owned_by uid (remove_at i l)) /\
      ((forall j, j <> i -> nth_error l j <> Some entry) ->
       forall hs, fst (view_history s w') = Ok (HistoryPage hs) -> ~ In entry hs)).
Proof.
  split.
  - intros s w w' uid hs Hu Hv.
    pose proof (view_history_reads_only s w) as Hw. rewrite Hv in Hw. cbn in Hw.
    split; [assumption|]. intros h Hin.
    unfold view_history in Hv. rewrite Hu in Hv.
    assert (exists items, owned_by uid items = Ok hs) as [items Ho].
    { destruct (history_file w) as [| |v].
      - injection Hv as <- _. destruct Hin.
      - injection Hv as <- _. destruct Hin.
      - cbn [load_or_empty] in Hv.
        destruct (py_iter v) as [items|e]; cbn [bind] in Hv; [|discriminate].
        exists items. destruct (owned_by uid items); cbn [bind] in Hv; congruence. }
    destruct (owned_by_filter uid items hs Ho h Hin) as (_ & v & Hg & He).
    exists v. repeat split; try assumption. intros j ->. now apply eq_int_JInt.
  - intros s w uid l index i entry name Hu Hf Hp Hn Hname w'.
    subst w'. rewrite (delete_history_at w l index i entry name Hf Hp Hn Hname).
    cbn [fst snd history_file].
    split; [reflexivity|]. split; [reflexivity|].
    match goal with
    | |- context [view_history s ?w1] =>
        rewrite (view_history_list s w1 uid (remove_at i l) Hu eq_refl)
    end. cbn [fst].
    split; [reflexivity|]. intros Honly hs Hhs Hin.
    destruct (owned_by uid (remove_at i l)) as [hs'|e] eqn:Eo; cbn in Hhs; [|discriminate].
    injection Hhs as <-.
    destruct (owned_by_filter uid _ _ Eo entry Hin) as [Hin' _].
    exact (remove_at_only _ l i entry Honly Hin').
Qed.

Lemma history_lists_own_records_only_witness :
  let mine := JDict [("file", JStr "quotation_A_01-01-2025_101500.pdf"); ("user_id", JInt 7)] in
  let other := JDict [("file", JStr "quotation_B_02-01-2025_090000.pdf"); ("user_id", JInt 8)] in
  let w := {| history_file := Content (JList [mine; other]);
              files := ["static/quotation_A_01-01-2025_101500.pdf";
                        "static/quotation_B_02-01-2025_090000.pdf"] |} in
  let s := {| logged_in := true; user_id := Some 7 |} in
  (forall h, In h [mine] ->
     exists v, py_get h "user_id" = Ok v /\ eq_int v 7 = true /\
               (forall j, v = Some (JInt j) -> j = 7)) /\
  fst (view_history s (snd (delete_history 0 w))) = Ok (HistoryPage []) /\
  ~ In mine [].
Proof.
  intros mine other w s. split; [|split].
  - exact (proj2 (proj1 history_lists_own_records_only s w w 7 [mine] eq_refl eq_refl)).
  - pose proof (proj2 history_lists_own_records_only s w 7 [mine; other] 0 0%nat mine
                  "quotation_A_01-01-2025_101500.pdf" eq_refl eq_refl eq_refl eq_refl eq_refl)
      as H.
    exact (proj1 (proj2 (proj2 H))).
  - pose proof (proj2 history_lists_own_records_only s w 7 [mine; other] 0 0%nat mine
                  "quotation_A_01-01-2025_101500.pdf" eq_refl eq_refl eq_refl eq_refl eq_refl)
      as H.
    refine (proj2 (proj2 (proj2 H)) _ [] eq_refl).
    intros [|[|j]] Hj; [lia | discriminate | destruct j; discriminate].
Defined.

(** C5 fails on the code. A history file that is valid JSON but not a list
    of records, here the object [{"next_id": 4}], one of the corrupt
    contents [edit_quotation] guards against, makes [view_history] raise
    [AttributeError] where the claim promises an empty list; on the same
    file [edit_quotation] sees an empty history and redirects. *)
Theorem view_history_raises_on_corrupt_shape :
  let w := {| history_file := Content (JDict [("next_id", JInt 4)]); files := [] |} in
  let s := {| logged_in := true; user_id := Some 7 |} in
  view_history s w = (Raise AttributeError, w) /\
  load_list_or_empty (history_file w) = [] /\
  edit_quotation_prefill 0 w = inl (Redirect "/history").
Proof. repeat split. Qed.

(** C7 fails on the code. The guard of line 700 tests only
    [index >= len(history)]: with two records, index -1 deletes the last
    record and its file, and index -3 raises [IndexError]; [edit_quotation]
    on the same indices redirects to the history list and changes nothing. *)
Theorem delete_history_accepts_negative_index :
  let first := JDict [("file", JStr "quotation_A_01-01-2025_101500.pdf"); ("user_id", JInt 7)] in
  let last := JDict [("file", JStr "quotation_B_02-01-2025_090000.pdf"); ("user_id", JInt 8)] in
  let w := {| history_file := Content (JList [first; last]);
              files := ["static/quotation_A_01-01-2025_101500.pdf";
                        "static/quotation_B_02-01-2025_090000.pdf"] |} in
  delete_history (-1) w =
    (Ok (Redirect "/history"),
     {| history_file := Content (JList [first]);
        files := ["static/quotation_A_01-01-2025_101500.pdf"] |}) /\
  delete_history (-3) w = (Raise IndexError, w) /\
  edit_quotation_prefill (-1) w = inl (Redirect "/history") /\
  edit_quotation_prefill (-3) w = inl (Redirect "/history").
Proof. repeat split. Qed.

(** C8 fails on the code. [delete_history] never reads the session: a
    request without a session deletes record 0 and its file and is
    redirected to the history list, where [view_history], given the same
    session, redirects to the login page and changes nothing. *)
Theorem delete_history_is_not_session_gated :
  let record := JDict [("file", JStr "quotation_A_01-01-2025_101500.pdf"); ("user_id", JInt 7)] in
  let w := {| history_file := Content (JList [record]);
              files := ["static/quotation_A_01-01-2025_101500.pdf"] |} in
  let anonymous := {| logged_in := false; user_id := None |} in
  handle anonymous (PostDeleteHistory 0) w =
    (Ok (Redirect "/history"), {| history_file := Content (JList []); files := [] |}) /\
  handle anonymous GetHistory w = (Ok (Redirect "/login"), w).
Proof. repeat split. Qed.

End HistoryFacts.

(* ================================================================== *)
(** * Further properties of the code *)

(* ================================================================== *)
(** ** The catalog and the units of line items *)

Module CatalogFacts.
Import PyFloat PyStr Calc Spec Props.

(** The catalog with every name replaced by its image under [f]. *)
Lemma resolve_unit_rename (f : string -> string) (catalog : list catalog_entry) (p : string) :
  (forall e, In e catalog -> lower (f (c_name e)) = lower (c_name e)) ->
  resolve_unit
    (map (fun e => {| c_name := f (c_name e); c_unit_type := c_unit_type e;
                      c_description := c_description e |}) catalog) p =
  resolve_unit catalog p.
Proof.
  intros Hf. unfold resolve_unit.
  induction catalog as [|e catalog IH]; cbn [map find c_name]; [reflexivity|].
  rewrite (Hf e) by now left.
  destruct (String.eqb (lower (c_name e)) (lower p)); [reflexivity|].
  apply IH. intros e' He'. apply Hf. now right.
Qed.

(** X1. The unit lookup of lines 507-511 compares [lower()] of both names.
    A product name resolves to the same unit as its lower-case form, and a
    catalog whose names are stored in lower case gives the same units. For
    names of ASCII characters the same holds of the upper-case form, but
    not beyond ASCII: with the product "straße" sold by the KG, the item
    "straße" has the unit KG and its upper-case form "STRASSE" has none. *)
Theorem unit_lookup_ignores_case (catalog : list catalog_entry) (p : string) :
  resolve_unit catalog (lower p) = resolve_unit catalog p /\
  resolve_unit
    (map (fun e => {| c_name := lower (c_name e); c_unit_type := c_unit_type e;
                      c_description := c_description e |}) catalog) p =
    resolve_unit catalog p /\
  (is_ascii p = true -> resolve_unit catalog (upper p) = resolve_unit catalog p) /\
  (forallb (fun e => is_ascii (c_name e)) catalog = true ->
   resolve_unit
     (map (fun e => {| c_name := upper (c_name e); c_unit_type := c_unit_type e;
                       c_description := c_description e |}) catalog) p =
     resolve_unit catalog p) /\
  (let street := [ {| c_name := "straße"; c_unit_type := "KG"; c_description := "" |} ] in
   resolve_unit street "straße" = "KG" /\
   upper "straße" = "STRASSE" /\
   resolve_unit street (upper "straße") = "").
Proof.
  split; [|split; [|split; [|split]]].
  - unfold resolve_unit. now rewrite StrFacts.lower_idem.
  - apply resolve_unit_rename. intros e _. apply StrFacts.lower_idem.
  - intros Hp. unfold resolve_unit. now rewrite StrFacts.lower_upper_ascii.
  - intros Hc. apply resolve_unit_rename. intros e He.
    rewrite forallb_forall in Hc. apply StrFacts.lower_upper_ascii. now apply Hc.
  - repeat split; vm_compute; reflexivity.
Qed.

Lemma unit_lookup_ignores_case_witness :
  let catalog := [ {| c_name := "Bolt"; c_unit_type := "KG"; c_description := "" |} ] in
  resolve_unit catalog (upper "bolt") = resolve_unit catalog "bolt" /\
  resolve_unit
    (map (fun e => {| c_name := upper (c_name e); c_unit_type := c_unit_type e;
                      c_description := c_description e |}) catalog) "bolt" =
    resolve_unit catalog "bolt".
Proof.
  intros catalog. split.
  - exact (proj1 (proj2 (proj2 (unit_lookup_ignores_case catalog "bolt"))) eq_refl).
  - exact (proj1 (proj2 (proj2 (proj2 (unit_lookup_ignores_case catalog "bolt")))) eq_refl).
Defined.

(** X2. The unit of a line item is the unit type of the first product row
    whose name matches up to case, stripped of surrounding white space and
    in upper case (an absent unit type giving no unit): a row stored with
    " kg " is a "KG" row, and the second [upper] of line 510 changes
    nothing. *)
Theorem unit_is_normalised_unit_type
    (pre post : list Product) (r : Product) (name : string) :
  lower (p_name r) = lower name ->
  (forall r', In r' pre -> lower (p_name r') <> lower name) ->
  resolve_unit (catalog_of (pre ++ r :: post)) name =
    upper (strip (or_empty (p_unit_type r))).
Proof.
  intros Hr Hpre. rewrite CalcFacts.catalog_of_app. cbn [catalog_of map].
  rewrite (CalcFacts.resolve_unit_first (catalog_of pre) (map _ post)
             {| c_name := p_name r;
                c_unit_type := upper (strip (or_empty (p_unit_type r)));
                c_description := or_empty (p_description r) |} name Hr).
  - cbn [c_unit_type]. apply StrFacts.upper_idem.
  - intros e' He'. unfold catalog_of in He'. apply in_map_iff in He' as (r' & <- & Hin).
    cbn [c_name]. now apply Hpre.
Qed.

(** The unit type of the second row is "kg" between two no-break spaces. *)
Lemma unit_is_normalised_unit_type_witness :
  resolve_unit
    (catalog_of
       [ {| p_user_id := Some 7; p_name := "Nut"; p_description := None;
            p_price := 1%float; p_unit_type := Some "pcs" |};
         {| p_user_id := Some 7; p_name := "ÉCROU"; p_description := None;
            p_price := 1%float;
            p_unit_type := Some (of_code_points [160; 107; 103; 160]) |} ])
    "écrou" = "KG".
Proof.
  refine (eq_trans
            (unit_is_normalised_unit_type
               [ {| p_user_id := Some 7; p_name := "Nut"; p_description := None;
                    p_price := 1%float; p_unit_type := Some "pcs" |} ] []
               {| p_user_id := Some 7; p_name := "ÉCROU"; p_description := None;
                  p_price := 1%float;
                  p_unit_type := Some (of_code_points [160; 107; 103; 160]) |}
               "écrou" _ _) _).
  - vm_compute. reflexivity.
  - intros r' [<- | []]. vm_compute. discriminate.
  - vm_compute. reflexivity.
Defined.

Lemma table_loop_no_catalog (ls : list line) :
  forall (i : Z) (a : aggregates),
    fst (table_loop [] i ls a) = a /\
    Forall2 (fun l r => r_qty r = format_f 3 true false (l_quantity l))
            ls (snd (table_loop [] i ls a)).
Proof.
  induction ls as [|l ls IH]; intros i a; cbn [table_loop].
  - split; [reflexivity | constructor].
  - change (resolve_unit [] (l_product l)) with "".
    change (accumulate a "" (l_quantity l)) with a.
    specialize (IH (i + 1) a).
    destruct (table_loop [] (i + 1) ls a) as [a' rows]. cbn [fst snd] in *.
    destruct IH as [-> IH]. split; [reflexivity|].
    constructor; [reflexivity | exact IH].
Qed.

(** X3. Without a user id in the session (absent, or 0) [generate_pdf]
    loads no catalog (lines 487-498): whatever the products table holds, no
    line item has a unit, every quantity is drawn without a unit, the three
    aggregates stay 0.0 and no summary band is drawn. *)
Theorem anonymous_quotation_has_no_units
    (user_id : option Z) (products : list Product)
    (product_name : list string) (description : option (list string))
    (quantity unit_price : list float) (loading transportation : option float)
    (q : quotation) :
  user_id = None \/ user_id = Some 0 ->
  calculate (user_catalog user_id products) product_name description
            quantity unit_price loading transportation = Ok q ->
  q_aggregates q = zero_aggregates /\
  q_summary q = None /\
  Forall2 (fun l r => r_qty r = format_f 3 true false (l_quantity l))
          (zip4 product_name (default_description product_name description)
                quantity unit_price)
          (q_rows q).
Proof.
  intros Hu. assert (user_catalog user_id products = []) as ->
    by (destruct Hu as [-> | ->]; reflexivity).
  unfold calculate.
  destruct (compute_totals quantity unit_price loading transportation) as [t|e];
    cbn [bind]; [|discriminate].
  pose proof (table_loop_no_catalog
                (zip4 product_name (default_description product_name description)
                      quantity unit_price) 1 zero_aggregates) as [Ha Hrows].
  destruct (table_loop [] 1 _ zero_aggregates) as [a rows]. cbn [fst snd] in *. subst a.
  destruct (draw_totals t) as [panel|e]; cbn [bind]; [|discriminate].
  intros [= <-]. cbn [q_aggregates q_summary q_rows].
  split; [reflexivity|]. split; [vm_compute; reflexivity | exact Hrows].
Qed.

Lemma anonymous_quotation_has_no_units_witness :
  exists q,
    calculate
      (user_catalog None
         [ {| p_user_id := Some 7; p_name := "Bolt"; p_description := None;
              p_price := 50%float; p_unit_type := Some "KG" |} ])
      ["Bolt"] None [10%float] [50%float] None None = Ok q /\
    q_summary q = None.
Proof.
  eexists. split; [vm_compute; reflexivity|].
  refine (proj1 (proj2 (anonymous_quotation_has_no_units None
                          [ {| p_user_id := Some 7; p_name := "Bolt"; p_description := None;
                               p_price := 50%float; p_unit_type := Some "KG" |} ]
                          ["Bolt"] None [10%float] [50%float] None None _
                          (or_introl eq_refl) _))).
  vm_compute. reflexivity.
Defined.

End CatalogFacts.

(* ================================================================== *)
(** ** Totals, rows and printed numbers *)

Module RenderFacts.
Import PyFloat PyStr Calc Dates Props.

(** X4. The totals of lines 393-400 fail in one way only: [round] raises
    [ValueError] when the grand total is NaN and [OverflowError] when it is
    infinite, before anything is drawn or stored; for every finite grand
    total they succeed, the conversion of the rounded total back to a float
    for the round-off never overflowing. *)
Theorem totals_fail_only_on_nan_or_infinity
    (quantity unit_price : list float) (loading transportation : option float) :
  match Prim2SF (grand_total_value quantity unit_price loading transportation) with
  | S754_nan =>
      compute_totals quantity unit_price loading transportation = Raise ValueError
  | S754_infinity _ =>
      compute_totals quantity unit_price loading transportation = Raise OverflowError
  | _ =>
      exists t,
        compute_totals quantity unit_price loading transportation = Ok t /\
        grand_total t = grand_total_value quantity unit_price loading transportation
  end.
Proof.
  unfold compute_totals, grand_total_value.
  set (g := (_ + _ * gst_rate)%float).
  destruct (py_round g) as [r|e] eqn:Er.
  - destruct (FloatFacts.float_of_int_round g r Er) as (rf & q & Hrf & _).
    cbn [bind]. rewrite Hrf. cbn [bind].
    unfold py_round in Er.
    destruct (Prim2SF g); try discriminate; eexists; split; reflexivity.
  - cbn [bind]. unfold py_round in Er.
    destruct (Prim2SF g); try discriminate; now injection Er as <-.
Qed.

Lemma table_loop_nth (catalog : list catalog_entry) (ls : list line) :
  forall (i : Z) (a : aggregates) (k : nat) (l : line),
    nth_error ls k = Some l ->
    nth_error (snd (table_loop catalog i ls a)) k =
      Some (draw_row catalog (i + Z.of_nat k) l).
Proof.
  induction ls as [|x ls IH]; intros i a k l Hk; [destruct k; discriminate|].
  cbn [table_loop].
  specialize (IH (i + 1) (accumulate a (resolve_unit catalog (l_product x)) (l_quantity x))).
  destruct (table_loop catalog (i + 1) ls _) as [a' rows]. cbn [snd] in *.
  destruct k as [|k]; cbn [nth_error] in *.
  - injection Hk as ->. now rewrite Z.add_0_r.
  - rewrite (IH k l Hk). do 2 f_equal. lia.
Qed.

(** X5. The table loop of lines 506-531 draws one row per line item, in
    order: the row of the item at position k (from 0) carries the number
    k+1, is shaded as an even row exactly when k+1 is even, and shows the
    first 18 characters of the product name and the first 30 of the
    description (all of it when it is shorter), characters being counted as
    [len] counts them. *)
Theorem rows_are_numbered_and_cut
    (catalog : list catalog_entry) (ls : list line) (k : nat) (l : line) :
  nth_error ls k = Some l ->
  exists r,
    nth_error (snd (table_loop catalog 1 ls zero_aggregates)) k = Some r /\
    r_no r = dec_string (Z.of_nat k + 1) /\
    r_shaded_even r = Z.even (Z.of_nat k + 1) /\
    r_product r = prefix 18 (l_product l) /\
    r_description r = prefix 30 (l_description l) /\
    code_points (r_product r) = firstn 18 (code_points (l_product l)) /\
    code_points (r_description r) = firstn 30 (code_points (l_description l)) /\
    str_len (r_product r) = Nat.min 18 (str_len (l_product l)) /\
    str_len (r_description r) = Nat.min 30 (str_len (l_description l)).
Proof.
  intros Hk. eexists. split; [apply table_loop_nth, Hk|].
  cbn [draw_row r_no r_shaded_even r_product r_description].
  rewrite (Z.add_comm 1).
  repeat split; try apply StrFacts.code_points_prefix; try apply StrFacts.str_len_prefix.
  rewrite Zeven_mod. reflexivity.
Qed.

Lemma rows_are_numbered_and_cut_witness :
  exists r,
    nth_error
      (snd (table_loop []
              1 [ {| l_product := "Bolt"; l_description := ""; l_quantity := 1%float;
                     l_unit_price := 1%float |};
                  {| l_product := "Écrou hexagonal inoxydable"; l_description := "";
                     l_quantity := 2%float; l_unit_price := 1%float |} ]
              zero_aggregates)) 1 = Some r /\
    r_no r = "2" /\ r_product r = "Écrou hexagonal in" /\ str_len (r_product r) = 18%nat.
Proof.
  destruct (rows_are_numbered_and_cut []
              [ {| l_product := "Bolt"; l_description := ""; l_quantity := 1%float;
                   l_unit_price := 1%float |};
                {| l_product := "Écrou hexagonal inoxydable"; l_description := "";
                   l_quantity := 2%float; l_unit_price := 1%float |} ]
              1%nat _ eq_refl) as (r & Hr & Hno & _ & Hp & _ & _ & _ & Hl & _).
  exists r. split; [exact Hr|]. split; [exact Hno|]. split.
  - rewrite Hp. vm_compute. reflexivity.
  - rewrite Hl. vm_compute. reflexivity.
Defined.

(** *** The shape of a printed number *)

Lemma append_assoc (a b c : string) : ((a ++ b) ++ c = a ++ (b ++ c))%string.
Proof. induction a as [|x a IH]; cbn; [reflexivity | now rewrite IH]. Qed.

Lemma append_length (a b : string) :
  String.length (a ++ b) = (String.length a + String.length b)%nat.
Proof. induction a as [|x a IH]; cbn; [reflexivity | now rewrite IH]. Qed.

Lemma all_digits_append (a b : string) :
  all_digits a = true -> all_digits b = true -> all_digits (a ++ b) = true.
Proof.
  induction a as [|x a IH]; cbn; [auto|]. intros H Hb.
  apply andb_prop in H as [-> Ha]. cbn. auto.
Qed.

Lemma all_digits_zeros (k : nat) : all_digits (zeros k) = true.
Proof. induction k as [|k IH]; cbn; [reflexivity | exact IH]. Qed.

Lemma zeros_length (k : nat) : String.length (zeros k) = k.
Proof. induction k as [|k IH]; cbn; [reflexivity | now rewrite IH]. Qed.

Lemma all_digits_uint (d : Decimal.uint) : all_digits (NilEmpty.string_of_uint d) = true.
Proof. induction d; cbn; auto. Qed.

Lemma all_digits_dec_string (n : Z) : all_digits (dec_string n) = true.
Proof.
  unfold dec_string, NilZero.string_of_uint.
  destruct (N.to_uint (Z.to_N n)) eqn:E; try reflexivity;
    rewrite <- E; apply all_digits_uint.
Qed.

Lemma substring_digits (n m : nat) (s : string) :
  all_digits s = true -> all_digits (substring n m s) = true.
Proof.
  revert m s. induction n as [|n IH]; intros m s.
  - revert s. induction m as [|m IHm]; intros [|c s]; cbn; auto.
    intros H. apply andb_prop in H as [-> Hs]. cbn. auto.
  - destruct s as [|c s]; cbn; [destruct m; auto|].
    intros H. apply andb_prop in H as [_ Hs]. auto.
Qed.

Lemma substring_length (n m : nat) (s : string) :
  (n + m <= String.length s)%nat -> String.length (substring n m s) = m.
Proof.
  revert m s. induction n as [|n IH]; intros m s.
  - revert s. induction m as [|m IHm]; intros [|c s]; cbn; try lia.
    intros H. f_equal. apply IHm. cbn in *. lia.
  - destruct s as [|c s]; cbn; [lia|]. intros H. apply IH. lia.
Qed.

(** X6. Every finite amount is printed by [format_f] with a decimal point
    followed by exactly as many digits as the format asks for: two for the
    amounts of the [",.2f"] and ["+.2f"] fields, three for the quantities
    of [",.3f"]. *)
Theorem printed_number_has_its_decimals
    (k : nat) (grouping plus : bool) (x : float) (q : Q) :
  exact x = Some q ->
  exists head frac : string,
    format_f (S k) grouping plus x = (head ++ "." ++ frac)%string /\
    String.length frac = S k /\
    all_digits frac = true.
Proof.
  unfold exact, format_f. intros Hx.
  set (sign := fun s : bool => if s then "-" else if plus then "+" else "").
  assert (forall (s : bool) (n d : Z),
             exists head frac,
               (let ds := zero_pad (S (S k)) (dec_string (round_half_even n d)) in
                let cut := (String.length ds - S k)%nat in
                let ip := substring 0 cut ds in
                let fp := substring cut (S k) ds in
                let ip' := if grouping
                           then string_of_list_ascii (group3 (list_ascii_of_string ip))
                           else ip in
                sign s ++ ip' ++ (if Nat.eqb (S k) 0 then "" else "." ++ fp))%string
               = (head ++ "." ++ frac)%string /\
               String.length frac = S k /\ all_digits frac = true) as H.
  { intros s n d. cbv zeta. cbn [Nat.eqb].
    set (ds := zero_pad (S (S k)) (dec_string (round_half_even n d))).
    assert (S (S k) <= String.length ds)%nat as Hlen.
    { unfold ds, zero_pad. rewrite append_length, zeros_length. lia. }
    assert (all_digits ds = true) as Hd.
    { unfold ds, zero_pad. apply all_digits_append;
        [apply all_digits_zeros | apply all_digits_dec_string]. }
    eexists. exists (substring (String.length ds - S k) (S k) ds).
    split; [symmetry; apply append_assoc|].
    split; [apply substring_length; lia | now apply substring_digits]. }
  destruct (Prim2SF x) as [s | s | | s m e]; try discriminate.
  - apply (H s 0 1).
  - apply (H s (mag_num m e * 10 ^ Z.of_nat (S k)) (mag_den e)).
Qed.

Lemma printed_number_has_its_decimals_witness :
  exists head frac : string,
    format_f 2 true false 1234.5%float = (head ++ "." ++ frac)%string /\
    String.length frac = 2%nat /\ all_digits frac = true.
Proof.
  refine (printed_number_has_its_decimals 1 true false 1234.5%float _ _).
  vm_compute. reflexivity.
Defined.

(** X7. Drawing the valid-till text is idempotent: the day-month-year text
    it produces is rejected by [strptime] for "%Y-%m-%d" (its third
    character is the dash), so a date that is "already formatted" (line
    468) passes through unchanged. *)
Theorem valid_till_fmt_is_idempotent (valid_till : string) :
  valid_till_fmt (valid_till_fmt valid_till) = valid_till_fmt valid_till.
Proof.
  unfold valid_till_fmt at 2 3.
  destruct (strptime_Ymd valid_till) as [dt|e] eqn:E.
  - unfold valid_till_fmt. now rewrite DateFacts.strptime_dmY_raises.
  - unfold valid_till_fmt. now rewrite E.
Qed.

End RenderFacts.

(* ================================================================== *)
(** ** The quotation number and the name of the generated file *)

Module NamingFacts.
Import PyFloat PyStr Dates History Persist Props.

(** X8. The quotation number of lines 405-409 is never blank: it is the
    submitted number without its surrounding white space, or "LSY/001" when
    nothing else is left, and in both cases it is non-empty and carries no
    surrounding white space itself. *)
Theorem quotation_no_is_never_blank (quotation_number : string) :
  quotation_no quotation_number <> "" /\
  strip (quotation_no quotation_number) = quotation_no quotation_number /\
  (strip quotation_number = "" -> quotation_no quotation_number = "LSY/001") /\
  (strip quotation_number <> "" ->
   quotation_no quotation_number = strip quotation_number).
Proof.
  unfold quotation_no.
  destruct (String.eqb (strip quotation_number) "") eqn:E.
  - apply String.eqb_eq in E. split; [discriminate|]. split; [vm_compute; reflexivity|].
    split; [reflexivity|]. intros H. now elim H.
  - apply String.eqb_neq in E. repeat split; try assumption.
    + apply StrFacts.strip_idem.
    + intros H. now elim E.
Qed.

(** A number between no-break spaces, and one made of white space only. *)
Lemma quotation_no_is_never_blank_witness :
  quotation_no (of_code_points [160; 81; 49; 160; 32]) = "Q1" /\
  quotation_no (of_code_points [160; 8195; 9]) = "LSY/001".
Proof.
  split.
  - refine (eq_trans
              (proj2 (proj2 (proj2 (quotation_no_is_never_blank
                                      (of_code_points [160; 81; 49; 160; 32])))) _) _).
    + vm_compute. discriminate.
    + vm_compute. reflexivity.
  - refine (proj1 (proj2 (proj2 (quotation_no_is_never_blank
                                   (of_code_points [160; 8195; 9])))) _).
    vm_compute. reflexivity.
Defined.

(** *** The file name *)

Lemma append_inv_head (p a b : string) : (p ++ a = p ++ b)%string -> a = b.
Proof. induction p as [|c p IH]; cbn; [auto|]. intros [= H]. auto. Qed.

Lemma append_inj_tail (a b c d : string) :
  (a ++ b = c ++ d)%string -> String.length b = String.length d -> a = c /\ b = d.
Proof.
  revert c. induction a as [|x a IH]; intros [|y c]; cbn; intros H Hlen.
  - now split.
  - exfalso. apply (f_equal String.length) in H. cbn in H.
    rewrite RenderFacts.append_length in H. lia.
  - exfalso. apply (f_equal String.length) in H. cbn in H.
    rewrite RenderFacts.append_length in H. lia.
  - injection H as -> H. destruct (IH c H Hlen) as [-> ->]. now split.
Qed.

Lemma digit_char_inj (a b : Z) :
  digit_char (a mod 10) = digit_char (b mod 10) -> a mod 10 = b mod 10.
Proof.
  intros H. apply (f_equal byte) in H.
  rewrite !DateFacts.byte_digit_char in H by apply DateFacts.mod10_digit. lia.
Qed.

Lemma two_digits_inj (a b : Z) :
  0 <= a <= 99 -> 0 <= b <= 99 -> two_digits a = two_digits b -> a = b.
Proof.
  unfold two_digits. intros Ha Hb [= H1 H2].
  apply digit_char_inj in H1, H2.
  pose proof (Z.div_mod a 10 ltac:(lia)). pose proof (Z.div_mod b 10 ltac:(lia)).
  assert (a / 10 mod 10 = a / 10)
    by (apply Z.mod_small; split; [apply Z.div_pos | apply Z.div_lt_upper_bound]; lia).
  assert (b / 10 mod 10 = b / 10)
    by (apply Z.mod_small; split; [apply Z.div_pos | apply Z.div_lt_upper_bound]; lia).
  lia.
Qed.

Lemma to_uint_nonnil (n : N) : N.to_uint n <> Decimal.Nil.
Proof.
  destruct n as [|p]; [discriminate|]. apply DecimalPos.Unsigned.to_uint_nonnil.
Qed.

(** The decimal text of a natural number determines it. *)
Lemma dec_string_inj (a b : Z) : 0 <= a -> 0 <= b -> dec_string a = dec_string b -> a = b.
Proof.
  unfold dec_string. intros Ha Hb H.
  apply (f_equal NilZero.uint_of_string) in H.
  rewrite !NilZero.usu in H by apply to_uint_nonnil.
  injection H as H. apply DecimalN.Unsigned.to_uint_inj in H. lia.
Qed.

Lemma digits_have_no (c : ascii) (s : string) :
  is_digit c = false -> all_digits s = true -> has_char c s = false.
Proof.
  intros Hc. induction s as [|x s IH]; cbn [all_digits has_char]; [reflexivity|].
  intros H. apply andb_prop in H as [Hx Hs]. rewrite (IH Hs), orb_false_r.
  destruct (Ascii.eqb x c) eqn:E; [|reflexivity].
  apply Ascii.eqb_eq in E. subst. congruence.
Qed.

Lemma has_char_append (c : ascii) (a b : string) :
  has_char c (a ++ String c b) = true.
Proof.
  induction a as [|x a IH]; cbn [append has_char].
  - now rewrite Ascii.eqb_refl.
  - now rewrite IH, orb_true_r.
Qed.

(** A text splits in one way at its last occurrence of a character. *)
Lemma split_last (c : ascii) (a1 a2 y1 y2 : string) :
  has_char c y1 = false -> has_char c y2 = false ->
  (a1 ++ String c y1 = a2 ++ String c y2)%string -> a1 = a2 /\ y1 = y2.
Proof.
  intros H1 H2. revert a2. induction a1 as [|x a1 IH]; intros [|z a2]; cbn [append].
  - intros [= ->]. now split.
  - intros [= <- ->]. now rewrite has_char_append in H1.
  - intros [= -> <-]. now rewrite has_char_append in H2.
  - intros [= -> H]. destruct (IH a2 H) as [-> ->]. now split.
Qed.

Lemma split_last_before (c : ascii) (a1 a2 y1 y2 t1 t2 : string) :
  String.length t1 = String.length t2 ->
  has_char c y1 = false -> has_char c y2 = false ->
  (a1 ++ String c (y1 ++ t1) = a2 ++ String c (y2 ++ t2))%string ->
  a1 = a2 /\ y1 = y2 /\ t1 = t2.
Proof.
  intros Hl H1 H2 H.
  assert (forall a y t, (a ++ String c (y ++ t) = (a ++ String c y) ++ t)%string) as Hs
    by (intros; rewrite RenderFacts.append_assoc; reflexivity).
  rewrite !Hs in H. apply append_inj_tail in H as [H Ht]; [|exact Hl].
  apply split_last in H as [Ha Hy]; auto.
Qed.

(** The path of lines 413-415, cut at the dash before the year. *)
Lemma pdf_file_shape (name : string) (now : datetime) :
  pdf_file name now =
    ("static/quotation_" ++
     (replace_spaces name ++ "_" ++ two_digits (day (dt_date now)) ++ "-" ++
      two_digits (month (dt_date now))) ++
     String "-" (dec_string (year (dt_date now)) ++
                 "_" ++ two_digits (hour now) ++ two_digits (minute now) ++
                 two_digits (second now) ++ ".pdf"))%string.
Proof.
  unfold pdf_file, file_stamp, strftime_dmY.
  rewrite !RenderFacts.append_assoc. reflexivity.
Qed.

(** X9. Two quotations are written to the same file exactly when their
    customer names agree once every space is an underscore and the clock of
    line 415 shows the same second: the file name of lines 413-415 tells
    apart nothing else, so a second quotation for "A B" (or "A_B") within
    the second overwrites the first, and any other pair of quotations gets
    two files. *)
Theorem pdf_file_collides_exactly
    (name1 name2 : string) (now1 now2 : datetime) :
  valid_datetime now1 = true -> valid_datetime now2 = true ->
  (pdf_file name1 now1 = pdf_file name2 now2 <->
   replace_spaces name1 = replace_spaces name2 /\ now1 = now2).
Proof.
  intros V1 V2. split.
  - rewrite !pdf_file_shape. intros H. apply append_inv_head in H.
    destruct now1 as [[y1 m1 d1] h1 mi1 s1], now2 as [[y2 m2 d2] h2 mi2 s2].
    unfold valid_datetime in V1, V2.
    cbn [dt_date hour minute second year month day] in *.
    do 6 (apply andb_prop in V1 as [V1 ?]). do 6 (apply andb_prop in V2 as [V2 ?]).
    apply DateFacts.valid_date_bounds in V1, V2.
    repeat match goal with
           | H : (_ <=? _) = true |- _ => apply Z.leb_le in H
           end.
    apply split_last_before in H as (Hn & Hy & Ht);
      [ | reflexivity
        | apply digits_have_no; [reflexivity | apply RenderFacts.all_digits_dec_string]
        | apply digits_have_no; [reflexivity | apply RenderFacts.all_digits_dec_string] ].
    apply dec_string_inj in Hy; try lia.
    apply append_inj_tail in Hn as [Hn Hdm]; [|reflexivity].
    assert (two_digits d1 = two_digits d2 /\ two_digits m1 = two_digits m2 /\
            two_digits h1 = two_digits h2 /\ two_digits mi1 = two_digits mi2 /\
            two_digits s1 = two_digits s2) as (Hd & Hm & Hh & Hmi & Hs).
    { unfold two_digits in *. cbn [append] in Hdm, Ht.
      injection Hdm as -> -> -> ->. injection Ht as -> -> -> -> -> ->. repeat split. }
    apply two_digits_inj in Hd, Hm, Hh, Hmi, Hs; try lia.
    split; [assumption | now subst].
  - intros [Hn ->]. unfold pdf_file. now rewrite Hn.
Qed.

Lemma pdf_file_collides_exactly_witness :
  let now := {| dt_date := {| year := 2025; month := 1; day := 2 |};
                hour := 9; minute := 5; second := 7 |} in
  pdf_file "Acme Steel" now = pdf_file "Acme_Steel" now.
Proof.
  intros now.
  exact (proj2 (pdf_file_collides_exactly "Acme Steel" "Acme_Steel" now now
                  eq_refl eq_refl) (conj eq_refl eq_refl)).
Defined.

Lemma has_slash_append (a b : string) :
  has_slash (a ++ b) = has_slash a || has_slash b.
Proof.
  induction a as [|c a IH]; cbn; [reflexivity|]. now rewrite IH, orb_assoc.
Qed.

Lemma has_slash_replace_spaces (s : string) :
  has_slash (replace_spaces s) = has_slash s.
Proof.
  induction s as [|c s IH]; cbn; [reflexivity|]. rewrite IH. f_equal.
  destruct (Ascii.eqb c " ") eqn:E; [|reflexivity].
  apply Ascii.eqb_eq in E. now subst.
Qed.

Lemma has_slash_has_char (s : string) : has_slash s = has_char "/" s.
Proof. induction s as [|c s IH]; cbn; [reflexivity | now rewrite IH]. Qed.

Lemma digit_char_no_slash (z : Z) : Ascii.eqb (digit_char (z mod 10)) "/" = false.
Proof.
  pose proof (DateFacts.mod10_digit z) as H. revert H. generalize (z mod 10). intros d Hd.
  assert (d = 0 \/ d = 1 \/ d = 2 \/ d = 3 \/ d = 4 \/ d = 5 \/ d = 6 \/ d = 7 \/
          d = 8 \/ d = 9) as H by lia.
  repeat (destruct H as [-> | H]; [reflexivity|]). now subst.
Qed.

Lemma file_stamp_no_slash (t : datetime) : has_slash (file_stamp t) = false.
Proof.
  unfold file_stamp, strftime_dmY, two_digits. cbn [append has_slash].
  rewrite !digit_char_no_slash. cbn [orb Ascii.eqb Bool.eqb].
  rewrite has_slash_append, has_slash_has_char.
  rewrite (digits_have_no "/" _ eq_refl (RenderFacts.all_digits_dec_string _)).
  cbn [orb has_slash]. now rewrite !digit_char_no_slash.
Qed.

Lemma basename_no_slash (s : string) : has_slash s = false -> basename s = s.
Proof.
  destruct s as [|c s]; cbn; [reflexivity|]. now intros ->.
Qed.

(** X10. When the customer name holds no "/", the file name stored in the
    history record (line 621) is the generated path without its "static/",
    and [os.path.join("static", ...)] of [delete_history] and
    [download_pdf] leads back to exactly the path the document was written
    to. *)
Theorem recorded_file_leads_back_to_pdf (name : string) (now : datetime) :
  has_slash name = false ->
  basename (pdf_file name now) =
    ("quotation_" ++ replace_spaces name ++ "_" ++ file_stamp now ++ ".pdf")%string /\
  static_path (basename (pdf_file name now)) = pdf_file name now.
Proof.
  intros Hn.
  assert (has_slash ("quotation_" ++ replace_spaces name ++ "_" ++ file_stamp now ++ ".pdf")
          = false) as Hs.
  { cbn [append has_slash Ascii.eqb Bool.eqb orb].
    rewrite has_slash_append, has_slash_replace_spaces, Hn. cbn [append has_slash orb Ascii.eqb Bool.eqb].
    rewrite has_slash_append, file_stamp_no_slash. reflexivity. }
  assert (basename (pdf_file name now) =
          ("quotation_" ++ replace_spaces name ++ "_" ++ file_stamp now ++ ".pdf")%string)
    as Hb.
  { unfold pdf_file.
    change ("static/quotation_" ++ replace_spaces name ++ "_" ++ file_stamp now ++ ".pdf")%string
      with ("static/" ++ ("quotation_" ++ replace_spaces name ++ "_" ++ file_stamp now ++ ".pdf"))%string.
    set (r := ("quotation_" ++ _)%string) in *.
    cbn [append basename has_slash Ascii.eqb Bool.eqb orb andb].
    rewrite ?orb_true_r. cbn [orb]. now apply basename_no_slash. }
  split; [exact Hb|]. rewrite Hb. reflexivity.
Qed.

Lemma recorded_file_leads_back_to_pdf_witness :
  let now := {| dt_date := {| year := 2025; month := 1; day := 2 |};
                hour := 9; minute := 5; second := 7 |} in
  static_path (basename (pdf_file "Acme Steel" now)) = pdf_file "Acme Steel" now.
Proof.
  intros now. exact (proj2 (recorded_file_leads_back_to_pdf "Acme Steel" now eq_refl)).
Defined.

End NamingFacts.

(* ================================================================== *)
(** ** Composing the operations on the history log *)

Module LogFacts.
Import PyFloat Calc Dates History Persist Documents Props.

Lemma forallb_cons_inv {A : Type} (p : A -> bool) (x : A) (l : list A) :
  forallb p (x :: l) = true -> p x = true /\ forallb p l = true.
Proof. cbn. apply andb_prop. Qed.

(** On a list of records the comprehension of line 681 is [filter]. *)
Lemma owned_by_dicts (uid : Z) (l : list json) :
  forallb is_dict l = true -> owned_by uid l = Ok (filter (owner_is uid) l).
Proof.
  induction l as [|h l IH]; intros Hd; [reflexivity|].
  apply forallb_cons_inv in Hd as [Hh Hl].
  destruct h; try discriminate. cbn [owned_by py_get bind filter owner_is].
  rewrite (IH Hl). cbn [bind]. reflexivity.
Qed.

Lemma view_history_dicts (s : session) (w : world) (uid : Z) (l : list json) :
  current_user s = Some uid ->
  history_file w = Content (JList l) ->
  forallb is_dict l = true ->
  view_history s w = (Ok (HistoryPage (filter (owner_is uid) l)), w).
Proof.
  intros Hu Hf Hd. rewrite (HistoryFacts.view_history_list s w uid l Hu Hf).
  now rewrite (owned_by_dicts uid l Hd).
Qed.

(** X11. When the history file holds a list of records, the history page
    of a logged-in user is exactly the records whose [user_id] equals the
    user's id, in the order of the file, and the file is left as it is; a
    record without [user_id], or with [null] there, is skipped without an
    error and so is listed for nobody. *)
Theorem history_page_is_the_owner_filter
    (s : session) (w : world) (uid : Z) (l : list json) :
  current_user s = Some uid ->
  history_file w = Content (JList l) ->
  forallb is_dict l = true ->
  view_history s w = (Ok (HistoryPage (filter (owner_is uid) l)), w) /\
  forall kvs,
    dict_get kvs "user_id" = None \/ dict_get kvs "user_id" = Some JNull ->
    ~ In (JDict kvs) (filter (owner_is uid) l).
Proof.
  intros Hu Hf Hd. split; [now apply view_history_dicts|].
  intros kvs Hk Hin. apply filter_In in Hin as [_ Ho]. cbn in Ho.
  destruct Hk as [Hk | Hk]; rewrite Hk in Ho; discriminate.
Qed.

Lemma history_page_is_the_owner_filter_witness :
  let mine := JDict [("file", JStr "a.pdf"); ("user_id", JInt 7)] in
  let orphan := JDict [("file", JStr "b.pdf"); ("user_id", JNull)] in
  let w := {| history_file := Content (JList [orphan; mine]); files := [] |} in
  view_history {| logged_in := true; user_id := Some 7 |} w =
    (Ok (HistoryPage [mine]), w).
Proof.
  intros mine orphan w.
  exact (proj1 (history_page_is_the_owner_filter
                  {| logged_in := true; user_id := Some 7 |} w 7 [orphan; mine]
                  eq_refl eq_refl eq_refl)).
Defined.

Lemma append_history_list (entry : json) (w : world) (l : list json) :
  load_or_empty (history_file w) = JList l ->
  append_history entry w =
    (Ok tt, {| history_file := Content (JList (entry :: l)); files := files w |}).
Proof. intros H. unfold append_history. now rewrite H. Qed.

(** X12. A recorded quotation goes in front of the log (lines 650-659):
    right after, the history page of the user whose id the record carries
    shows it first, followed by the page as it was; the page of every other
    user is unchanged, and a record written without a user id in the
    session is listed for nobody. *)
Theorem recorded_quotation_is_listed_first
    (s : session) (w : world) (uid : Z) (l : list json)
    (user : option Z) (f : form) (date_now file_now : datetime) (total : Z) :
  current_user s = Some uid ->
  load_or_empty (history_file w) = JList l ->
  forallb is_dict l = true ->
  let entry := history_entry user f date_now file_now total in
  let w' := snd (append_history entry w) in
  let page := filter (owner_is uid) l in
  fst (append_history entry w) = Ok tt /\
  view_history s w' =
    (Ok (HistoryPage match user with
                     | Some u => if u =? uid then entry :: page else page
                     | None => page
                     end), w').
Proof.
  intros Hu Hl Hd entry w' page. subst w'.
  rewrite (append_history_list entry w l Hl). cbn [fst snd].
  split; [reflexivity|].
  match goal with
  | |- context [view_history s ?w1] =>
      rewrite (view_history_dicts s w1 uid (entry :: l) Hu eq_refl)
        by (cbn [forallb]; now rewrite Hd)
  end.
  cbn [filter]. unfold entry at 1, history_entry, owner_is.
  cbn [dict_get String.eqb Ascii.eqb Bool.eqb].
  destruct user as [u|]; cbn [json_opt_int eq_int]; [|reflexivity].
  destruct (u =? uid); reflexivity.
Qed.

Lemma recorded_quotation_is_listed_first_witness :
  let f := {| customer_name := "Acme Steel"; customer_address := "1 Mill Road";
              customer_city := "Pune"; shipping_name := "Acme Steel";
              shipping_address := "1 Mill Road"; shipping_city := "Pune";
              company_name := "LSY"; company_address := "2 Market Street";
              company_email := "sales@lsy.example"; company_phone := "0123456789";
              company_gst := "27ABCDE1234F1Z5"; bank_name := "Bank"; account_name := "LSY";
              account_number := "000111222"; ifsc_code := "BANK0001"; valid_till := "2025-02-01";
              product_name := ["Bolt"]; description := None; quantity := [2%float];
              unit_price := [50%float]; loading_charge := None;
              transportation_charge := None; note := None; quotation_number := "" |} in
  let now := {| dt_date := {| year := 2025; month := 1; day := 2 |};
                hour := 9; minute := 5; second := 7 |} in
  let entry := history_entry (Some 7) f now now 118 in
  let old := JDict [("file", JStr "a.pdf"); ("user_id", JInt 7)] in
  let w := {| history_file := Content (JList [old]); files := [] |} in
  fst (view_history {| logged_in := true; user_id := Some 7 |}
         (snd (append_history entry w))) = Ok (HistoryPage [entry; old]).
Proof.
  intros f now entry old w.
  exact (f_equal fst
           (proj2 (recorded_quotation_is_listed_first
                     {| logged_in := true; user_id := Some 7 |} w 7 [old]
                     (Some 7) f now now 118 eq_refl eq_refl eq_refl))).
Defined.

(** X13. Re-editing gives back what was submitted: right after a quotation
    is recorded, [edit_quotation] at index 0 hands the form the snapshot of
    that quotation, in which every text field, the item lists and the note
    are the submitted ones, the two charges are the floats the calculator
    used (0.0 for an absent or zero charge) and an absent description list
    is the list of empty strings that replaced it. *)
Theorem edit_after_generate_returns_the_form
    (w : world) (l : list json) (user : option Z) (f : form)
    (date_now file_now : datetime) (total : Z) :
  load_or_empty (history_file w) = JList l ->
  let w' := snd (append_history (history_entry user f date_now file_now total) w) in
  edit_quotation_prefill 0 w' = inr (form_data f) /\
  exists data,
    form_data f = JDict data /\
    dict_get data "company_name" = Some (JStr (company_name f)) /\
    dict_get data "company_address" = Some (JStr (company_address f)) /\
    dict_get data "company_email" = Some (JStr (company_email f)) /\
    dict_get data "company_phone" = Some (JStr (company_phone f)) /\
    dict_get data "company_gst" = Some (JStr (company_gst f)) /\
    dict_get data "customer_name" = Some (JStr (customer_name f)) /\
    dict_get data "customer_address" = Some (JStr (customer_address f)) /\
    dict_get data "customer_city" = Some (JStr (customer_city f)) /\
    dict_get data "shipping_name" = Some (JStr (shipping_name f)) /\
    dict_get data "shipping_address" = Some (JStr (shipping_address f)) /\
    dict_get data "shipping_city" = Some (JStr (shipping_city f)) /\
    dict_get data "account_name" = Some (JStr (account_name f)) /\
    dict_get data "account_number" = Some (JStr (account_number f)) /\
    dict_get data "ifsc_code" = Some (JStr (ifsc_code f)) /\
    dict_get data "bank_name" = Some (JStr (bank_name f)) /\
    dict_get data "valid_till" = Some (JStr (valid_till f)) /\
    dict_get data "note" = Some (json_opt_string (note f)) /\
    dict_get data "loading_charge" = Some (JFloat (charge (loading_charge f))) /\
    dict_get data "transportation_charge" =
      Some (JFloat (charge (transportation_charge f))) /\
    dict_get data "product_name" = Some (JList (map JStr (product_name f))) /\
    dict_get data "description" =
      Some (JList (map JStr (default_description (product_name f) (description f)))) /\
    dict_get data "quantity" = Some (JList (map JFloat (quantity f))) /\
    dict_get data "unit_price" = Some (JList (map JFloat (unit_price f))).
Proof.
  intros Hl w'. subst w'. rewrite (append_history_list _ w l Hl). cbn [snd].
  split; [reflexivity|]. eexists. split; [reflexivity|]. repeat split.
Qed.

Lemma edit_after_generate_returns_the_form_witness :
  let f := {| customer_name := "Acme Steel"; customer_address := "1 Mill Road";
              customer_city := "Pune"; shipping_name := "Acme Steel";
              shipping_address := "1 Mill Road"; shipping_city := "Pune";
              company_name := "LSY"; company_address := "2 Market Street";
              company_email := "sales@lsy.example"; company_phone := "0123456789";
              company_gst := "27ABCDE1234F1Z5"; bank_name := "Bank"; account_name := "LSY";
              account_number := "000111222"; ifsc_code := "BANK0001"; valid_till := "2025-02-01";
              product_name := ["Bolt"]; description := None; quantity := [2%float];
              unit_price := [50%float]; loading_charge := None;
              transportation_charge := None; note := None; quotation_number := "" |} in
  let now := {| dt_date := {| year := 2025; month := 1; day := 2 |};
                hour := 9; minute := 5; second := 7 |} in
  let w := {| history_file := Missing; files := [] |} in
  edit_quotation_prefill 0 (snd (append_history (history_entry None f now now 118) w)) =
    inr (form_data f).
Proof.
  intros f now w.
  exact (proj1 (edit_after_generate_returns_the_form w [] None f now now 118 eq_refl)).
Defined.

(** X14. Recording over a history file that is absent or that [json.load]
    rejects starts a new log holding the new record alone, whatever the
    unreadable file held; recording over a JSON document that is no list
    raises [AttributeError] on [insert] and leaves the file as it is. *)
Theorem recording_over_a_bad_history_file (entry : json) (w : world) :
  (history_file w = Missing \/ history_file w = Unparseable ->
   append_history entry w =
     (Ok tt, {| history_file := Content (JList [entry]); files := files w |})) /\
  (forall v, history_file w = Content v -> (forall l, v <> JList l) ->
   append_history entry w = (Raise AttributeError, w)).
Proof.
  split.
  - intros [H | H]; unfold append_history; rewrite H; reflexivity.
  - intros v H Hv. unfold append_history. rewrite H. cbn [load_or_empty].
    destruct v; try reflexivity. now elim (Hv l).
Qed.

Lemma recording_over_a_bad_history_file_witness :
  append_history JNull {| history_file := Unparseable; files := [] |} =
    (Ok tt, {| history_file := Content (JList [JNull]); files := [] |}) /\
  append_history JNull {| history_file := Content (JDict []); files := [] |} =
    (Raise AttributeError, {| history_file := Content (JDict []); files := [] |}).
Proof.
  split.
  - exact (proj1 (recording_over_a_bad_history_file JNull
                    {| history_file := Unparseable; files := [] |}) (or_intror eq_refl)).
  - refine (proj2 (recording_over_a_bad_history_file JNull
                     {| history_file := Content (JDict []); files := [] |})
                  (JDict []) eq_refl _).
    intros l. discriminate.
Defined.

(** X15. Deleting index 0 right after a quotation was recorded undoes the
    recording: the log is the list it was before, and the document the
    record names is no longer among the files. *)
Theorem delete_undoes_recording
    (entry : json) (name : string) (w : world) (l : list json) :
  history_file w = Content (JList l) ->
  file_of entry = Ok name ->
  delete_history 0 (snd (append_history entry w)) =
    (Ok (Redirect "/history"),
     {| history_file := Content (JList l);
        files := remove_file (static_path name) (files w) |}).
Proof.
  intros Hf Hname.
  rewrite (append_history_list entry w l) by (now rewrite Hf). cbn [snd].
  rewrite (HistoryFacts.delete_history_at
             {| history_file := Content (JList (entry :: l)); files := files w |}
             (entry :: l) 0 0%nat entry name eq_refl eq_refl eq_refl Hname).
  cbn [remove_at files]. do 2 f_equal.
  destruct (exists_file (static_path name) (files w)) eqn:E; [reflexivity|].
  unfold exists_file in E. unfold remove_file.
  induction (files w) as [|p ps IH]; [reflexivity|].
  cbn [existsb] in E. apply orb_false_elim in E as [E1 E2].
  cbn [filter]. rewrite E1. cbn [negb]. f_equal. now apply IH.
Qed.

Lemma delete_undoes_recording_witness :
  let entry := JDict [("file", JStr "quotation_A_02-01-2025_090507.pdf");
                      ("user_id", JInt 7)] in
  let w := {| history_file := Content (JList []);
              files := ["static/quotation_A_02-01-2025_090507.pdf"] |} in
  delete_history 0 (snd (append_history entry w)) =
    (Ok (Redirect "/history"), {| history_file := Content (JList []); files := [] |}).
Proof.
  intros entry w.
  exact (delete_undoes_recording entry "quotation_A_02-01-2025_090507.pdf" w []
           eq_refl eq_refl).
Defined.

Lemma filter_remove_at {A : Type} (p : A -> bool) (l : list A) :
  forall (i : nat) (x : A),
    nth_error l i = Some x ->
    filter p (remove_at i l) =
      if p x then remove_at (List.length (filter p (firstn i l))) (filter p l)
      else filter p l.
Proof.
  induction l as [|a l IH]; intros [|i] x Hx; cbn in Hx; try discriminate.
  - injection Hx as ->. cbn [remove_at firstn filter List.length].
    destruct (p x); reflexivity.
  - cbn [remove_at firstn filter]. rewrite (IH i x Hx).
    destruct (p a), (p x); reflexivity.
Qed.

(** X16. [delete_history] counts positions in the whole log, not in a
    user's page: removing the record at position i of the log takes from
    its owner's page the entry at the position that counts only the owner's
    records before i, and it leaves the page of every other user exactly
    as it was. *)
Theorem delete_changes_only_the_owners_page
    (s : session) (uid : Z) (w : world) (l : list json) (index : Z) (i : nat)
    (entry : json) (name : string) :
  current_user s = Some uid ->
  history_file w = Content (JList l) ->
  forallb is_dict l = true ->
  position (List.length l) index = Some i ->
  nth_error l i = Some entry ->
  file_of entry = Ok name ->
  let page := filter (owner_is uid) l in
  fst (view_history s w) = Ok (HistoryPage page) /\
  fst (view_history s (snd (delete_history index w))) =
    Ok (HistoryPage
          (if owner_is uid entry
           then remove_at (List.length (filter (owner_is uid) (firstn i l))) page
           else page)).
Proof.
  intros Hu Hf Hd Hp Hn Hname page.
  rewrite (view_history_dicts s w uid l Hu Hf Hd).
  rewrite (HistoryFacts.delete_history_at w l index i entry name Hf Hp Hn Hname).
  cbn [fst snd]. split; [reflexivity|].
  match goal with
  | |- context [view_history s ?w1] =>
      rewrite (HistoryFacts.view_history_list s w1 uid (remove_at i l) Hu eq_refl)
  end.
  cbn [fst]. rewrite owned_by_dicts.
  - cbn [fmap bind]. now rewrite (filter_remove_at (owner_is uid) l i entry Hn).
  - clear - Hd. revert i. induction l as [|a l IH]; intros [|i]; cbn [remove_at]; auto.
    + apply forallb_cons_inv in Hd as [_ Hl]. exact Hl.
    + apply forallb_cons_inv in Hd as [Ha Hl]. cbn [forallb]. rewrite Ha. now apply IH.
Qed.

Lemma delete_changes_only_the_owners_page_witness :
  let a := JDict [("file", JStr "a.pdf"); ("user_id", JInt 8)] in
  let b := JDict [("file", JStr "b.pdf"); ("user_id", JInt 7)] in
  let c := JDict [("file", JStr "c.pdf"); ("user_id", JInt 7)] in
  let w := {| history_file := Content (JList [a; b; c]); files := [] |} in
  fst (view_history {| logged_in := true; user_id := Some 7 |}
         (snd (delete_history 1 w))) = Ok (HistoryPage [c]) /\
  fst (view_history {| logged_in := true; user_id := Some 8 |}
         (snd (delete_history 1 w))) = Ok (HistoryPage [a]).
Proof.
  intros a b c w. split.
  - exact (proj2 (delete_changes_only_the_owners_page
                    {| logged_in := true; user_id := Some 7 |} 7 w [a; b; c] 1 1%nat b
                    "b.pdf" eq_refl eq_refl eq_refl eq_refl eq_refl eq_refl)).
  - exact (proj2 (delete_changes_only_the_owners_page
                    {| logged_in := true; user_id := Some 8 |} 8 w [a; b; c] 1 1%nat b
                    "b.pdf" eq_refl eq_refl eq_refl eq_refl eq_refl eq_refl)).
Defined.

Lemma exists_file_remove (path p : string) (fs : list string) :
  exists_file p (remove_file path fs) =
  if String.eqb path p then false else exists_file p fs.
Proof.
  unfold exists_file, remove_file. induction fs as [|x fs IH]; cbn [filter existsb].
  - now destruct (String.eqb path p).
  - destruct (String.eqb path x) eqn:Ex; cbn [negb existsb]; rewrite IH;
      destruct (String.eqb path p) eqn:Ep; try reflexivity.
    + apply String.eqb_eq in Ex. subst x.
      replace (String.eqb p path) with (String.eqb path p) by apply String.eqb_sym.
      now rewrite Ep.
    + apply String.eqb_eq in Ep. subst p. now rewrite Ex.
Qed.

Lemma remove_at_length {A : Type} (l : list A) (i : nat) :
  (i < List.length l)%nat -> S (List.length (remove_at i l)) = List.length l.
Proof.
  revert i. induction l as [|a l IH]; intros [|i] Hi; cbn in *; try lia.
  rewrite IH; lia.
Qed.

(** X17. A successful [delete_history] removes one record and one
    document: the log is shorter by exactly one, no file is left at the path
    [os.path.join("static", file)] of the removed record, and every other
    file is there exactly if it was there before. *)
Theorem delete_removes_one_record_and_its_pdf
    (w : world) (l : list json) (index : Z) (i : nat) (entry : json) (name : string) :
  history_file w = Content (JList l) ->
  position (List.length l) index = Some i ->
  nth_error l i = Some entry ->
  file_of entry = Ok name ->
  let w' := snd (delete_history index w) in
  (exists l', history_file w' = Content (JList l') /\
              S (List.length l') = List.length l) /\
  exists_file (static_path name) (files w') = false /\
  forall p, p <> static_path name -> exists_file p (files w') = exists_file p (files w).
Proof.
  intros Hf Hp Hn Hname w'. subst w'.
  rewrite (HistoryFacts.delete_history_at w l index i entry name Hf Hp Hn Hname).
  cbn [snd history_file files].
  split; [|split].
  - exists (remove_at i l). split; [reflexivity|].
    apply remove_at_length. apply (HistoryFacts.position_lt _ _ _ Hp).
  - destruct (exists_file (static_path name) (files w)) eqn:E; [|exact E].
    rewrite exists_file_remove. now rewrite String.eqb_refl.
  - intros p Hne.
    destruct (exists_file (static_path name) (files w)) eqn:E; [|reflexivity].
    rewrite exists_file_remove.
    destruct (String.eqb (static_path name) p) eqn:Ep; [|reflexivity].
    apply String.eqb_eq in Ep. now elim Hne.
Qed.

Lemma delete_removes_one_record_and_its_pdf_witness :
  let a := JDict [("file", JStr "a.pdf"); ("user_id", JInt 8)] in
  let b := JDict [("file", JStr "b.pdf"); ("user_id", JInt 7)] in
  let w := {| history_file := Content (JList [a; b]);
              files := ["static/a.pdf"; "static/b.pdf"] |} in
  exists_file "static/b.pdf" (files (snd (delete_history (-1) w))) = false.
Proof.
  intros a b w.
  exact (proj1 (proj2 (delete_removes_one_record_and_its_pdf w [a; b] (-1) 1%nat b "b.pdf"
                         eq_refl eq_refl eq_refl eq_refl))).
Defined.

(** X18. [delete_history] does nothing but redirect to the history list
    when the history file is absent and when the index is at or past the
    end of what the file holds (for an unreadable file: any index from 0
    on): the file and the documents stay as they are. *)
Theorem delete_without_target_changes_nothing (w : world) (index : Z) :
  (history_file w = Missing ->
   delete_history index w = (Ok (Redirect "/history"), w)) /\
  (history_file w = Unparseable -> 0 <= index ->
   delete_history index w = (Ok (Redirect "/history"), w)) /\
  (forall n, py_len (load_or_empty (history_file w)) = Ok n -> n <= index ->
   delete_history index w = (Ok (Redirect "/history"), w)).
Proof.
  split; [|split].
  - intros H. unfold delete_history. now rewrite H.
  - intros H Hi. apply (HistoryFacts.delete_history_past_end w index 0); [|assumption].
    now rewrite H.
  - intros n Hn Hle. now apply (HistoryFacts.delete_history_past_end w index n).
Qed.

Lemma delete_without_target_changes_nothing_witness :
  let w := {| history_file := Content (JList [JDict [("file", JStr "a.pdf")]]);
              files := ["static/a.pdf"] |} in
  delete_history 1 w = (Ok (Redirect "/history"), w).
Proof.
  intros w.
  exact (proj2 (proj2 (delete_without_target_changes_nothing w 1)) 1 eq_refl (Z.le_refl 1)).
Defined.

(** *** Downloads *)

Lemma dict_get_set_other (kvs : list (string * json)) (k k' : string) (v : json) :
  k <> k' -> dict_get (dict_set kvs k v) k' = dict_get kvs k'.
Proof.
  intros Hk. induction kvs as [|[a x] kvs IH]; cbn [dict_set dict_get].
  - apply String.eqb_neq in Hk. now rewrite Hk.
  - destruct (String.eqb a k) eqn:Ea; cbn [dict_get].
    + apply String.eqb_eq in Ea. subst a. apply String.eqb_neq in Hk. now rewrite Hk.
    + now rewrite IH.
Qed.

Lemma dict_get_set_same (kvs : list (string * json)) (k : string) (v : json) :
  dict_get (dict_set kvs k v) k = Some v.
Proof.
  induction kvs as [|[a x] kvs IH]; cbn [dict_set dict_get].
  - now rewrite String.eqb_refl.
  - destruct (String.eqb a k) eqn:Ea; cbn [dict_get]; now rewrite Ea.
Qed.

Lemma dict_set_set (kvs : list (string * json)) (k : string) (v v' : json) :
  dict_set (dict_set kvs k v) k v' = dict_set kvs k v'.
Proof.
  induction kvs as [|[a x] kvs IH]; cbn [dict_set].
  - now rewrite String.eqb_refl.
  - destruct (String.eqb a k) eqn:Ea; cbn [dict_set]; rewrite Ea; [reflexivity|].
    now rewrite IH.
Qed.

Lemma owner_is_stamped (uid : Z) (st : string) (h : json) :
  owner_is uid (stamped st h) = owner_is uid h.
Proof.
  destruct h; try reflexivity. cbn [stamped owner_is].
  now rewrite dict_get_set_other by discriminate.
Qed.

Lemma file_is_stamped (name st : string) (h : json) :
  file_is name (stamped st h) = file_is name h.
Proof.
  destruct h; try reflexivity. cbn [stamped file_is].
  now rewrite dict_get_set_other by discriminate.
Qed.

Lemma is_dict_stamped (st : string) (h : json) : is_dict (stamped st h) = is_dict h.
Proof. now destruct h. Qed.

Lemma stamped_stamped (st st' : string) (h : json) :
  stamped st' (stamped st h) = stamped st' h.
Proof. destruct h; try reflexivity. cbn [stamped]. now rewrite dict_set_set. Qed.

(** On a list of records the loop of lines 734-738 stamps the first match. *)
Lemma stamp_first_dicts (name st : string) (l : list json) :
  forallb is_dict l = true ->
  stamp_first name st l =
    Ok (option_map (fun i => update_at (stamped st) i l) (find_index (file_is name) l)).
Proof.
  induction l as [|h l IH]; intros Hd; [reflexivity|].
  apply forallb_cons_inv in Hd as [Hh Hl]. destruct h; try discriminate.
  cbn [stamp_first py_get bind find_index file_is].
  destruct (eq_str (dict_get kvs "file") name); [reflexivity|].
  rewrite (IH Hl). cbn [bind].
  destruct (find_index (file_is name) l); reflexivity.
Qed.

Lemma download_pdf_dicts (dirs : list string) (name : string) (now : datetime)
    (w : world) (l : list json) :
  path_exists dirs (static_path name) w = true ->
  history_file w = Content (JList l) ->
  forallb is_dict l = true ->
  download_pdf dirs name now w =
    (Ok (FileResponse (static_path name) name),
     match find_index (file_is name) l with
     | Some i =>
         {| history_file := Content (JList (update_at (stamped (minute_stamp now)) i l));
            files := files w |}
     | None => w
     end).
Proof.
  intros He Hf Hd. unfold download_pdf. rewrite He, Hf. cbn [negb load_or_empty py_iter bind].
  rewrite (stamp_first_dicts name _ l Hd).
  destruct (find_index (file_is name) l); reflexivity.
Qed.

Lemma update_at_nth {A : Type} (g : A -> A) (l : list A) :
  forall i j,
    nth_error (update_at g i l) j =
      if Nat.eqb i j then option_map g (nth_error l j) else nth_error l j.
Proof.
  induction l as [|a l IH]; intros [|i] [|j]; cbn; try reflexivity.
  - now destruct (Nat.eqb i j).
  - apply IH.
Qed.

Lemma update_at_length {A : Type} (g : A -> A) (l : list A) (i : nat) :
  List.length (update_at g i l) = List.length l.
Proof. revert i. induction l as [|a l IH]; intros [|i]; cbn; auto. Qed.

(** X19. A download changes nothing unless a record names the file: when
    the path does not exist the answer is the "File not found" message,
    whatever the history file holds; when it exists but the history file is
    absent or unreadable, or no record of the log names the file, the file
    is served and the log is not rewritten. *)
Theorem download_without_record_changes_nothing
    (dirs : list string) (name : string) (now : datetime) (w : world) :
  (path_exists dirs (static_path name) w = false ->
   download_pdf dirs name now w = (Ok FileNotFound, w)) /\
  (path_exists dirs (static_path name) w = true ->
   history_file w = Missing \/ history_file w = Unparseable ->
   download_pdf dirs name now w = (Ok (FileResponse (static_path name) name), w)) /\
  (forall l,
      path_exists dirs (static_path name) w = true ->
      history_file w = Content (JList l) ->
      forallb is_dict l = true ->
      find_index (file_is name) l = None ->
      download_pdf dirs name now w = (Ok (FileResponse (static_path name) name), w)).
Proof.
  split; [|split].
  - intros He. unfold download_pdf. now rewrite He.
  - intros He [Hf | Hf]; unfold download_pdf; rewrite He, Hf; reflexivity.
  - intros l He Hf Hd Hnone. rewrite (download_pdf_dicts dirs name now w l He Hf Hd).
    now rewrite Hnone.
Qed.

Lemma download_without_record_changes_nothing_witness :
  let w := {| history_file := Content (JList [JDict [("file", JStr "a.pdf")]]);
              files := ["static/a.pdf"; "static/b.pdf"] |} in
  let now := {| dt_date := {| year := 2025; month := 1; day := 2 |};
                hour := 9; minute := 5; second := 7 |} in
  download_pdf [] "c.pdf" now w = (Ok FileNotFound, w) /\
  download_pdf [] "b.pdf" now w = (Ok (FileResponse "static/b.pdf" "b.pdf"), w).
Proof.
  intros w now. split.
  - exact (proj1 (download_without_record_changes_nothing [] "c.pdf" now w) eq_refl).
  - exact (proj2 (proj2 (download_without_record_changes_nothing [] "b.pdf" now w))
             [JDict [("file", JStr "a.pdf")]] eq_refl eq_refl eq_refl eq_refl).
Defined.

(** X20. A download of an existing file stamps exactly one record, the
    first of the log whose [file] is the name asked for: that record gets
    [last_downloaded] set to the time of the download, to the minute; every
    other record, the length and order of the log and the files on disk
    stay as they are. *)
Theorem download_stamps_the_first_match
    (dirs : list string) (name : string) (now : datetime) (w : world)
    (l : list json) (i : nat) :
  path_exists dirs (static_path name) w = true ->
  history_file w = Content (JList l) ->
  forallb is_dict l = true ->
  find_index (file_is name) l = Some i ->
  exists l',
    download_pdf dirs name now w =
      (Ok (FileResponse (static_path name) name),
       {| history_file := Content (JList l'); files := files w |}) /\
    List.length l' = List.length l /\
    (exists kvs,
        nth_error l i = Some (JDict kvs) /\
        nth_error l' i =
          Some (JDict (dict_set kvs "last_downloaded" (JStr (minute_stamp now)))) /\
        dict_get (dict_set kvs "last_downloaded" (JStr (minute_stamp now)))
                 "last_downloaded" = Some (JStr (minute_stamp now))) /\
    (forall j, j <> i -> nth_error l' j = nth_error l j).
Proof.
  intros He Hf Hd Hi. exists (update_at (stamped (minute_stamp now)) i l).
  rewrite (download_pdf_dicts dirs name now w l He Hf Hd), Hi.
  split; [reflexivity|]. split; [apply update_at_length|]. split.
  - assert (exists h, nth_error l i = Some h /\ file_is name h = true) as (h & Hh & Hfile).
    { clear - Hi. revert i Hi. induction l as [|a l IH]; intros i Hi; [discriminate|].
      cbn [find_index] in Hi. destruct (file_is name a) eqn:Ea.
      - injection Hi as <-. exists a. now split.
      - destruct (find_index (file_is name) l) as [k|]; [|discriminate].
        injection Hi as <-. destruct (IH k eq_refl) as (h & H1 & H2). exists h. now split. }
    destruct h as [| | | | | |kvs]; try discriminate. exists kvs.
    split; [exact Hh|]. split; [|apply dict_get_set_same].
    rewrite update_at_nth, Nat.eqb_refl, Hh. reflexivity.
  - intros j Hj. rewrite update_at_nth.
    destruct (Nat.eqb i j) eqn:E; [|reflexivity].
    apply Nat.eqb_eq in E. now elim Hj.
Qed.

Lemma download_stamps_the_first_match_witness :
  let a := JDict [("file", JStr "a.pdf"); ("user_id", JInt 7)] in
  let w := {| history_file := Content (JList [a; a]); files := ["static/a.pdf"] |} in
  let now := {| dt_date := {| year := 2025; month := 1; day := 2 |};
                hour := 9; minute := 5; second := 7 |} in
  exists l',
    download_pdf [] "a.pdf" now w =
      (Ok (FileResponse "static/a.pdf" "a.pdf"),
       {| history_file := Content (JList l'); files := ["static/a.pdf"] |}) /\
    List.length l' = 2%nat.
Proof.
  intros a w now.
  destruct (download_stamps_the_first_match [] "a.pdf" now w [a; a] 0%nat
              eq_refl eq_refl eq_refl eq_refl) as (l' & H1 & H2 & _).
  exists l'. split; assumption.
Defined.

Lemma filter_update_at {A : Type} (p : A -> bool) (g : A -> A) (l : list A) :
  (forall x, p (g x) = p x) ->
  forall i, Forall2 (fun x y => y = x \/ y = g x) (filter p l) (filter p (update_at g i l)).
Proof.
  intros Hg. assert (forall l0 : list A, Forall2 (fun x y => y = x \/ y = g x) l0 l0) as Hrefl
    by (induction l0; constructor; auto).
  induction l as [|a l IH]; intros [|i]; cbn [update_at filter]; try constructor.
  - rewrite Hg. destruct (p a); [constructor; auto | apply Hrefl].
  - destruct (p a); [constructor; auto | apply IH].
Qed.

(** X21. A download never changes which records a user sees: after it, the
    history page of every user holds the same records in the same order,
    each one either untouched or with nothing but its download stamp set. *)
Theorem download_keeps_every_history_page
    (dirs : list string) (name : string) (now : datetime) (w : world)
    (l : list json) (s : session) (uid : Z) :
  path_exists dirs (static_path name) w = true ->
  history_file w = Content (JList l) ->
  forallb is_dict l = true ->
  current_user s = Some uid ->
  exists page page',
    fst (view_history s w) = Ok (HistoryPage page) /\
    fst (view_history s (snd (download_pdf dirs name now w))) = Ok (HistoryPage page') /\
    Forall2 (fun h h' => h' = h \/ h' = stamped (minute_stamp now) h) page page'.
Proof.
  intros He Hf Hd Hu.
  rewrite (view_history_dicts s w uid l Hu Hf Hd).
  rewrite (download_pdf_dicts dirs name now w l He Hf Hd). cbn [fst snd].
  exists (filter (owner_is uid) l).
  destruct (find_index (file_is name) l) as [i|].
  - exists (filter (owner_is uid) (update_at (stamped (minute_stamp now)) i l)).
    split; [reflexivity|]. split.
    + match goal with
      | |- context [view_history s ?w1] =>
          rewrite (view_history_dicts s w1 uid
                     (update_at (stamped (minute_stamp now)) i l) Hu eq_refl)
      end; [reflexivity|].
      clear - Hd. revert i. induction l as [|a l IH]; intros [|i]; cbn [update_at]; auto.
      * apply forallb_cons_inv in Hd as [Ha Hl]. cbn [forallb].
        now rewrite is_dict_stamped, Ha.
      * apply forallb_cons_inv in Hd as [Ha Hl]. cbn [forallb]. rewrite Ha. now apply IH.
    + apply filter_update_at. intros x. apply owner_is_stamped.
  - exists (filter (owner_is uid) l). rewrite (view_history_dicts s w uid l Hu Hf Hd).
    split; [reflexivity|]. split; [reflexivity|].
    induction (filter (owner_is uid) l); constructor; auto.
Qed.

Lemma download_keeps_every_history_page_witness :
  let a := JDict [("file", JStr "a.pdf"); ("user_id", JInt 7)] in
  let b := JDict [("file", JStr "b.pdf"); ("user_id", JInt 8)] in
  let w := {| history_file := Content (JList [a; b]); files := ["static/a.pdf"] |} in
  let now := {| dt_date := {| year := 2025; month := 1; day := 2 |};
                hour := 9; minute := 5; second := 7 |} in
  exists page page',
    fst (view_history {| logged_in := true; user_id := Some 8 |} w) =
      Ok (HistoryPage page) /\
    fst (view_history {| logged_in := true; user_id := Some 8 |}
           (snd (download_pdf [] "a.pdf" now w))) = Ok (HistoryPage page') /\
    List.length page = List.length page'.
Proof.
  intros a b w now.
  destruct (download_keeps_every_history_page [] "a.pdf" now w [a; b]
              {| logged_in := true; user_id := Some 8 |} 8
              eq_refl eq_refl eq_refl eq_refl) as (page & page' & H1 & H2 & H3).
  exists page, page'. repeat split; try assumption.
  exact (Forall2_length H3).
Defined.

Lemma find_index_update_at {A : Type} (p : A -> bool) (g : A -> A) (l : list A) :
  (forall x, p (g x) = p x) ->
  forall i, find_index p (update_at g i l) = find_index p l.
Proof.
  intros Hg. induction l as [|a l IH]; intros [|i]; cbn [update_at find_index];
    try reflexivity.
  - now rewrite Hg.
  - now rewrite IH.
Qed.

Lemma update_at_update_at {A : Type} (g g' : A -> A) (l : list A) :
  (forall x, g' (g x) = g' x) ->
  forall i, update_at g' i (update_at g i l) = update_at g' i l.
Proof.
  intros Hg. induction l as [|a l IH]; intros [|i]; cbn [update_at]; try reflexivity.
  - now rewrite Hg.
  - now rewrite IH.
Qed.

Lemma forallb_update_at (st : string) (l : list json) (i : nat) :
  forallb is_dict l = true -> forallb is_dict (update_at (stamped st) i l) = true.
Proof.
  revert i. induction l as [|a l IH]; intros [|i] Hd; cbn [update_at]; auto.
  - apply forallb_cons_inv in Hd as [Ha Hl]. cbn [forallb]. now rewrite is_dict_stamped, Ha.
  - apply forallb_cons_inv in Hd as [Ha Hl]. cbn [forallb]. rewrite Ha. now apply IH.
Qed.

(** X22. Only the latest download is remembered: downloading a file again
    overwrites the stamp of the same record, so that two downloads leave
    the log exactly as the second one alone would have. *)
Theorem second_download_overwrites_the_stamp
    (dirs : list string) (name : string) (first second : datetime) (w : world)
    (l : list json) :
  path_exists dirs (static_path name) w = true ->
  history_file w = Content (JList l) ->
  forallb is_dict l = true ->
  download_pdf dirs name second (snd (download_pdf dirs name first w)) =
  download_pdf dirs name second w.
Proof.
  intros He Hf Hd.
  rewrite (download_pdf_dicts dirs name first w l He Hf Hd). cbn [snd].
  rewrite (download_pdf_dicts dirs name second w l He Hf Hd).
  destruct (find_index (file_is name) l) as [i|] eqn:Ei.
  - rewrite (download_pdf_dicts dirs name second
               {| history_file :=
                    Content (JList (update_at (stamped (minute_stamp first)) i l));
                  files := files w |}
               (update_at (stamped (minute_stamp first)) i l) He eq_refl
               (forallb_update_at _ l i Hd)).
    rewrite find_index_update_at, Ei by (intros x; apply file_is_stamped).
    cbn [files]. now rewrite update_at_update_at by (intros x; apply stamped_stamped).
  - rewrite (download_pdf_dicts dirs name second w l He Hf Hd). now rewrite Ei.
Qed.

Lemma second_download_overwrites_the_stamp_witness :
  let a := JDict [("file", JStr "a.pdf"); ("user_id", JInt 7)] in
  let w := {| history_file := Content (JList [a]); files := ["static/a.pdf"] |} in
  let t1 := {| dt_date := {| year := 2025; month := 1; day := 2 |};
               hour := 9; minute := 5; second := 7 |} in
  let t2 := {| dt_date := {| year := 2025; month := 1; day := 3 |};
               hour := 10; minute := 0; second := 0 |} in
  download_pdf [] "a.pdf" t2 (snd (download_pdf [] "a.pdf" t1 w)) =
  download_pdf [] "a.pdf" t2 w.
Proof.
  intros a w t1 t2.
  exact (second_download_overwrites_the_stamp [] "a.pdf" t1 t2 w [a]
           eq_refl eq_refl eq_refl).
Defined.

(** *** The two edit pages *)

(** X23. For a record of the log whose document exists, [edit_pdf] shows
    the preview of that document with an edit link carrying the index it
    was asked for. For an index from 0 on, [edit_quotation] at that index
    opens the snapshot of the same record; for a negative index, which
    [edit_pdf] counts from the end of the log, the link leads to
    [edit_quotation]'s redirect to the history list instead. *)
Theorem edit_pdf_and_edit_quotation
    (dirs : list string) (w : world) (l : list json) (index : Z) (i : nat)
    (kvs : list (string * json)) (name : string) :
  history_file w = Content (JList l) ->
  position (List.length l) index = Some i ->
  nth_error l i = Some (JDict kvs) ->
  dict_get kvs "file" = Some (JStr name) ->
  path_exists dirs (static_path name) w = true ->
  edit_pdf dirs index w = Ok (EditPage (dict_get kvs "customer_name") name index) /\
  (0 <= index ->
   edit_quotation_prefill index w =
     inr match dict_get kvs "data" with
         | Some data => data
         | None => JDict []
         end) /\
  (index < 0 -> edit_quotation_prefill index w = inl (Redirect "/history")).
Proof.
  intros Hf Hp Hn Hfile He.
  destruct (HistoryFacts.position_lt _ _ _ Hp) as [Hlt Hi].
  split; [|split].
  - unfold edit_pdf. rewrite Hf. cbn [load_or_empty py_len bind py_index].
    rewrite Hlt, Hp, Hn. cbn [bind file_or_none py_get]. rewrite Hfile. cbn [bind].
    rewrite He. reflexivity.
  - intros H0. unfold edit_quotation_prefill. rewrite Hf. cbn [load_list_or_empty].
    assert (i = Z.to_nat index) as ->.
    { unfold position in Hp. destruct (index <? 0) eqn:E; [apply Z.ltb_lt in E; lia|].
      destruct ((0 <=? index) && (index <? Z.of_nat (List.length l))); [|discriminate].
      now injection Hp. }
    destruct (index <? 0) eqn:E; [apply Z.ltb_lt in E; lia|].
    rewrite Hlt. cbn [orb]. rewrite Hn. destruct (dict_get kvs "data"); reflexivity.
  - intros Hneg. unfold edit_quotation_prefill.
    apply Z.ltb_lt in Hneg. now rewrite Hneg.
Qed.

Lemma edit_pdf_and_edit_quotation_witness :
  let a := JDict [("customer_name", JStr "Acme"); ("file", JStr "a.pdf");
                  ("data", JDict [("note", JNull)])] in
  let w := {| history_file := Content (JList [a]); files := ["static/a.pdf"] |} in
  edit_pdf [] (-1) w = Ok (EditPage (Some (JStr "Acme")) "a.pdf" (-1)) /\
  edit_quotation_prefill (-1) w = inl (Redirect "/history") /\
  edit_quotation_prefill 0 w = inr (JDict [("note", JNull)]).
Proof.
  intros a w.
  pose proof (edit_pdf_and_edit_quotation [] w [a] (-1) 0%nat
                [("customer_name", JStr "Acme"); ("file", JStr "a.pdf");
                 ("data", JDict [("note", JNull)])] "a.pdf"
                eq_refl eq_refl eq_refl eq_refl eq_refl) as (H1 & _ & H3).
  pose proof (edit_pdf_and_edit_quotation [] w [a] 0 0%nat
                [("customer_name", JStr "Acme"); ("file", JStr "a.pdf");
                 ("data", JDict [("note", JNull)])] "a.pdf"
                eq_refl eq_refl eq_refl eq_refl eq_refl) as (_ & H2 & _).
  split; [exact H1|]. split; [exact (H3 eq_refl) | exact (H2 ltac:(discriminate))].
Defined.

End LogFacts.
